(** * Museum data pipeline: the live Kafka-to-database path

    A shallow embedding of [src/kafka_to_db.py] (the consumer loop, the
    inline validation, [transform_kafka_data], [move_to_db]) and of
    [tuple_switch_one] from [src/pipeline.py], with the properties the
    specification states about them.

    After them come the batch migrations of [src/pipeline.py], the two
    helpers of [src/populate_db_tables.py] and the file handling of
    [src/extract.py], with properties read off the code.

    Python values are an inductive type, exceptions are a result monad,
    the database connection and the logger are explicit state. *)

From Stdlib Require Import ZArith String Ascii List Lia Bool.
From Stdlib Require Import Floats.SpecFloat.
From stdpp Require Import gmap strings list pretty.

#[local] Set Warnings "-register-all".
#[local] Open Scope string_scope.
#[local] Open Scope Z_scope.

(** ** Python values and exceptions *)

(** The values [json.loads] can produce.  A float is an exact binary
    number (sign, mantissa, exponent), an infinity or a NaN; only its
    comparison with integers matters below. *)
Inductive pyval :=
  | PNone
  | PBool (b : bool)
  | PInt (z : Z)
  | PFloat (f : spec_float)
  | PStr (s : string)
  | PList (l : list pyval)
  | PDict (d : gmap string pyval).

(** The exception classes that occur on the modelled paths. *)
Inductive exn :=
  | ValueError
  | TypeError
  | KeyError
  | AttributeError
  | UnboundLocalError
  | UnicodeDecodeError
  | JSONDecodeError
  | KafkaException
  | KafkaError
  | IndexError
  | InterfaceError
  | IntegrityError
  | KeyboardInterrupt.

(** A computation either returns a value or raises. *)
Inductive result (A : Type) :=
  | Ok (a : A)
  | Raise (e : exn).
Arguments Ok {A} a.
Arguments Raise {A} e.

#[global] Instance result_ret : MRet result := fun _ a => Ok a.
#[global] Instance result_bind : MBind result := fun _ _ f m =>
  match m with
  | Ok a => f a
  | Raise e => Raise e
  end.

Definition exn_eqb (a b : exn) : bool :=
  match a, b with
  | ValueError, ValueError | TypeError, TypeError | KeyError, KeyError
  | AttributeError, AttributeError | UnboundLocalError, UnboundLocalError
  | UnicodeDecodeError, UnicodeDecodeError | JSONDecodeError, JSONDecodeError
  | KafkaException, KafkaException | KafkaError, KafkaError
  | IndexError, IndexError | InterfaceError, InterfaceError
  | IntegrityError, IntegrityError
  | KeyboardInterrupt, KeyboardInterrupt => true
  | _, _ => false
  end.

(** [f == k] for a float [f] and an integer [k]: Python compares the
    exact values. *)
Definition float_eq_int (f : spec_float) (k : Z) : bool :=
  match f with
  | S754_zero _ => k =? 0
  | S754_infinity _ => false
  | S754_nan => false
  | S754_finite s m e =>
      let v := if s then Z.neg m else Z.pos m in
      if 0 <=? e then v * 2 ^ e =? k else v =? k * 2 ^ (- e)
  end.

(** [v == k] for an integer [k]: [True] and [False] are the integers 1
    and 0, a float is compared by value, everything else differs. *)
Definition py_eq_int (v : pyval) (k : Z) : bool :=
  match v with
  | PInt z => z =? k
  | PBool b => (if b then 1 else 0) =? k
  | PFloat f => float_eq_int f k
  | _ => false
  end.

(** [v == s] for a string [s]. *)
Definition py_eq_str (v : pyval) (s : string) : bool :=
  match v with
  | PStr t => String.eqb t s
  | _ => false
  end.

(** [v in l], for a list of integers and for a list of strings. *)
Definition py_in_ints (v : pyval) (l : list Z) : bool :=
  existsb (py_eq_int v) l.

Definition py_in_strs (v : pyval) (l : list string) : bool :=
  existsb (py_eq_str v) l.

(** [len(v)]; a value without a length raises [TypeError]. *)
Definition py_len (v : pyval) : result Z :=
  match v with
  | PStr s => Ok (Z.of_nat (String.length s))
  | PList l => Ok (Z.of_nat (List.length l))
  | PDict d => Ok (Z.of_nat (size d))
  | _ => Raise TypeError
  end.

(** [s.rjust(width, fill)]. *)
Definition rjust (s : string) (width : nat) (fill : ascii) : string :=
  string_of_list_ascii (repeat fill (width - String.length s)) +:+ s.

(** ** [src/pipeline.py] *)

Section tuple_switch.
Context {V A B : Type}.
(** The test [val == tpl[1]]. *)
Variable py_eq : V -> B -> bool.

(** [tuple_switch_one]: the first component of the first tuple, in list
    order, whose second component equals [val]; [ValueError] when the
    loop runs off the end. *)
Fixpoint tuple_switch_one (val : V) (list_of_tuples : list (A * B)) : result A :=
  match list_of_tuples with
  | [] => Raise ValueError
  | tpl :: rest =>
      if py_eq val (snd tpl) then Ok (fst tpl) else tuple_switch_one val rest
  end.
End tuple_switch.

(** ** The [datetime] calls of [transform_kafka_data]

    [datetime.strptime(s, '%Y-%m-%dT%H:%M:%S.%f%z')] follows CPython's
    [Lib/_strptime.py] (3.11): the format is turned into a regular
    expression, the text is matched from its start with a backtracking
    matcher, the whole text must be consumed, the captured groups are
    converted with [int], and the [datetime] and [timezone]
    constructors check the ranges.  Text is modelled over the code
    points 0..255, where [\d] is [[0-9]]. *)
Module Datetime.

Inductive re :=
  | Eps
  | Set_ (p : ascii -> bool)
  | Cat (r1 r2 : re)
  | Alt (r1 r2 : re)
  | Opt (r : re)
  | Grp (name : string) (r : re).

(** One way a pattern matches at the start of a text: the groups it
    captured, the text it consumed, the text that remains. *)
Record found := {
  groupdict : gmap string string;
  matched : string;
  remaining : string
}.

(** All the ways [r] matches at the start of [s], in the order a
    backtracking matcher tries them (alternatives left to right, an
    optional part first taken and then skipped).  The head is the match
    Python's [re.match] returns. *)
Fixpoint re_match (r : re) (s : string) : list found :=
  match r with
  | Eps => [{| groupdict := ∅; matched := EmptyString; remaining := s |}]
  | Set_ p =>
      match s with
      | String c s' =>
          if p c then [{| groupdict := ∅; matched := String c EmptyString; remaining := s' |}]
          else []
      | EmptyString => []
      end
  | Cat r1 r2 =>
      flat_map (fun m1 =>
        map (fun m2 =>
               {| groupdict := groupdict m1 ∪ groupdict m2;
                  matched := matched m1 +:+ matched m2;
                  remaining := remaining m2 |})
            (re_match r2 (remaining m1)))
        (re_match r1 s)
  | Alt r1 r2 => re_match r1 s ++ re_match r2 s
  | Opt r1 =>
      re_match r1 s ++ [{| groupdict := ∅; matched := EmptyString; remaining := s |}]
  | Grp name r1 =>
      map (fun m =>
             {| groupdict := <[name := matched m]> (groupdict m);
                matched := matched m;
                remaining := remaining m |})
          (re_match r1 s)
  end.

Definition in_range (lo hi c : ascii) : bool :=
  ((N_of_ascii lo <=? N_of_ascii c) && (N_of_ascii c <=? N_of_ascii hi))%N.

Definition digit : re := Set_ (in_range "0" "9").
Definition rng (lo hi : ascii) : re := Set_ (in_range lo hi).
Definition chr (c : ascii) : re := Set_ (Ascii.eqb c).
(** A letter of the format under [re.IGNORECASE]. *)
Definition chr_i (lower upper : ascii) : re :=
  Set_ (fun c => Ascii.eqb c lower || Ascii.eqb c upper).

(** [r{1,n+1}], greedy. *)
Fixpoint upto (n : nat) (r : re) : re :=
  match n with
  | O => Eps
  | S n' => Opt (Cat r (upto n' r))
  end.
Definition rep1 (n : nat) (r : re) : re := Cat r (upto n r).

Infix "·" := Cat (at level 40, left associativity).
Infix "∥" := Alt (at level 50, left associativity).

(** The directives of [TimeRE]. *)
Definition re_Y : re := Grp "Y" (digit · digit · digit · digit).
Definition re_m : re :=
  Grp "m" (chr "1" · rng "0" "2" ∥ chr "0" · rng "1" "9" ∥ rng "1" "9").
Definition re_d : re :=
  Grp "d" (chr "3" · rng "0" "1" ∥ rng "1" "2" · digit ∥ chr "0" · rng "1" "9"
           ∥ rng "1" "9" ∥ chr " " · rng "1" "9").
Definition re_H : re :=
  Grp "H" (chr "2" · rng "0" "3" ∥ rng "0" "1" · digit ∥ digit).
Definition re_M : re := Grp "M" (rng "0" "5" · digit ∥ digit).
Definition re_S : re :=
  Grp "S" (chr "6" · rng "0" "1" ∥ rng "0" "5" · digit ∥ digit).
Definition re_f : re := Grp "f" (rep1 5 digit).
Definition re_z : re :=
  Grp "z" ((chr "+" ∥ chr "-") · digit · digit · Opt (chr ":") · rng "0" "5" · digit
             · Opt (Opt (chr ":") · rng "0" "5" · digit
                    · Opt (chr "." · rep1 5 digit))
           ∥ chr "Z").

(** The lengths of text a pattern can consume. *)
Fixpoint widths (r : re) : list nat :=
  match r with
  | Eps => [0%nat]
  | Set_ _ => [1%nat]
  | Cat r1 r2 => flat_map (fun a => map (fun b => (a + b)%nat) (widths r2)) (widths r1)
  | Alt r1 r2 => widths r1 ++ widths r2
  | Opt r1 => widths r1 ++ [0%nat]
  | Grp _ r1 => widths r1
  end.

(** Whether a pattern has no capturing group. *)
Fixpoint no_groups (r : re) : bool :=
  match r with
  | Eps => true
  | Set_ _ => true
  | Cat r1 r2 => no_groups r1 && no_groups r2
  | Alt r1 r2 => no_groups r1 && no_groups r2
  | Opt r1 => no_groups r1
  | Grp _ _ => false
  end.
(** The pattern of ['%Y-%m-%dT%H:%M:%S.%f%z']: the date and the time of
    day, then the offset. *)
Definition wall_clock_regex : re :=
  re_Y · chr "-" · re_m · chr "-" · re_d · chr_i "t" "T" · re_H · chr ":" · re_M
    · chr ":" · re_S · chr "." · re_f.
Definition format_regex : re := wall_clock_regex · re_z.

(** [s[i:j]] and [s[i:]]. *)
Definition slice (i j : nat) (s : string) : string := substring i (j - i) s.
Definition slice_from (i : nat) (s : string) : string :=
  substring i (String.length s) s.

Fixpoint digits_value (acc : Z) (s : string) : option Z :=
  match s with
  | EmptyString => Some acc
  | String c s' =>
      if in_range "0" "9" c
      then digits_value (10 * acc + Z.of_N (N_of_ascii c - 48)) s'
      else None
  end.

Fixpoint lstrip (s : string) : string :=
  match s with
  | String " " s' => lstrip s'
  | _ => s
  end.

(** [int(s)] on the texts the pattern can hand to it: decimal digits,
    possibly after blanks; anything else (the empty text, a colon) is a
    [ValueError]. *)
Definition py_int (s : string) : result Z :=
  match lstrip s with
  | EmptyString => Raise ValueError
  | t => match digits_value 0 t with
         | Some n => Ok n
         | None => Raise ValueError
         end
  end.

(** ["0" * n]. *)
Definition zeros (n : nat) : string := string_of_list_ascii (repeat "0"%char n).

(** The ['z'] branch of [_strptime]: seconds and microseconds of the
    offset. *)
Definition parse_offset (z0 : string) : result (Z * Z) :=
  if String.eqb z0 "Z" then Ok (0, 0)
  else
    z ← match get 3 z0 with
        | None => Raise IndexError
        | Some c3 =>
            if Ascii.eqb c3 ":" then
              let z1 := slice 0 3 z0 +:+ slice_from 4 z0 in
              if (5 <? String.length z1)%nat then
                match get 5 z1 with
                | None => Raise IndexError
                | Some c5 =>
                    if negb (Ascii.eqb c5 ":") then Raise ValueError
                    else Ok (slice 0 5 z1 +:+ slice_from 6 z1)
                end
              else Ok z1
            else Ok z0
        end;
    hours ← py_int (slice 1 3 z);
    minutes ← py_int (slice 3 5 z);
    seconds ← (let t := slice 5 7 z in
               if String.eqb t EmptyString then Ok 0 else py_int t);
    let gmtoff := hours * 60 * 60 + minutes * 60 + seconds in
    let gmtoff_remainder := slice_from 8 z in
    gmtoff_fraction ←
      py_int (gmtoff_remainder +:+ zeros (6 - String.length gmtoff_remainder));
    if String.prefix "-" z then Ok (- gmtoff, - gmtoff_fraction)
    else Ok (gmtoff, gmtoff_fraction).

(** An aware [datetime]: the wall-clock fields and the offset from UTC
    in microseconds. *)
Record datetime := {
  year : Z; month : Z; day : Z;
  hour : Z; minute : Z; second : Z; microsecond : Z;
  utcoffset : Z
}.

Definition is_leap (y : Z) : bool :=
  (y mod 4 =? 0) && (negb (y mod 100 =? 0) || (y mod 400 =? 0)).

Definition days_in_month (y m : Z) : Z :=
  if m =? 2 then (if is_leap y then 29 else 28)
  else if (m =? 4) || (m =? 6) || (m =? 9) || (m =? 11) then 30
  else 31.

Definition between (lo x hi : Z) : bool := (lo <=? x) && (x <=? hi).

(** The range checks of [date(...)], [timezone(...)] and
    [datetime(...)]. *)
Definition make_datetime (Y m d H M S f gmtoff gmtoff_fraction : Z) : result datetime :=
  if negb (between 1 Y 9999 && between 1 m 12 && between 1 d (days_in_month Y m))
  then Raise ValueError
  else
    let off := gmtoff * 1000000 + gmtoff_fraction in
    if negb ((- 86400000000 <? off) && (off <? 86400000000)) then Raise ValueError
    else if negb (between 0 H 23 && between 0 M 59 && between 0 S 59
                  && between 0 f 999999)
    then Raise ValueError
    else Ok {| year := Y; month := m; day := d; hour := H; minute := M;
               second := S; microsecond := f; utcoffset := off |}.

(** [found_dict[key]]. *)
Definition group (found_dict : gmap string string) (key : string) : result string :=
  match found_dict !! key with
  | Some s => Ok s
  | None => Raise KeyError
  end.

(** [datetime.strptime(data_string, '%Y-%m-%dT%H:%M:%S.%f%z')] for a
    text argument. *)
Definition strptime (data_string : string) : result datetime :=
  match re_match format_regex data_string with
  | [] => Raise ValueError
  | m :: _ =>
      if negb (String.eqb (remaining m) EmptyString) then Raise ValueError
      else
        let found_dict := groupdict m in
        Y ← group found_dict "Y" ≫= py_int;
        m ← group found_dict "m" ≫= py_int;
        d ← group found_dict "d" ≫= py_int;
        H ← group found_dict "H" ≫= py_int;
        M ← group found_dict "M" ≫= py_int;
        S ← group found_dict "S" ≫= py_int;
        f ← (s ← group found_dict "f";
             py_int (s +:+ zeros (6 - String.length s)));
        off ← group found_dict "z" ≫= parse_offset;
        make_datetime Y m d H M S f (fst off) (snd off)
  end.

(** A two-digit field of [strftime]. *)
Definition two_digits (n : Z) : string :=
  if n <? 10 then "0" +:+ pretty n else pretty n.

(** [time.strftime('%m/%d/%y %H:%M:%S')]: the wall-clock fields of the
    object as they are; the offset is not consulted. *)
Definition strftime (t : datetime) : string :=
  two_digits (month t) +:+ "/" +:+ two_digits (day t) +:+ "/"
    +:+ two_digits (year t mod 100) +:+ " " +:+ two_digits (hour t) +:+ ":"
    +:+ two_digits (minute t) +:+ ":" +:+ two_digits (second t).

(** [t.replace(tzinfo=timezone(off))]: the same wall-clock fields under
    another offset. *)
Definition replace_offset (off : Z) (t : datetime) : datetime :=
  {| year := year t; month := month t; day := day t; hour := hour t;
     minute := minute t; second := second t; microsecond := microsecond t;
     utcoffset := off |}.

End Datetime.

(** ** State and exceptions together

    A statement that reads and updates a state of type [S] and may
    raise: the state at the point of the exception is kept, since a
    [finally] clause still acts on it. *)
Definition prog (S A : Type) : Type := S -> result A * S.

#[global] Instance prog_ret {S} : MRet (prog S) := fun _ a s => (Ok a, s).
#[global] Instance prog_bind {S} : MBind (prog S) := fun _ _ f m s =>
  match m s with
  | (Ok a, s') => f a s'
  | (Raise e, s') => (Raise e, s')
  end.

Definition raise {S A} (e : exn) : prog S A := fun s => (Raise e, s).
Definition lift {S A} (r : result A) : prog S A := fun s => (r, s).
Definition gets {S A} (f : S -> A) : prog S A := fun s => (Ok (f s), s).
Definition modify {S} (f : S -> S) : prog S unit := fun s => (Ok tt, f s).

(** ** The database connection

    Modelled from the spec: the schema is not among the sources; the
    spec gives the three destination tables, the Rating reference
    table, and that an inserted row's foreign keys (ExhibitionID into
    Exhibition, RatingID into Rating) must already exist.  A statement
    on a closed connection raises [InterfaceError], a foreign-key
    violation raises [IntegrityError]. *)
Module Db.

Inductive statement :=
  | SelectRating
  | InsertVote (ExhibitionID VoteTime : string) (RatingID : Z)
  | InsertAssistance (ExhibitionID AssistanceTime : string)
  | InsertEmergency (ExhibitionID EmergencyTime : string).

Record connection := {
  closed : bool;
  Exhibition : list string;
  Rating : list (Z * Z);
  Vote : list (string * string * Z);
  Assistance : list (string * string);
  Emergency : list (string * string);
  pending : list statement;
  executed : list statement
}.

Definition set_closed (b : bool) (c : connection) : connection :=
  {| closed := b; Exhibition := Exhibition c; Rating := Rating c; Vote := Vote c;
     Assistance := Assistance c; Emergency := Emergency c;
     pending := pending c; executed := executed c |}.
Definition set_pending (p : list statement) (c : connection) : connection :=
  {| closed := closed c; Exhibition := Exhibition c; Rating := Rating c; Vote := Vote c;
     Assistance := Assistance c; Emergency := Emergency c;
     pending := p; executed := executed c |}.
Definition set_executed (x : list statement) (c : connection) : connection :=
  {| closed := closed c; Exhibition := Exhibition c; Rating := Rating c; Vote := Vote c;
     Assistance := Assistance c; Emergency := Emergency c;
     pending := pending c; executed := x |}.

(** The row of one insert statement added to its table. *)
Definition store (q : statement) (c : connection) : connection :=
  match q with
  | SelectRating => c
  | InsertVote e t r =>
      {| closed := closed c; Exhibition := Exhibition c; Rating := Rating c;
         Vote := Vote c ++ [(e, t, r)];
         Assistance := Assistance c; Emergency := Emergency c;
         pending := pending c; executed := executed c |}
  | InsertAssistance e t =>
      {| closed := closed c; Exhibition := Exhibition c; Rating := Rating c;
         Vote := Vote c; Assistance := Assistance c ++ [(e, t)];
         Emergency := Emergency c;
         pending := pending c; executed := executed c |}
  | InsertEmergency e t =>
      {| closed := closed c; Exhibition := Exhibition c; Rating := Rating c;
         Vote := Vote c; Assistance := Assistance c;
         Emergency := Emergency c ++ [(e, t)];
         pending := pending c; executed := executed c |}
  end.

Definition has_exhibition (c : connection) (e : string) : bool :=
  existsb (String.eqb e) (Exhibition c).
Definition has_rating_id (c : connection) (r : Z) : bool :=
  existsb (Z.eqb r) (map fst (Rating c)).

(** The constraints a statement must meet. *)
Definition accepts (c : connection) (q : statement) : bool :=
  match q with
  | SelectRating => true
  | InsertVote e _ r => has_exhibition c e && has_rating_id c r
  | InsertAssistance e _ => has_exhibition c e
  | InsertEmergency e _ => has_exhibition c e
  end.

(** [connection.cursor()]. *)
Definition cursor : prog connection unit := fun c =>
  if closed c then (Raise InterfaceError, c) else (Ok tt, c).

(** [cursor.execute(query, params)] followed, for the select, by
    [cursor.fetchall()]: the statement is recorded as issued, an insert
    waits for the commit, the select yields the (RatingID, Rating)
    rows. *)
Definition execute (q : statement) : prog connection (list (Z * Z)) := fun c =>
  if closed c then (Raise InterfaceError, c)
  else
    let c1 := set_executed (executed c ++ [q]) c in
    if negb (accepts c q) then (Raise IntegrityError, c1)
    else
      match q with
      | SelectRating => (Ok (Rating c), c1)
      | _ => (Ok [], set_pending (pending c1 ++ [q]) c1)
      end.

(** [connection.commit()]. *)
Definition commit : prog connection unit := fun c =>
  if closed c then (Raise InterfaceError, c)
  else (Ok tt, set_pending [] (fold_left (fun c' q => store q c') (pending c) c)).

(** [connection.close()]: what was not committed is rolled back. *)
Definition close (c : connection) : connection :=
  set_closed true (set_pending [] c).

(** How many times the Rating table was queried. *)
Definition is_select (q : statement) : bool :=
  match q with
  | SelectRating => true
  | _ => false
  end.
Definition rating_queries (c : connection) : nat :=
  List.length (List.filter is_select (executed c)).

End Db.

(** ** [src/kafka_to_db.py] *)

(** The dictionary [transform_kafka_data] builds: its four keys. *)
Record transformed := {
  at_ : string;
  site : string;
  val : pyval;
  type_ : pyval
}.

(** [data[key]] on a decoded JSON value. *)
Definition getitem (data : pyval) (key : string) : result pyval :=
  match data with
  | PDict d =>
      match d !! key with
      | Some v => Ok v
      | None => Raise KeyError
      end
  | _ => Raise TypeError
  end.

(** [key in data] for a dictionary. *)
Definition has_key (d : gmap string pyval) (key : string) : bool :=
  bool_decide (is_Some (d !! key)).

(** [datetime.strptime] on any value: a non-text argument is a
    [TypeError]. *)
Definition py_strptime (v : pyval) : result Datetime.datetime :=
  match v with
  | PStr s => Datetime.strptime s
  | _ => Raise TypeError
  end.

(** [v.rjust(1, '0')]: only text has the method. *)
Definition py_rjust (v : pyval) : result string :=
  match v with
  | PStr s => Ok (rjust s 1 "0")
  | _ => Raise AttributeError
  end.

Definition transform_kafka_data (data : pyval) : result transformed :=
  at_raw ← getitem data "at";
  time ← py_strptime at_raw;
  let formatted_time := Datetime.strftime time in
  site_raw ← getitem data "site";
  padded ← py_rjust site_raw;
  v ← getitem data "val";
  ty ← match data with
       | PDict d => if has_key d "type" then getitem data "type" else Ok PNone
       | _ => Raise TypeError
       end;
  Ok {| at_ := formatted_time; site := "EXH_0" +:+ padded; val := v; type_ := ty |}.

Definition move_to_db (data : transformed) : prog Db.connection unit :=
  Db.cursor;;
  if negb (py_eq_int (val data) (-1)) then
    rating_data ← Db.execute Db.SelectRating;
    matching_rating_id ← lift (tuple_switch_one py_eq_int (val data) rating_data);
    Db.execute (Db.InsertVote (site data) (at_ data) matching_rating_id);;
    Db.commit
  else if py_eq_int (val data) (-1) && py_eq_int (type_ data) 0 then
    Db.execute (Db.InsertAssistance (site data) (at_ data));;
    Db.commit
  else if py_eq_int (val data) (-1) && py_eq_int (type_ data) 1 then
    Db.execute (Db.InsertEmergency (site data) (at_ data));;
    Db.commit
  else mret tt.

(** The four reasons the loop gives for skipping a message. *)
Inductive validation_error :=
  | MissingField
  | InvalidSite
  | InvalidValue
  | InvalidType.

Definition nl : string := String (ascii_of_nat 10) EmptyString.

Definition error_text (e : validation_error) : string :=
  match e with
  | MissingField => "Error: Missing 'at', 'site', or 'val'" +:+ nl
  | InvalidSite => "Error: Invalid exhibition number" +:+ nl
  | InvalidValue => "Error: Value out of range" +:+ nl
  | InvalidType => "Error: Invalid type given" +:+ nl
  end.

(** [range(lo, hi)] and [str(x)]. *)
Definition range (lo hi : Z) : list Z := seqZ lo (hi - lo).
Definition str (x : Z) : string := pretty x.

(** The checks of the loop body on the decoded payload, in the order of
    the code: [Ok None] when every check passes, [Ok (Some r)] when the
    check for [r] fires (the code then logs and continues), an
    exception when the payload is not a dictionary ([.keys()]). *)
Definition validate (msg_dict : pyval) : result (option validation_error) :=
  match msg_dict with
  | PDict d =>
      if negb (has_key d "at") || negb (has_key d "site") || negb (has_key d "val")
      then Ok (Some MissingField)
      else
        site_raw ← getitem msg_dict "site";
        bad_site ← (if negb (py_in_strs site_raw (str <$> range 0 6)) then Ok true
                    else n ← py_len site_raw; Ok (negb (n =? 1)));
        if bad_site : bool then Ok (Some InvalidSite)
        else
          v ← getitem msg_dict "val";
          if negb (py_in_ints v (range (-1) 5)) then Ok (Some InvalidValue)
          else if has_key d "type" then
            ty ← getitem msg_dict "type";
            if negb (py_in_ints ty [0; 1]) then Ok (Some InvalidType)
            else Ok None
          else Ok None
  | _ => Raise AttributeError
  end.

(** What [consumer.poll] hands to one iteration.  The codec is the
    library's: a message is given by what [msg.value().decode()] and
    [json.loads] make of it, an exception or a decoded value. *)
Inductive message :=
  | MsgRaises (e : exn)
  | MsgJson (v : pyval).

Inductive poll :=
  | PollNone
  | PollMsg (m : message)
  | PollRaises (e : exn).

Inductive log_record :=
  | LogInfo (text : string) (arg : option pyval)
  | LogError (text : string) (arg : exn).

(** The consumer, the connection, the logger, the console and the
    local variable [msg_dict], which keeps its value from one iteration
    to the next. *)
Record state := {
  connection : Db.connection;
  subscription : list string;
  consumer_closed : bool;
  log : list log_record;
  console : list transformed;
  msg_dict : option pyval
}.

Definition with_connection (f : Db.connection -> Db.connection) (s : state) : state :=
  {| connection := f (connection s); subscription := subscription s;
     consumer_closed := consumer_closed s; log := log s; console := console s;
     msg_dict := msg_dict s |}.

Definition on_connection {A} (p : prog Db.connection A) : prog state A := fun s =>
  let '(r, c) := p (connection s) in (r, with_connection (fun _ => c) s).

Definition logging (r : log_record) : prog state unit :=
  modify (fun s =>
    {| connection := connection s; subscription := subscription s;
       consumer_closed := consumer_closed s; log := log s ++ [r];
       console := console s; msg_dict := msg_dict s |}).

Definition print (t : transformed) : prog state unit :=
  modify (fun s =>
    {| connection := connection s; subscription := subscription s;
       consumer_closed := consumer_closed s; log := log s;
       console := console s ++ [t]; msg_dict := msg_dict s |}).

Definition assign_msg_dict (v : pyval) : prog state unit :=
  modify (fun s =>
    {| connection := connection s; subscription := subscription s;
       consumer_closed := consumer_closed s; log := log s;
       console := console s; msg_dict := Some v |}).

Definition subscribe (topic : string) (s : state) : state :=
  {| connection := connection s; subscription := [topic];
     consumer_closed := consumer_closed s; log := log s;
     console := console s; msg_dict := msg_dict s |}.

(** The [finally] clause: [consumer.close()] and [connection.close()]. *)
Definition close_all (s : state) : state :=
  {| connection := Db.close (connection s); subscription := [];
     consumer_closed := true; log := log s;
     console := console s; msg_dict := msg_dict s |}.

(** How the inner [try] block ends when it does not raise: with
    [continue], or by running off its end. *)
Inductive flow :=
  | Continue
  | Proceed.

(** The body of the inner [try]. *)
Definition try_body (m : message) : prog state flow :=
  match m with
  | MsgRaises e => raise e
  | MsgJson v =>
      assign_msg_dict v;;
      verdict ← lift (validate v);
      match verdict with
      | Some reason =>
          logging (LogInfo "Message: %s" (Some v));;
          logging (LogInfo (error_text reason) None);;
          mret Continue
      | None => mret Proceed
      end
  end.

(** The inner [try] with its two handlers, which log and fall through
    to the statements after the block. *)
Definition try_block (m : message) : prog state flow := fun s =>
  match try_body m s with
  | (Raise KafkaException, s') =>
      (logging (LogError "Kafka error: %s" KafkaException);; mret Proceed) s'
  | (Raise KafkaError, s') =>
      (logging (LogError "Kafka error: %s" KafkaError);; mret Proceed) s'
  | r => r
  end.

(** The statements after the inner [try]: transform what [msg_dict]
    is bound to, write it, echo it. *)
Definition after_try : prog state unit :=
  bound ← gets msg_dict;
  data ← match bound with
         | Some v => mret v
         | None => raise UnboundLocalError
         end;
  transformed_data ← lift (transform_kafka_data data);
  on_connection (move_to_db transformed_data);;
  print transformed_data.

(** One turn of [while True]. *)
Definition iteration (p : poll) : prog state unit :=
  match p with
  | PollRaises e => raise e
  | PollNone => mret tt
  | PollMsg m =>
      f ← try_block m;
      match f with
      | Continue => mret tt
      | Proceed => after_try
      end
  end.

(** The loop over the polls that have happened so far. *)
Fixpoint loop (polls : list poll) : prog state unit :=
  match polls with
  | [] => mret tt
  | p :: rest => iteration p;; loop rest
  end.

(** Where [process_kafka_data] stands after a finite sequence of polls:
    still polling, returned (the interrupt), or left by an exception;
    in the last two cases the [finally] clause has run.  An interrupt
    is part of a run where [poll] or the decoding of a message raises
    it; one that falls while the statements of the body run is not
    followed here, so what is stated of runs is stated of runs that no
    such interrupt has ended. *)
Inductive outcome :=
  | Polling (s : state)
  | Returned (s : state)
  | Raised (e : exn) (s : state).

Definition process_kafka_data (topic : string) (polls : list poll) (s : state) : outcome :=
  match loop polls (subscribe topic s) with
  | (Ok _, s') => Polling s'
  | (Raise KeyboardInterrupt, s') => Returned (close_all s')
  | (Raise e, s') => Raised e (close_all s')
  end.

(** ** What the specification describes, for comparison with the code *)
Module Spec.
Import Datetime.

Definition day_us : Z := 86400000000.

Definition next_day (y m d : Z) : option (Z * Z * Z) :=
  if d <? days_in_month y m then Some (y, m, d + 1)
  else if m <? 12 then Some (y, m + 1, 1)
  else if y <? 9999 then Some (y + 1, 1, 1)
  else None.

Definition prev_day (y m d : Z) : option (Z * Z * Z) :=
  if 1 <? d then Some (y, m, d - 1)
  else if 1 <? m then Some (y, m - 1, days_in_month y (m - 1))
  else if 1 <? y then Some (y - 1, 12, 31)
  else None.

(** The same instant on the UTC clock ([None] beyond the years
    1..9999): the spec's "UTC-normalize". *)
Definition utc_normalize (t : datetime) : option datetime :=
  let us := ((hour t * 60 + minute t) * 60 + second t) * 1000000 + microsecond t
            - utcoffset t in
  let shift := us / day_us in
  let tod := us mod day_us in
  date ← (if shift =? 0 then Some (year t, month t, day t)
          else if shift =? 1 then next_day (year t) (month t) (day t)
          else if shift =? -1 then prev_day (year t) (month t) (day t)
          else None);
  Some {| year := fst (fst date); month := snd (fst date); day := snd date;
          hour := tod / 3600000000; minute := tod / 60000000 mod 60;
          second := tod / 1000000 mod 60; microsecond := tod mod 1000000;
          utcoffset := 0 |}.

(** The timestamp text of the spec's transformer: UTC-normalized, then
    [MM/DD/YY HH:MM:SS]. *)
Definition utc_timestamp (t : datetime) : option string :=
  strftime <$> utc_normalize t.

(** The validator of the spec (section 4.1), rule by rule. *)
Definition is_integer_in (lo hi : Z) (v : pyval) : bool :=
  match v with
  | PInt z => (lo <=? z) && (z <=? hi)
  | _ => false
  end.

(** 1. The keys [at], [site] and [val] must all exist. *)
Definition presence_rule (d : gmap string pyval) : bool :=
  has_key d "at" && has_key d "site" && has_key d "val".

(** 2. [site] must be exactly one character and a decimal digit in
    0..5. *)
Definition site_rule (d : gmap string pyval) : bool :=
  match d !! "site" with
  | Some (PStr (String c EmptyString)) => in_range "0" "5" c
  | _ => false
  end.

(** 3. [val] must be an integer in -1..4. *)
Definition val_rule (d : gmap string pyval) : bool :=
  match d !! "val" with
  | Some v => is_integer_in (-1) 4 v
  | None => false
  end.

(** 4. If [val == -1] and the [type] key is present, [type] must be
    an integer in {0,1}. *)
Definition type_rule (d : gmap string pyval) : bool :=
  match d !! "val" with
  | Some (PInt z) =>
      if z =? -1 then
        match d !! "type" with
        | Some ty => is_integer_in 0 1 ty
        | None => true
        end
      else true
  | _ => true
  end.

Definition rules : list ((gmap string pyval -> bool) * validation_error) :=
  [(presence_rule, MissingField); (site_rule, InvalidSite);
   (val_rule, InvalidValue); (type_rule, InvalidType)].

(** The rules are applied in order; the first failing rule determines
    the reported error. *)
Definition validate (d : gmap string pyval) : option validation_error :=
  snd <$> List.find (fun r => negb (fst r d)) rules.

End Spec.

(** The four checks of the loop body as conditions on the dictionary,
    read off the code, in the order the loop applies them, each with
    the error it reports.  They are not the rules of the spec, which
    are [Spec.presence_rule] to [Spec.type_rule]: here [val] and
    [type] are compared with [==], and the type check does not look at
    [val]. *)
Definition presence_rule (d : gmap string pyval) : bool :=
  has_key d "at" && has_key d "site" && has_key d "val".

Definition site_rule (d : gmap string pyval) : bool :=
  match d !! "site" with
  | Some (PStr s) =>
      existsb (String.eqb s) ["0"; "1"; "2"; "3"; "4"; "5"]
      && (String.length s =? 1)%nat
  | _ => false
  end.

Definition val_rule (d : gmap string pyval) : bool :=
  match d !! "val" with
  | Some v => existsb (py_eq_int v) [-1; 0; 1; 2; 3; 4]
  | None => false
  end.

Definition type_rule (d : gmap string pyval) : bool :=
  match d !! "type" with
  | Some ty => py_eq_int ty 0 || py_eq_int ty 1
  | None => true
  end.

Definition rules : list ((gmap string pyval -> bool) * validation_error) :=
  [(presence_rule, MissingField); (site_rule, InvalidSite);
   (val_rule, InvalidValue); (type_rule, InvalidType)].

(** The error of the first rule, in that order, that does not hold. *)
Definition first_failure (d : gmap string pyval) : option validation_error :=
  snd <$> List.find (fun r => negb (fst r d)) rules.



(** Whether a transformed record is a vote. *)
Definition is_vote (t : transformed) : bool := negb (py_eq_int (val t) (-1)).

(** ** Timestamp texts

    The decimal digit [n], numbers zero-padded to two and four digits,
    and the text YYYY-mm-ddTHH:MM:SS of a date and a time of day. *)
Definition dg (n : nat) : ascii := ascii_of_nat (48 + n).
Definition pad2 (n : nat) : string :=
  String (dg (n / 10)) (String (dg (n mod 10)) EmptyString).
Definition pad4 (n : nat) : string :=
  String (dg (n / 1000)) (String (dg (n / 100 mod 10)) (pad2 (n mod 100))).
Definition iso_wall_clock (Y m d H M S : nat) : string :=
  pad4 Y +:+ "-" +:+ pad2 m +:+ "-" +:+ pad2 d +:+ "T" +:+ pad2 H +:+ ":"
    +:+ pad2 M +:+ ":" +:+ pad2 S.

(** The same text given by its characters, followed by [rest]. *)
Definition wall_text (y1 y2 y3 y4 mo1 mo2 d1 d2 h1 h2 mi1 mi2 s1 s2 : ascii)
    (rest : string) : string :=
  String y1 (String y2 (String y3 (String y4 (String "-"
  (String mo1 (String mo2 (String "-"
  (String d1 (String d2 (String "T"
  (String h1 (String h2 (String ":"
  (String mi1 (String mi2 (String ":"
  (String s1 (String s2 rest)))))))))))))))))).

(** ** Sample data

    A connection seeded as [populate_rating_table] leaves the Rating
    table (ratings 0..4 under the keys 1..5), exhibitions EXH_00 to
    EXH_05, a fresh process state, and a few messages. *)
Definition seeded : Db.connection :=
  {| Db.closed := false;
     Db.Exhibition := ["EXH_00"; "EXH_01"; "EXH_02"; "EXH_03"; "EXH_04"; "EXH_05"];
     Db.Rating := [(1, 0); (2, 1); (3, 2); (4, 3); (5, 4)];
     Db.Vote := []; Db.Assistance := []; Db.Emergency := [];
     Db.pending := []; Db.executed := [] |}.

Definition fresh (c : Db.connection) : state :=
  {| connection := c; subscription := []; consumer_closed := false;
     log := []; console := []; msg_dict := None |}.

Definition message_of (fields : list (string * pyval)) : pyval :=
  PDict (list_to_map fields).

(** The message of the end-to-end scenario. *)
Definition vote_message : pyval :=
  message_of [("at", PStr "2024-01-01T10:00:00.000000+00:00");
              ("site", PStr "2"); ("val", PInt 4)].

(** A vote that carries a [type] key outside 0 and 1. *)
Definition typed_vote_message : pyval :=
  message_of [("at", PStr "2024-01-01T10:00:00.000000+00:00");
              ("site", PStr "2"); ("val", PInt 3); ("type", PInt 5)].


(** A message with all three keys whose [at] is not a timestamp. *)
Definition bad_time_message : pyval :=
  message_of [("at", PStr "yesterday"); ("site", PStr "2"); ("val", PInt 4)].


(** A vote sent from a clock five hours ahead of UTC. *)
Definition offset_message : pyval :=
  message_of [("at", PStr "2024-01-01T10:00:00.000000+05:00");
              ("site", PStr "2"); ("val", PInt 4)].

(** A request that carries no [type] key. *)
Definition no_kind_message : pyval :=
  message_of [("at", PStr "2024-01-01T10:00:00.000000+00:00");
              ("site", PStr "2"); ("val", PInt (-1))].

(** The seeded connection with an empty Rating table, and with an
    empty Exhibition table. *)
Definition without_ratings : Db.connection :=
  {| Db.closed := false; Db.Exhibition := Db.Exhibition seeded;
     Db.Rating := []; Db.Vote := []; Db.Assistance := []; Db.Emergency := [];
     Db.pending := []; Db.executed := [] |}.

Definition without_exhibitions : Db.connection :=
  {| Db.closed := false; Db.Exhibition := [];
     Db.Rating := Db.Rating seeded; Db.Vote := []; Db.Assistance := [];
     Db.Emergency := []; Db.pending := []; Db.executed := [] |}.

(** Two votes with a request between them. *)
Definition sample_polls : list poll :=
  [PollMsg (MsgJson vote_message); PollMsg (MsgJson no_kind_message);
   PollMsg (MsgJson vote_message)].

(** What [transform_kafka_data] makes of [vote_message]. *)
Definition vote_record : transformed :=
  {| at_ := "01/01/24 10:00:00"; site := "EXH_02"; val := PInt 4; type_ := PNone |}.

(** The loop is left at the message [v] by the exception [e]: the
    [finally] clause has closed the consumer and the connection, and
    the message left no trace in the log, on the console or in a
    table. *)
Definition ends_loop (topic : string) (v : pyval) (rest : list poll) (s : state)
    (e : exn) : Prop :=
  exists s',
    process_kafka_data topic (PollMsg (MsgJson v) :: rest) s = Raised e s'
    /\ log s' = log s /\ console s' = console s
    /\ Db.Vote (connection s') = Db.Vote (connection s)
    /\ Db.Assistance (connection s') = Db.Assistance (connection s)
    /\ Db.Emergency (connection s') = Db.Emergency (connection s)
    /\ Db.closed (connection s') = true /\ consumer_closed s' = true.

(** ** The loop, seen from outside *)

(** A poll that timed out. *)
Definition is_none (p : poll) : bool :=
  match p with
  | PollNone => true
  | _ => false
  end.


(** The two classes the inner handlers of the loop catch, and the
    record they log; [e] is the class. *)
Definition is_kafka_error (e : exn) : bool :=
  match e with
  | KafkaException | KafkaError => true
  | _ => false
  end.

Definition kafka_log (e : exn) : log_record := LogError "Kafka error: %s" e.

(** Whether a decoded payload is a JSON object. *)
Definition is_object (v : pyval) : bool :=
  match v with
  | PDict _ => true
  | _ => false
  end.

(** The classes [transform_kafka_data] can raise. *)
Definition transform_errors : list exn :=
  [KeyError; TypeError; ValueError; IndexError; AttributeError].

(** ** The frame of the batch functions

    Every function of [src/pipeline.py] and [src/extract.py] has the
    shape [success = True; try: body; except Exception as e:
    success = False; logging.error(failed, str(e)); finally:
    if success: logging.info(done)].  An exception that is not an
    [Exception] leaves [success] set, so the [finally] clause logs
    [done] before it propagates. *)

(** Whether [except Exception] catches the class. *)
Definition is_Exception (e : exn) : bool := negb (exn_eqb e KeyboardInterrupt).

Definition guarded_with {S : Type} (logging : log_record -> prog S unit)
    (failed done : string) (body : prog S unit) : prog S unit :=
  fun s =>
    match body s with
    | (Ok _, s') => logging (LogInfo done None) s'
    | (Raise e, s') =>
        if is_Exception e then logging (LogError failed e) s'
        else (logging (LogInfo done None);; raise e) s'
    end.

(** The record such a function logs last, from the result of its
    body. *)
Definition closing_record (failed done : string) (r : result unit) : log_record :=
  match r with
  | Ok _ => LogInfo done None
  | Raise e => LogError failed e
  end.

(** [environ[key]]. *)
Definition getenv (environ : gmap string string) (key : string) : result string :=
  match environ !! key with
  | Some v => Ok v
  | None => Raise KeyError
  end.

(** ** [src/pipeline.py]: the migration of the kiosk data file *)

(** A row of the kiosk data file as [pd.read_csv] yields it, after
    [convert_site_to_exhibition_id]: [at] and [site] are text, [val]
    and [type] are numbers (a missing [type] is the float NaN). *)
Record kiosk_row := {
  row_at : string;
  row_site : string;
  row_val : pyval;
  row_type : pyval
}.

(** [for index, row in ...: cursor.execute(query, params);
    connection.commit()], on the statements of the rows. *)
Fixpoint insert_each (statements : list Db.statement) : prog Db.connection unit :=
  match statements with
  | [] => mret tt
  | q :: rest => Db.execute q;; Db.commit;; insert_each rest
  end.

(** [filtered_data['val'].apply(lambda x: tuple_switch_one(x, rating_data))]:
    the rows with their RatingID, or the first [ValueError]. *)
Fixpoint apply_rating (rating_data : list (Z * Z)) (rows : list kiosk_row)
    : result (list (kiosk_row * Z)) :=
  match rows with
  | [] => Ok []
  | r :: rest =>
      id ← tuple_switch_one py_eq_int (row_val r) rating_data;
      ids ← apply_rating rating_data rest;
      Ok ((r, id) :: ids)
  end.

(** The three filters on the data frame. *)
Definition vote_row (r : kiosk_row) : bool := negb (py_eq_int (row_val r) (-1)).
Definition assistance_row (r : kiosk_row) : bool :=
  py_eq_int (row_val r) (-1) && py_eq_int (row_type r) 0.
Definition emergency_row (r : kiosk_row) : bool :=
  py_eq_int (row_val r) (-1) && py_eq_int (row_type r) 1.

Definition vote_statement (p : kiosk_row * Z) : Db.statement :=
  Db.InsertVote (row_site (fst p)) (row_at (fst p)) (snd p).
Definition assistance_statement (r : kiosk_row) : Db.statement :=
  Db.InsertAssistance (row_site r) (row_at r).
Definition emergency_statement (r : kiosk_row) : Db.statement :=
  Db.InsertEmergency (row_site r) (row_at r).

Section migration.
(** [os.environ] and the file system as [pd.read_csv] sees it. *)
Variable environ : gmap string string.
Variable read_csv : string -> result (list kiosk_row).

Definition migrate_data_to_vote_table : prog state unit :=
  museum_hist_data_folder_path ← lift (getenv environ "MUSEUM_HIST_DATA_FOLDER_PATH");
  guarded_with logging "Failed to migrate data to vote table: %s"
               "Successfully migrated data to vote table"
    (kiosk_data ← lift (read_csv museum_hist_data_folder_path);
     let filtered_data := List.filter vote_row kiosk_data in
     on_connection
       (Db.cursor;;
        rating_data ← Db.execute Db.SelectRating;
        mapped ← lift (apply_rating rating_data filtered_data);
        insert_each (map vote_statement mapped))).

Definition migrate_data_to_assistance_table : prog state unit :=
  museum_hist_data_folder_path ← lift (getenv environ "MUSEUM_HIST_DATA_FOLDER_PATH");
  guarded_with logging "Failed to migrate data to assistance table: %s"
               "Successfully migrated data to assistance table"
    (data ← lift (read_csv museum_hist_data_folder_path);
     let filtered_data := List.filter assistance_row data in
     on_connection
       (Db.cursor;;
        insert_each (map assistance_statement filtered_data))).

Definition migrate_data_to_emergency_table : prog state unit :=
  museum_hist_data_folder_path ← lift (getenv environ "MUSEUM_HIST_DATA_FOLDER_PATH");
  guarded_with logging "Failed to migrate data to emergency table: %s"
               "Successfully migrated data to emergency table"
    (data ← lift (read_csv museum_hist_data_folder_path);
     let filtered_data := List.filter emergency_row data in
     on_connection
       (Db.cursor;;
        insert_each (map emergency_statement filtered_data))).

End migration.

(** The statements of a list up to the first one the database
    refuses. *)
Fixpoint accepted_prefix (c : Db.connection) (qs : list Db.statement)
    : list Db.statement :=
  match qs with
  | [] => []
  | q :: rest => if Db.accepts c q then q :: accepted_prefix c rest else []
  end.

(** The rows a list of statements adds to each table. *)
Definition vote_rows (qs : list Db.statement) : list (string * string * Z) :=
  flat_map (fun q => match q with
                     | Db.InsertVote e t r => [(e, t, r)]
                     | _ => []
                     end) qs.
Definition assistance_rows (qs : list Db.statement) : list (string * string) :=
  flat_map (fun q => match q with
                     | Db.InsertAssistance e t => [(e, t)]
                     | _ => []
                     end) qs.
Definition emergency_rows (qs : list Db.statement) : list (string * string) :=
  flat_map (fun q => match q with
                     | Db.InsertEmergency e t => [(e, t)]
                     | _ => []
                     end) qs.

(** The record of the streaming path with the fields of a row. *)
Definition record_of_row (r : kiosk_row) : transformed :=
  {| at_ := row_at r; site := row_site r; val := row_val r; type_ := row_type r |}.

(** ** [src/populate_db_tables.py]: the two helpers *)

(** [tuple_switch_two]: the rows of [SELECT * FROM Department] are
    (DepartmentID, Title, Floor). *)
Fixpoint tuple_switch_two (val_1 val_2 : pyval)
    (list_of_tuples : list (Z * string * string)) : result Z :=
  match list_of_tuples with
  | [] => Raise ValueError
  | tpl :: rest =>
      if py_eq_str val_1 (snd (fst tpl)) && py_eq_str val_2 (snd tpl)
      then Ok (fst (fst tpl))
      else tuple_switch_two val_1 val_2 rest
  end.

Module Dates.
Import Datetime.

(** The directive [%y] of [TimeRE], and the pattern of ["%d/%m/%y"]. *)
Definition re_y : re := Grp "y" (digit · digit).
Definition date_regex : re := re_d · chr "/" · re_m · chr "/" · re_y.

(** The century [_strptime] gives a two-digit year. *)
Definition century (y : Z) : Z := if y <=? 68 then y + 2000 else y + 1900.

(** [datetime.strptime(date, "%d/%m/%y")] for a text argument: a naive
    object at midnight (the offset field stays 0 and is never read). *)
Definition strptime (data_string : string) : result datetime :=
  match re_match date_regex data_string with
  | [] => Raise ValueError
  | m :: _ =>
      if negb (String.eqb (remaining m) EmptyString) then Raise ValueError
      else
        let found_dict := groupdict m in
        d ← group found_dict "d" ≫= py_int;
        m ← group found_dict "m" ≫= py_int;
        y ← group found_dict "y" ≫= py_int;
        make_datetime (century y) m d 0 0 0 0 0 0
  end.

(** [date.strftime("%m/%d/%y")]. *)
Definition strftime (t : datetime) : string :=
  two_digits (month t) +:+ "/" +:+ two_digits (day t) +:+ "/"
    +:+ two_digits (year t mod 100).

Definition date_converter (date : string) : result string :=
  t ← strptime date;
  Ok (strftime t).

End Dates.

(** The text DD/MM/YY of a day, a month and a two-digit year. *)
Definition day_first (d m y : nat) : string :=
  pad2 d +:+ "/" +:+ pad2 m +:+ "/" +:+ pad2 y.

(** ** [src/extract.py] *)


(** [format(x, '01')] for an integer: the flag [0] pads with zeros
    between the sign and the digits, up to the width 1. *)
Definition format_01 (x : Z) : string :=
  let sign := if x <? 0 then "-" else EmptyString in
  let digits := str (Z.abs x) in
  sign +:+ Datetime.zeros (1 - String.length sign - String.length digits) +:+ digits.

(** The lambda of [convert_site_to_exhibition_id], on a site column of
    integers. *)
Definition site_to_exhibition_id (x : Z) : string := "EXH_0" +:+ format_01 x.

Section extract.
(** The content of a file and a row of a data frame; what [pd.read_csv]
    and [json.load] make of a content, and what [to_csv] writes. *)
Context {C R : Type}.
Variable read_csv : C -> result (list R).
Variable json_load : C -> result R.
Variable to_csv : list R -> C.
Variable environ : gmap string string.








End extract.

(** ** Sample files

    What [transform_kafka_data] makes of [typed_vote_message]; an
    environment; a kiosk file of five rows (a vote, an assistance
    request, an emergency, a vote for an exhibition the database does
    not have, one more vote); a folder of two [.csv] files and one
    [.json] file, a content being its list of rows. *)
Definition typed_vote_record : transformed :=
  {| at_ := "01/01/24 10:00:00"; site := "EXH_02"; val := PInt 3; type_ := PInt 5 |}.

Definition sample_environ : gmap string string :=
  list_to_map [("MUSEUM_HIST_DATA_FOLDER_PATH", "kiosk.csv");
               ("COMBINED_CSV_FILENAME", "combined.csv");
               ("JSON_TO_CSV_FILENAME", "exhibitions.csv")].

Definition sample_rows : list kiosk_row :=
  [ {| row_at := "01/01/24 10:00:00"; row_site := "EXH_02"; row_val := PInt 4;
       row_type := PFloat S754_nan |};
    {| row_at := "01/01/24 10:01:00"; row_site := "EXH_01"; row_val := PInt (-1);
       row_type := PFloat (S754_zero false) |};
    {| row_at := "01/01/24 10:02:00"; row_site := "EXH_03"; row_val := PInt (-1);
       row_type := PFloat (S754_finite false 4503599627370496 (-52)) |};
    {| row_at := "01/01/24 10:03:00"; row_site := "EXH_09"; row_val := PInt 2;
       row_type := PFloat S754_nan |};
    {| row_at := "01/01/24 10:04:00"; row_site := "EXH_00"; row_val := PInt 1;
       row_type := PFloat S754_nan |} ].

Definition sample_read_csv (path : string) : result (list kiosk_row) := Ok sample_rows.

(** A file that cannot be decoded. *)
Definition unreadable_csv (path : string) : result (list kiosk_row) :=
  Raise UnicodeDecodeError.

Definition one_row_read_csv (path : string) : result (list kiosk_row) :=
  Ok (firstn 1 sample_rows).



(** * Properties *)

(** ** [tuple_switch_one] *)

Section tuple_switch_facts.
Context {V A B : Type} (py_eq : V -> B -> bool).

Lemma tuple_switch_one_raises (val : V) (l : list (A * B)) (e : exn) :
  tuple_switch_one py_eq val l = Raise e -> e = ValueError.
Proof.
  induction l as [|tpl rest IH]; simpl.
  - congruence.
  - destruct (py_eq val (snd tpl)); [discriminate | exact IH].
Qed.

Lemma tuple_switch_one_found (val : V) (l : list (A * B)) (a : A) :
  tuple_switch_one py_eq val l = Ok a ->
  exists (l1 : list (A * B)) (b : B) (l2 : list (A * B)),
    l = (l1 ++ (a, b) :: l2)%list /\ py_eq val b = true
    /\ Forall (fun tpl => py_eq val (snd tpl) = false) l1.
Proof.
  induction l as [|[a0 b0] rest IH]; simpl; intros H.
  - discriminate.
  - destruct (py_eq val b0) eqn:E.
    + injection H as <-. exists [], b0, rest. repeat split; auto.
    + destruct (IH H) as (l1 & b & l2 & -> & Hb & Hl1).
      exists ((a0, b0) :: l1), b, l2. repeat split; auto.
Qed.

Lemma tuple_switch_one_missing (val : V) (l : list (A * B)) :
  tuple_switch_one py_eq val l = Raise ValueError ->
  Forall (fun tpl => py_eq val (snd tpl) = false) l.
Proof.
  induction l as [|tpl rest IH]; simpl; intros H.
  - constructor.
  - destruct (py_eq val (snd tpl)) eqn:E; [discriminate | auto].
Qed.

End tuple_switch_facts.

(** C10.  Whatever the list and the value: when [tuple_switch_one]
    returns [a], the list splits as [l1 ++ (a, b) :: l2] where [b]
    equals the value and no tuple of [l1] has a second component equal
    to it, so the earliest matching tuple wins; otherwise it raises
    [ValueError] and no tuple of the list has a second component equal
    to the value.  The list is an argument that is only read. *)
Theorem tuple_switch_one_first_match
    {V A B : Type} (py_eq : V -> B -> bool) (val : V) (l : list (A * B)) :
  match tuple_switch_one py_eq val l with
  | Ok a =>
      exists (l1 : list (A * B)) (b : B) (l2 : list (A * B)),
        l = (l1 ++ (a, b) :: l2)%list /\ py_eq val b = true
        /\ Forall (fun tpl => py_eq val (snd tpl) = false) l1
  | Raise e =>
      e = ValueError /\ Forall (fun tpl => py_eq val (snd tpl) = false) l
  end.
Proof.
  destruct (tuple_switch_one py_eq val l) as [a|e] eqn:E.
  - exact (tuple_switch_one_found py_eq val l a E).
  - pose proof (tuple_switch_one_raises py_eq val l e E) as ->.
    split; [reflexivity | exact (tuple_switch_one_missing py_eq val l E)].
Qed.

(** ** Validation *)

Lemma has_key_lookup (d : gmap string pyval) (k : string) :
  has_key d k = match d !! k with Some _ => true | None => false end.
Proof.
  unfold has_key. destruct (d !! k) as [v|] eqn:E.
  - apply bool_decide_eq_true. eauto.
  - apply bool_decide_eq_false. intros [v Hv]. discriminate.
Qed.

Lemma sites_literal : str <$> range 0 6 = ["0"; "1"; "2"; "3"; "4"; "5"].
Proof. reflexivity. Qed.

Lemma values_literal : range (-1) 5 = [-1; 0; 1; 2; 3; 4].
Proof. reflexivity. Qed.

Lemma site_in_list_length (s : string) :
  existsb (String.eqb s) ["0"; "1"; "2"; "3"; "4"; "5"] = true ->
  String.length s = 1%nat.
Proof.
  simpl. rewrite !orb_true_iff.
  intros H. repeat destruct H as [H|H]; try discriminate;
    apply String.eqb_eq in H; subst s; reflexivity.
Qed.

(** The checks of the loop body report the first rule that fails. *)
Lemma validate_first_failure (d : gmap string pyval) :
  validate (PDict d) = Ok (first_failure d).
Proof.
  unfold validate, first_failure, rules, getitem.
  cbn [List.find fst snd].
  unfold presence_rule, site_rule, val_rule, type_rule.
  rewrite !has_key_lookup, sites_literal, values_literal.
  destruct (d !! "at") as [a|]; [|reflexivity].
  destruct (d !! "site") as [sv|]; [|reflexivity].
  destruct (d !! "val") as [v|]; [|reflexivity].
  cbn [negb orb andb List.find fst snd fmap option_fmap option_map mbind result_bind].
  assert (Hsite :
    (if negb (py_in_strs sv ["0"; "1"; "2"; "3"; "4"; "5"]) then Ok true
     else n ← py_len sv; Ok (negb (n =? 1)))
    = Ok (negb match sv with
               | PStr s => existsb (String.eqb s) ["0"; "1"; "2"; "3"; "4"; "5"]
                           && (String.length s =? 1)%nat
               | _ => false
               end)).
  { destruct sv as [| | | |s| |]; try reflexivity.
    unfold py_in_strs.
    change (existsb (py_eq_str (PStr s))) with (existsb (String.eqb s)).
    destruct (existsb (String.eqb s) ["0"; "1"; "2"; "3"; "4"; "5"]) eqn:E;
      [|reflexivity].
    cbn -[existsb]. rewrite (site_in_list_length s E). reflexivity. }
  rewrite Hsite. clear Hsite.
  cbn [mbind result_bind].
  match goal with |- context [negb ?b] => destruct b end;
    cbn [negb]; [|reflexivity].
  unfold py_in_ints.
  destruct (existsb (py_eq_int v) [-1; 0; 1; 2; 3; 4]); cbn [negb]; [|reflexivity].
  destruct (d !! "type") as [ty|]; [|reflexivity].
  cbn [existsb mbind result_bind]. rewrite orb_false_r.
  destruct (py_eq_int ty 0 || py_eq_int ty 1); reflexivity.
Qed.

(** ** One turn of the loop *)

Ltac run_prog :=
  cbv [iteration after_try try_block try_body on_connection logging print
       assign_msg_dict modify gets lift raise
       mbind mret prog_bind prog_ret].

(** A message that a check rejects: two log records, nothing else. *)
Lemma iteration_rejected (v : pyval) (reason : validation_error) (s : state) :
  validate v = Ok (Some reason) ->
  iteration (PollMsg (MsgJson v)) s =
    (Ok tt,
     {| connection := connection s; subscription := subscription s;
        consumer_closed := consumer_closed s;
        log := (log s ++ [LogInfo "Message: %s" (Some v)])
                 ++ [LogInfo (error_text reason) None];
        console := console s; msg_dict := Some v |}).
Proof.
  intros H. run_prog. rewrite H. reflexivity.
Qed.

(** A message that passes the checks goes on to the transformation and
    the database. *)
Lemma iteration_accepted (v : pyval) (s : state) :
  validate v = Ok None ->
  iteration (PollMsg (MsgJson v)) s =
    match transform_kafka_data v with
    | Raise e =>
        (Raise e,
         {| connection := connection s; subscription := subscription s;
            consumer_closed := consumer_closed s; log := log s;
            console := console s; msg_dict := Some v |})
    | Ok data =>
        match move_to_db data (connection s) with
        | (Raise e, c) =>
            (Raise e,
             {| connection := c; subscription := subscription s;
                consumer_closed := consumer_closed s; log := log s;
                console := console s; msg_dict := Some v |})
        | (Ok _, c) =>
            (Ok tt,
             {| connection := c; subscription := subscription s;
                consumer_closed := consumer_closed s; log := log s;
                console := console s ++ [data]; msg_dict := Some v |})
        end
    end.
Proof.
  intros H. run_prog. rewrite H. cbn [msg_dict].
  destruct (transform_kafka_data v) as [data|e]; [|reflexivity].
  cbn [connection].
  destruct (move_to_db data (connection s)) as [[[]|e] c]; reflexivity.
Qed.

(** A message whose decoding raises anything but the two Kafka classes:
    the exception leaves the iteration; nothing is logged. *)
Lemma iteration_decode_error (e : exn) (s : state) :
  e <> KafkaException -> e <> KafkaError ->
  iteration (PollMsg (MsgRaises e)) s = (Raise e, s).
Proof.
  intros H1 H2. run_prog. destruct e; congruence.
Qed.

(** *** The checks of the code and the rules of the spec *)










(** C6.  A vote (val 3) that carries [type = 5] is rejected with the
    type error, although the check is announced for requests only: the
    loop logs it and inserts nothing.  The type error is reported
    exactly when the first three rules hold and the [type] key is
    present with a value other than 0 and 1, whatever [val] is. *)
Theorem type_checked_on_votes :
  validate typed_vote_message = Ok (Some InvalidType)
  /\ (exists s',
        process_kafka_data "lmnh" [PollMsg (MsgJson typed_vote_message)] (fresh seeded)
          = Polling s'
        /\ Db.Vote (connection s') = []
        /\ console s' = []
        /\ log s' = [LogInfo "Message: %s" (Some typed_vote_message);
                     LogInfo (error_text InvalidType) None])
  /\ (forall d : gmap string pyval,
        validate (PDict d) = Ok (Some InvalidType)
        <-> presence_rule d = true /\ site_rule d = true /\ val_rule d = true
            /\ exists ty, d !! "type" = Some ty
                          /\ py_eq_int ty 0 = false /\ py_eq_int ty 1 = false).
Proof.
  split; [reflexivity|]. split.
  - eexists. split; [reflexivity|]. repeat split.
  - intros d. rewrite validate_first_failure.
    unfold first_failure, rules. cbn [List.find fst snd].
    destruct (presence_rule d), (site_rule d), (val_rule d); cbn [negb fmap option_fmap option_map snd];
      try (split; [discriminate | intros (? & ? & ? & _); discriminate]).
    unfold type_rule. destruct (d !! "type") as [ty|].
    + destruct (py_eq_int ty 0) eqn:E0, (py_eq_int ty 1) eqn:E1; cbn;
        split; try discriminate;
        try (intros (_ & _ & _ & ty' & [= <-] & ? & ?); congruence).
      intros _. repeat split. exists ty. auto.
    + cbn. split; [discriminate | intros (_ & _ & _ & ty' & ? & _); discriminate].
Qed.

(** C3.  A payload that [json.loads] rejects, followed by a valid
    message: the exception leaves the loop, the [finally] clause closes
    the consumer and the connection, nothing is logged, and the valid
    message is never processed. *)
Theorem malformed_json_stops_loop :
  exists s',
    process_kafka_data "lmnh"
      [PollMsg (MsgRaises JSONDecodeError); PollMsg (MsgJson vote_message)]
      (fresh seeded) = Raised JSONDecodeError s'
    /\ log s' = []
    /\ console s' = []
    /\ Db.Vote (connection s') = []
    /\ Db.closed (connection s') = true
    /\ consumer_closed s' = true.
Proof.
  eexists. split; [reflexivity|]. repeat split.
Qed.

(** C4.  A message with the three keys, a valid site and a valid value
    passes every check whatever its [at] holds; with a text that is not
    a timestamp the transformation raises [ValueError], which leaves
    the loop. *)
Theorem validated_message_fails_transform :
  validate bad_time_message = Ok None
  /\ transform_kafka_data bad_time_message = Raise ValueError
  /\ exists s',
       process_kafka_data "lmnh"
         [PollMsg (MsgJson bad_time_message); PollMsg (MsgJson vote_message)]
         (fresh seeded) = Raised ValueError s'
       /\ log s' = []
       /\ Db.Vote (connection s') = []
       /\ Db.closed (connection s') = true.
Proof.
  split; [reflexivity|]. split; [reflexivity|].
  eexists. split; [reflexivity|]. repeat split.
Qed.

(** ** The timestamp *)

Section timestamp_facts.
Import Datetime.

Lemma result_bind_ok {A B} (m : result A) (f : A -> result B) (b : B) :
  m ≫= f = Ok b -> exists a, m = Ok a /\ f a = Ok b.
Proof. destruct m as [a|e]; [eauto | discriminate]. Qed.

(** What the constructors have checked once [make_datetime] returns. *)
Lemma make_datetime_checked (Y m d H M S f g gf : Z) (t : datetime) :
  make_datetime Y m d H M S f g gf = Ok t ->
  t = {| year := Y; month := m; day := d; hour := H; minute := M; second := S;
         microsecond := f; utcoffset := g * 1000000 + gf |}
  /\ 0 <= H <= 23 /\ 0 <= M <= 59 /\ 0 <= S <= 59 /\ 0 <= f <= 999999.
Proof.
  unfold make_datetime, between.
  destruct (negb _); [discriminate|].
  destruct (negb _); [discriminate|].
  destruct (_ && _) eqn:E; cbn [negb]; [|discriminate].
  intros [= <-]. split; [reflexivity|].
  repeat (apply andb_prop in E; destruct E as [E ?]). lia.
Qed.

Lemma strptime_checked (s : string) (t : datetime) :
  strptime s = Ok t ->
  0 <= hour t <= 23 /\ 0 <= minute t <= 59 /\ 0 <= second t <= 59
  /\ 0 <= microsecond t <= 999999.
Proof.
  unfold strptime. destruct (re_match format_regex s) as [|m ms]; [discriminate|].
  destruct (negb _); [discriminate|]. intros H.
  repeat (apply result_bind_ok in H; destruct H as (? & _ & H)).
  apply make_datetime_checked in H. destruct H as [-> H]. exact H.
Qed.

(** The text depends on the wall-clock fields only. *)
Lemma strftime_replace_offset (off : Z) (t : datetime) :
  strftime (replace_offset off t) = strftime t.
Proof. reflexivity. Qed.

(** With a zero offset the UTC clock shows the same fields. *)
Lemma utc_normalize_zero_offset (t : datetime) :
  0 <= hour t <= 23 -> 0 <= minute t <= 59 -> 0 <= second t <= 59 ->
  0 <= microsecond t <= 999999 -> utcoffset t = 0 ->
  Spec.utc_normalize t = Some t.
Proof.
  intros HH HM HS Hf Hoff. destruct t as [Y m d H M S f off].
  cbn [hour minute second microsecond utcoffset] in *. subst off.
  unfold Spec.utc_normalize, Spec.day_us.
  cbn [hour minute second microsecond utcoffset year month day].
  set (us := ((H * 60 + M) * 60 + S) * 1000000 + f - 0).
  assert (Hus : 0 <= us < 86400000000) by (unfold us; lia).
  rewrite (Z.div_small us 86400000000 Hus), (Z.mod_small us 86400000000 Hus).
  cbn [Z.eqb mbind option_bind fst snd].
  f_equal. f_equal; unfold us; Z.to_euclidean_division_equations; lia.
Qed.

End timestamp_facts.

(** ** [transform_kafka_data] *)

(** The record the transformation builds, when it returns. *)
Lemma transform_returns (data : pyval) (r : transformed) :
  transform_kafka_data data = Ok r ->
  exists (d : gmap string pyval) (s sv : string) (v : pyval) (t : Datetime.datetime),
    data = PDict d
    /\ d !! "at" = Some (PStr s) /\ Datetime.strptime s = Ok t
    /\ d !! "site" = Some (PStr sv) /\ d !! "val" = Some v
    /\ r = {| at_ := Datetime.strftime t; site := "EXH_0" +:+ rjust sv 1 "0";
              val := v; type_ := default PNone (d !! "type") |}.
Proof.
  unfold transform_kafka_data. intros H.
  apply result_bind_ok in H. destruct H as (a & Ha & H).
  apply result_bind_ok in H. destruct H as (t & Ht & H).
  apply result_bind_ok in H. destruct H as (sr & Hs & H).
  apply result_bind_ok in H. destruct H as (p & Hp & H).
  apply result_bind_ok in H. destruct H as (v & Hv & H).
  apply result_bind_ok in H. destruct H as (ty & Hty & H).
  destruct data as [| | | | | |d]; try discriminate.
  unfold getitem in *.
  destruct (d !! "at") as [a'|] eqn:Eat; [|discriminate]. injection Ha as ->.
  destruct (d !! "site") as [s'|] eqn:Es; [|discriminate]. injection Hs as ->.
  destruct (d !! "val") as [v'|] eqn:Ev; [|discriminate]. injection Hv as ->.
  destruct a as [| | | |s| |]; try discriminate.
  destruct sr as [| | | |sv| |]; try discriminate.
  injection Hp as <-. injection H as <-.
  exists d, s, sv, v, t. repeat split; auto.
  f_equal. rewrite has_key_lookup in Hty.
  destruct (d !! "type") as [ty'|]; cbn in Hty |- *; congruence.
Qed.

(** The transformation returns as soon as [at] is a text that
    [strptime] accepts, [site] is a text and [val] is present. *)
Lemma transform_succeeds (d : gmap string pyval) (s sv : string) (v : pyval)
    (t : Datetime.datetime) :
  d !! "at" = Some (PStr s) -> Datetime.strptime s = Ok t ->
  d !! "site" = Some (PStr sv) -> d !! "val" = Some v ->
  transform_kafka_data (PDict d)
  = Ok {| at_ := Datetime.strftime t; site := "EXH_0" +:+ rjust sv 1 "0";
          val := v; type_ := default PNone (d !! "type") |}.
Proof.
  intros Ha Ht Hs Hv. unfold transform_kafka_data, getitem.
  rewrite Ha, Hs, Hv, has_key_lookup.
  cbn [mbind result_bind py_strptime py_rjust]. rewrite Ht.
  cbn [mbind result_bind].
  destruct (d !! "type"); reflexivity.
Qed.

(** ** The matcher and the wall-clock fields *)

Section matcher_facts.
Import Datetime.

Lemma append_cons (x : ascii) (a b : string) : String x a +:+ b = String x (a +:+ b).
Proof. reflexivity. Qed.

Lemma append_nil (b : string) : EmptyString +:+ b = b.
Proof. reflexivity. Qed.

Lemma append_assoc (a b c : string) : (a +:+ b) +:+ c = a +:+ (b +:+ c).
Proof.
  induction a as [|x a IH]; [reflexivity|].
  change (String x ((a +:+ b) +:+ c) = String x (a +:+ (b +:+ c))).
  rewrite IH. reflexivity.
Qed.

Lemma append_length (a b : string) :
  String.length (a +:+ b) = (String.length a + String.length b)%nat.
Proof.
  induction a as [|x a IH]; [reflexivity|].
  change (S (String.length (a +:+ b)) = S (String.length a + String.length b)).
  rewrite IH. reflexivity.
Qed.

(** Every match splits the text into what it consumed and what
    remains, and consumes one of the widths of the pattern. *)
Lemma re_match_split (r : re) (s : string) (m : found) :
  In m (re_match r s) ->
  s = matched m +:+ remaining m
  /\ In (String.length (matched m)) (widths r).
Proof.
  revert s m. induction r as [|p|r1 IH1 r2 IH2|r1 IH1 r2 IH2|r1 IH1|name r1 IH1];
    intros s m; cbn [re_match widths].
  - intros [<-|[]]. cbn. auto.
  - destruct s as [|c s']; [intros []|]. destruct (p c); [|intros []].
    intros [<-|[]]. cbn. auto.
  - rewrite in_flat_map. intros (m1 & H1 & H).
    apply in_map_iff in H. destruct H as (m2 & <- & H2).
    destruct (IH1 _ _ H1) as [E1 W1]. destruct (IH2 _ _ H2) as [E2 W2].
    cbn [matched remaining]. split.
    + rewrite append_assoc, <- E2. exact E1.
    + rewrite append_length. apply in_flat_map. eexists. split; [exact W1|].
      apply in_map. exact W2.
  - rewrite !in_app_iff. intros [H|H].
    + destruct (IH1 _ _ H). auto.
    + destruct (IH2 _ _ H). auto.
  - rewrite !in_app_iff. intros [H|[<-|[]]].
    + destruct (IH1 _ _ H). auto.
    + cbn. auto.
  - rewrite in_map_iff. intros (m1 & <- & H1). cbn [matched remaining].
    exact (IH1 _ _ H1).
Qed.

(** A pattern without groups captures nothing. *)
Lemma re_match_no_groups (r : re) (s : string) (m : found) :
  no_groups r = true -> In m (re_match r s) -> groupdict m = ∅.
Proof.
  revert s m. induction r as [|p|r1 IH1 r2 IH2|r1 IH1 r2 IH2|r1 IH1|name r1 IH1];
    intros s m; cbn [re_match no_groups].
  - intros _ [<-|[]]. reflexivity.
  - intros _. destruct s as [|c s']; [intros []|]. destruct (p c); [|intros []].
    intros [<-|[]]. reflexivity.
  - intros Hn. apply andb_prop in Hn. destruct Hn as [Hn1 Hn2].
    rewrite in_flat_map. intros (m1 & H1 & H).
    apply in_map_iff in H. destruct H as (m2 & <- & H2). cbn [groupdict].
    rewrite (IH1 _ _ Hn1 H1), (IH2 _ _ Hn2 H2). apply (left_id_L ∅ (∪)).
  - intros Hn. apply andb_prop in Hn. destruct Hn as [Hn1 Hn2].
    rewrite in_app_iff. intros [H|H]; eauto.
  - intros Hn. rewrite in_app_iff. intros [H|[<-|[]]]; eauto.
  - discriminate.
Qed.

Lemma in_cat (r1 r2 : re) (s : string) (m : found) :
  In m (re_match (r1 · r2) s) ->
  exists m1 m2,
    In m1 (re_match r1 s) /\ In m2 (re_match r2 (remaining m1))
    /\ groupdict m = groupdict m1 ∪ groupdict m2
    /\ remaining m = remaining m2.
Proof.
  cbn [re_match]. rewrite in_flat_map. intros (m1 & H1 & H).
  apply in_map_iff in H. destruct H as (m2 & <- & H2).
  exists m1, m2. auto.
Qed.

Lemma in_set (p : ascii -> bool) (s : string) (m : found) :
  In m (re_match (Set_ p) s) ->
  exists c, s = String c (remaining m) /\ p c = true /\ groupdict m = ∅.
Proof.
  cbn [re_match]. destruct s as [|c s']; [intros []|].
  destruct (p c) eqn:E; [|intros []]. intros [<-|[]]. exists c. auto.
Qed.

(** A group over a pattern without groups captures the text it
    consumed. *)
Lemma in_group (name : string) (r : re) (s : string) (m : found) :
  In m (re_match (Grp name r) s) ->
  no_groups r = true ->
  groupdict m = {[ name := matched m ]}
  /\ s = matched m +:+ remaining m
  /\ In (String.length (matched m)) (widths r).
Proof.
  intros H Hn. destruct (re_match_split _ _ _ H) as [E W]. repeat split; auto.
  cbn [re_match] in H. apply in_map_iff in H. destruct H as (m1 & <- & H1).
  cbn [groupdict matched]. rewrite (re_match_no_groups _ _ _ Hn H1). reflexivity.
Qed.

End matcher_facts.

Section wall_clock_facts.
Import Datetime.

Lemma digit_not_literal (c : ascii) :
  in_range "0" "9" c = true ->
  Ascii.eqb "-" c = false /\ Ascii.eqb ":" c = false /\ Ascii.eqb "." c = false
  /\ (Ascii.eqb c "t" || Ascii.eqb c "T") = false.
Proof.
  destruct c as [[] [] [] [] [] [] [] []]; vm_compute; intros H;
    first [discriminate H | repeat split].
Qed.

Lemma dg_digit (n : nat) : (n < 10)%nat -> in_range "0" "9" (dg n) = true.
Proof.
  intros H. do 10 (destruct n as [|n]; [reflexivity|]). lia.
Qed.

(** A group of one or two characters followed by a literal, on a text
    whose second character cannot be that literal: the group took both
    characters. *)
Lemma two_char_unit (name : string) (r : re) (pl : ascii -> bool) (a b : ascii)
    (rest : string) (mg ml : found) :
  In mg (re_match (Grp name r) (String a (String b rest))) ->
  In ml (re_match (Set_ pl) (remaining mg)) ->
  pl b = false ->
  no_groups r = true ->
  forallb (fun w => Nat.eqb w 1 || Nat.eqb w 2) (widths r) = true ->
  groupdict mg = {[ name := String a (String b EmptyString) ]}
  /\ groupdict ml = ∅
  /\ exists c, rest = String c (remaining ml).
Proof.
  intros Hg Hl Hb Hn Hw.
  destruct (in_group _ _ _ _ Hg Hn) as (Hd & E & W).
  destruct (in_set _ _ _ Hl) as (c & Er & Hc & Hd').
  rewrite Hd. clear Hd Hg Hl.
  rewrite forallb_forall in Hw. specialize (Hw _ W).
  destruct (matched mg) as [|x [|y [|z k]]]; try discriminate Hw.
  - rewrite !append_cons, append_nil in E.
    injection E as <- E. rewrite <- E in Er. injection Er as <- _.
    congruence.
  - rewrite !append_cons, append_nil in E.
    injection E as <- <- E. rewrite <- E in Er.
    repeat split; eauto.
Qed.

(** The year: four characters. *)
Lemma year_unit (pl : ascii -> bool) (a b c d : ascii) (rest : string) (mg ml : found) :
  In mg (re_match re_Y (String a (String b (String c (String d rest))))) ->
  In ml (re_match (Set_ pl) (remaining mg)) ->
  groupdict mg = {[ "Y" := String a (String b (String c (String d EmptyString))) ]}
  /\ groupdict ml = ∅
  /\ exists c', rest = String c' (remaining ml).
Proof.
  intros Hg Hl. unfold re_Y in Hg.
  destruct (in_group _ _ _ _ Hg eq_refl) as (Hd & E & W).
  destruct (in_set _ _ _ Hl) as (c' & Er & Hc & Hd').
  rewrite Hd. clear Hd Hg Hl.
  destruct W as [W|[]].
  destruct (matched mg) as [|x1 [|x2 [|x3 [|x4 [|x5 k]]]]]; try discriminate W.
  rewrite !append_cons, append_nil in E.
  injection E as <- <- <- <- E. rewrite <- E in Er.
  repeat split; eauto.
Qed.

Lemma wall_clock_captures (y1 y2 y3 y4 mo1 mo2 d1 d2 h1 h2 mi1 mi2 s1 s2 : ascii)
    (rest : string) (m : found) :
  in_range "0" "9" mo2 = true -> in_range "0" "9" d2 = true ->
  in_range "0" "9" h2 = true -> in_range "0" "9" mi2 = true ->
  in_range "0" "9" s2 = true ->
  In m (re_match format_regex
          (wall_text y1 y2 y3 y4 mo1 mo2 d1 d2 h1 h2 mi1 mi2 s1 s2 rest)) ->
  groupdict m !! "Y" = Some (String y1 (String y2 (String y3 (String y4 EmptyString))))
  /\ groupdict m !! "m" = Some (String mo1 (String mo2 EmptyString))
  /\ groupdict m !! "d" = Some (String d1 (String d2 EmptyString))
  /\ groupdict m !! "H" = Some (String h1 (String h2 EmptyString))
  /\ groupdict m !! "M" = Some (String mi1 (String mi2 EmptyString))
  /\ groupdict m !! "S" = Some (String s1 (String s2 EmptyString)).
Proof.
  intros Dmo Dd Dh Dmi Ds H.
  unfold format_regex, wall_clock_regex, wall_text, re_m, re_d, re_H, re_M, re_S in H.
  apply in_cat in H. destruct H as (mw & mz & H & _ & Gm & _).
  apply in_cat in H. destruct H as (m12 & mf & H & _ & Gw & _).
  apply in_cat in H. destruct H as (m11 & l6 & H & L6 & G12 & R12).
  apply in_cat in H. destruct H as (m10 & mS & H & MS & G11 & R11).
  apply in_cat in H. destruct H as (m9 & l5 & H & L5 & G10 & R10).
  apply in_cat in H. destruct H as (m8 & mM & H & MM & G9 & R9).
  apply in_cat in H. destruct H as (m7 & l4 & H & L4 & G8 & R8).
  apply in_cat in H. destruct H as (m6 & mH & H & MH & G7 & R7).
  apply in_cat in H. destruct H as (m5 & l3 & H & L3 & G6 & R6).
  apply in_cat in H. destruct H as (m4 & md & H & MD & G5 & R5).
  apply in_cat in H. destruct H as (m3 & l2 & H & L2 & G4 & R4).
  apply in_cat in H. destruct H as (m2 & mm & H & Mm & G3 & R3).
  apply in_cat in H. destruct H as (mY & l1 & H & L1 & G2 & R2).
  destruct (year_unit _ _ _ _ _ _ _ _ H L1) as (GY & Gl1 & c1 & E1).
  injection E1 as _ E1. rewrite R2, <- E1 in Mm. rewrite R3 in L2.
  destruct (digit_not_literal _ Dmo) as (N1 & _ & _ & _).
  destruct (two_char_unit "m" _ _ _ _ _ _ _ Mm L2 N1 eq_refl eq_refl)
    as (Gmm & Gl2 & c2 & E2).
  injection E2 as _ E2. rewrite R4, <- E2 in MD. rewrite R5 in L3.
  destruct (digit_not_literal _ Dd) as (_ & _ & _ & N2).
  destruct (two_char_unit "d" _ (fun c => Ascii.eqb c "t" || Ascii.eqb c "T")
              _ _ _ _ _ MD L3 N2 eq_refl eq_refl)
    as (Gmd & Gl3 & c3 & E3).
  injection E3 as _ E3. rewrite R6, <- E3 in MH. rewrite R7 in L4.
  destruct (digit_not_literal _ Dh) as (_ & N3 & _ & _).
  destruct (two_char_unit "H" _ _ _ _ _ _ _ MH L4 N3 eq_refl eq_refl)
    as (GmH & Gl4 & c4 & E4).
  injection E4 as _ E4. rewrite R8, <- E4 in MM. rewrite R9 in L5.
  destruct (digit_not_literal _ Dmi) as (_ & N4 & _ & _).
  destruct (two_char_unit "M" _ _ _ _ _ _ _ MM L5 N4 eq_refl eq_refl)
    as (GmM & Gl5 & c5 & E5).
  injection E5 as _ E5. rewrite R10, <- E5 in MS. rewrite R11 in L6.
  destruct (digit_not_literal _ Ds) as (_ & _ & N5 & _).
  destruct (two_char_unit "S" _ _ _ _ _ _ _ MS L6 N5 eq_refl eq_refl)
    as (GmS & Gl6 & c6 & E6).
  rewrite Gm, Gw, G12, G11, G10, G9, G8, G7, G6, G5, G4, G3, G2.
  rewrite GY, Gl1, Gmm, Gl2, Gmd, Gl3, GmH, Gl4, GmM, Gl5, GmS, Gl6.
  repeat split; do 2 apply lookup_union_Some_l; vm_compute; reflexivity.
Qed.

End wall_clock_facts.

Section iso_facts.
Import Datetime.

Lemma digits_value_dg (acc : Z) (a : nat) (s : string) :
  (a < 10)%nat ->
  digits_value acc (String (dg a) s) = digits_value (10 * acc + Z.of_nat a) s.
Proof.
  intros H. do 10 (destruct a as [|a]; [reflexivity|]). lia.
Qed.

Lemma lstrip_dg (a : nat) (s : string) :
  (a < 10)%nat -> lstrip (String (dg a) s) = String (dg a) s.
Proof.
  intros H. do 10 (destruct a as [|a]; [reflexivity|]). lia.
Qed.

Lemma py_int_pad2 (n : nat) : (n < 100)%nat -> py_int (pad2 n) = Ok (Z.of_nat n).
Proof.
  intros H. unfold py_int, pad2.
  assert (Ha : (n / 10 < 10)%nat) by (apply Nat.Div0.div_lt_upper_bound; lia).
  assert (Hb : (n mod 10 < 10)%nat) by (apply Nat.mod_upper_bound; lia).
  rewrite (lstrip_dg _ _ Ha), !digits_value_dg by assumption.
  cbn [digits_value]. f_equal.
  pose proof (Nat.div_mod_eq n 10). lia.
Qed.

Lemma py_int_pad4 (n : nat) : (n < 100 * 100)%nat -> py_int (pad4 n) = Ok (Z.of_nat n).
Proof.
  intros H. unfold py_int, pad4, pad2.
  assert (Ha : (n / 1000 < 10)%nat) by (apply Nat.Div0.div_lt_upper_bound; lia).
  assert (Hb : (n / 100 mod 10 < 10)%nat) by (apply Nat.mod_upper_bound; lia).
  assert (Hc : (n mod 100 / 10 < 10)%nat).
  { apply Nat.Div0.div_lt_upper_bound. pose proof (Nat.mod_upper_bound n 100). lia. }
  assert (Hd : (n mod 100 mod 10 < 10)%nat) by (apply Nat.mod_upper_bound; lia).
  rewrite (lstrip_dg _ _ Ha), !digits_value_dg by assumption.
  cbn [digits_value]. f_equal.
  pose proof (Nat.div_mod_eq n 1000). pose proof (Nat.div_mod_eq n 100).
  pose proof (Nat.div_mod_eq (n / 100) 10). pose proof (Nat.div_mod_eq (n mod 100) 10).
  pose proof (Nat.div_mod_eq (n / 100) 10).
  assert (n / 100 / 10 = n / 1000)%nat by (rewrite Nat.Div0.div_div; reflexivity).
  lia.
Qed.

Lemma two_digits_pad2 (n : nat) : (n < 100)%nat -> two_digits (Z.of_nat n) = pad2 n.
Proof.
  intros H. do 100 (destruct n as [|n]; [vm_compute; reflexivity|]). lia.
Qed.

(** The date and the time of day that [strptime] returns for a text
    that starts with a zero-padded YYYY-mm-ddTHH:MM:SS are the numbers
    written there, whatever follows (fraction and offset). *)
Lemma strptime_wall_clock (Y m d H M S : nat) (rest : string) (t : datetime) :
  (Y < 100 * 100)%nat -> (m < 100)%nat -> (d < 100)%nat -> (H < 100)%nat ->
  (M < 100)%nat -> (S < 100)%nat ->
  strptime (iso_wall_clock Y m d H M S +:+ rest) = Ok t ->
  year t = Z.of_nat Y /\ month t = Z.of_nat m /\ day t = Z.of_nat d
  /\ hour t = Z.of_nat H /\ minute t = Z.of_nat M /\ second t = Z.of_nat S.
Proof.
  intros HY Hm Hd HH HM HS.
  change (iso_wall_clock Y m d H M S +:+ rest)
    with (wall_text (dg (Y / 1000)) (dg (Y / 100 mod 10)) (dg (Y mod 100 / 10))
            (dg (Y mod 100 mod 10)) (dg (m / 10)) (dg (m mod 10))
            (dg (d / 10)) (dg (d mod 10)) (dg (H / 10)) (dg (H mod 10))
            (dg (M / 10)) (dg (M mod 10)) (dg (S / 10)) (dg (S mod 10)) rest).
  unfold strptime.
  destruct (re_match format_regex _) as [|f fs] eqn:E; [discriminate|].
  assert (Hin : In f (re_match format_regex
                        (wall_text (dg (Y / 1000)) (dg (Y / 100 mod 10))
                           (dg (Y mod 100 / 10)) (dg (Y mod 100 mod 10))
                           (dg (m / 10)) (dg (m mod 10)) (dg (d / 10)) (dg (d mod 10))
                           (dg (H / 10)) (dg (H mod 10)) (dg (M / 10)) (dg (M mod 10))
                           (dg (S / 10)) (dg (S mod 10)) rest)))
    by (rewrite E; left; reflexivity).
  apply wall_clock_captures in Hin;
    try (apply dg_digit, Nat.mod_upper_bound; lia).
  destruct Hin as (GY & Gm & Gd & GH & GM & GS).
  destruct (negb _); [discriminate|].
  cbv zeta. unfold group. rewrite GY, Gm, Gd, GH, GM, GS.
  cbn [mbind result_bind].
  change (String (dg (Y / 1000)) _) with (pad4 Y).
  change (String (dg (m / 10)) _) with (pad2 m).
  change (String (dg (d / 10)) _) with (pad2 d).
  change (String (dg (H / 10)) _) with (pad2 H).
  change (String (dg (M / 10)) _) with (pad2 M).
  change (String (dg (S / 10)) _) with (pad2 S).
  rewrite (py_int_pad4 Y HY), (py_int_pad2 m Hm), (py_int_pad2 d Hd),
    (py_int_pad2 H HH), (py_int_pad2 M HM), (py_int_pad2 S HS).
  cbn [mbind result_bind].
  intros R. apply result_bind_ok in R. destruct R as (fr & _ & R).
  apply result_bind_ok in R. destruct R as (off & _ & R).
  apply make_datetime_checked in R. destruct R as [-> _]. cbn. auto 10.
Qed.

(** So the formatted time is those digits again. *)
Lemma strftime_wall_clock (Y m d H M S : nat) (rest : string) (t : datetime) :
  (Y < 100 * 100)%nat -> (m < 100)%nat -> (d < 100)%nat -> (H < 100)%nat ->
  (M < 100)%nat -> (S < 100)%nat ->
  strptime (iso_wall_clock Y m d H M S +:+ rest) = Ok t ->
  strftime t = pad2 m +:+ "/" +:+ pad2 d +:+ "/" +:+ pad2 (Y mod 100) +:+ " "
               +:+ pad2 H +:+ ":" +:+ pad2 M +:+ ":" +:+ pad2 S.
Proof.
  intros HY Hm Hd HH HM HS Ht.
  unfold strftime.
  destruct (strptime_wall_clock Y m d H M S rest t HY Hm Hd HH HM HS Ht)
    as (-> & -> & -> & -> & -> & ->).
  change 100 with (Z.of_nat 100). rewrite <- Nat2Z.inj_mod.
  rewrite !two_digits_pad2; auto.
  apply Nat.mod_upper_bound. lia.
Qed.

End iso_facts.

(** ** [move_to_db] *)

Ltac run_db :=
  cbv [move_to_db Db.cursor Db.execute Db.commit lift
       mbind mret prog_bind prog_ret];
  unfold Db.accepts, Db.has_exhibition, Db.has_rating_id in *;
  repeat (progress (cbn; repeat match goal with H : _ = _ |- _ => rewrite H end)).

Lemma tuple_switch_one_key {V} (py_eq : V -> Z -> bool) (v : V) (l : list (Z * Z)) (a : Z) :
  tuple_switch_one py_eq v l = Ok a -> existsb (Z.eqb a) (map fst l) = true.
Proof.
  induction l as [|tpl rest IH]; cbn [tuple_switch_one map existsb]; [discriminate|].
  destruct (py_eq v (snd tpl)).
  - intros [= <-]. rewrite Z.eqb_refl. reflexivity.
  - intros H. rewrite (IH H). apply orb_true_r.
Qed.

(** On a closed connection nothing is issued. *)
Lemma move_to_db_closed (data : transformed) (c : Db.connection) :
  Db.closed c = true -> move_to_db data c = (Raise InterfaceError, c).
Proof. intros H. run_db. reflexivity. Qed.

(** A vote whose rating is found and whose row the database accepts. *)
Lemma move_to_db_vote (data : transformed) (c : Db.connection) (rid : Z) :
  Db.closed c = false -> Db.pending c = [] ->
  py_eq_int (val data) (-1) = false ->
  tuple_switch_one py_eq_int (val data) (Db.Rating c) = Ok rid ->
  Db.has_exhibition c (site data) = true ->
  move_to_db data c =
    (Ok tt,
     {| Db.closed := false; Db.Exhibition := Db.Exhibition c;
        Db.Rating := Db.Rating c;
        Db.Vote := Db.Vote c ++ [(site data, at_ data, rid)];
        Db.Assistance := Db.Assistance c; Db.Emergency := Db.Emergency c;
        Db.pending := [];
        Db.executed :=
          (Db.executed c ++ [Db.SelectRating])
            ++ [Db.InsertVote (site data) (at_ data) rid] |}).
Proof.
  intros Hc Hp Hv Hr He. pose proof (tuple_switch_one_key _ _ _ _ Hr) as Hk.
  run_db. reflexivity.
Qed.

(** A vote whose rating is not in the Rating table: the query was
    issued, [ValueError] comes out, no table has changed. *)
Lemma move_to_db_lookup_miss (data : transformed) (c : Db.connection) :
  Db.closed c = false ->
  py_eq_int (val data) (-1) = false ->
  tuple_switch_one py_eq_int (val data) (Db.Rating c) = Raise ValueError ->
  move_to_db data c =
    (Raise ValueError, Db.set_executed (Db.executed c ++ [Db.SelectRating]) c).
Proof.
  intros Hc Hv Hr. run_db. reflexivity.
Qed.

(** A vote for an exhibition the Exhibition table does not have: the
    insert is refused with [IntegrityError], no table has changed. *)
Lemma move_to_db_vote_refused (data : transformed) (c : Db.connection) (rid : Z) :
  Db.closed c = false ->
  py_eq_int (val data) (-1) = false ->
  tuple_switch_one py_eq_int (val data) (Db.Rating c) = Ok rid ->
  Db.has_exhibition c (site data) = false ->
  move_to_db data c =
    (Raise IntegrityError,
     Db.set_executed
       ((Db.executed c ++ [Db.SelectRating])
          ++ [Db.InsertVote (site data) (at_ data) rid]) c).
Proof.
  intros Hc Hv Hr He. run_db. reflexivity.
Qed.

(** An assistance request. *)
Lemma move_to_db_assistance (data : transformed) (c : Db.connection) :
  Db.closed c = false -> Db.pending c = [] ->
  py_eq_int (val data) (-1) = true -> py_eq_int (type_ data) 0 = true ->
  Db.has_exhibition c (site data) = true ->
  move_to_db data c =
    (Ok tt,
     {| Db.closed := false; Db.Exhibition := Db.Exhibition c;
        Db.Rating := Db.Rating c; Db.Vote := Db.Vote c;
        Db.Assistance := Db.Assistance c ++ [(site data, at_ data)];
        Db.Emergency := Db.Emergency c;
        Db.pending := [];
        Db.executed := Db.executed c ++ [Db.InsertAssistance (site data) (at_ data)] |}).
Proof.
  intros Hc Hp Hv Ht He. run_db. reflexivity.
Qed.

(** An emergency request. *)
Lemma move_to_db_emergency (data : transformed) (c : Db.connection) :
  Db.closed c = false -> Db.pending c = [] ->
  py_eq_int (val data) (-1) = true -> py_eq_int (type_ data) 0 = false ->
  py_eq_int (type_ data) 1 = true ->
  Db.has_exhibition c (site data) = true ->
  move_to_db data c =
    (Ok tt,
     {| Db.closed := false; Db.Exhibition := Db.Exhibition c;
        Db.Rating := Db.Rating c; Db.Vote := Db.Vote c;
        Db.Assistance := Db.Assistance c;
        Db.Emergency := Db.Emergency c ++ [(site data, at_ data)];
        Db.pending := [];
        Db.executed := Db.executed c ++ [Db.InsertEmergency (site data) (at_ data)] |}).
Proof.
  intros Hc Hp Hv Ht0 Ht He. run_db. reflexivity.
Qed.

(** A request that is neither: no branch is taken. *)
Lemma move_to_db_no_kind (data : transformed) (c : Db.connection) :
  Db.closed c = false ->
  py_eq_int (val data) (-1) = true -> py_eq_int (type_ data) 0 = false ->
  py_eq_int (type_ data) 1 = false ->
  move_to_db data c = (Ok tt, c).
Proof.
  intros Hc Hv Ht0 Ht. run_db. reflexivity.
Qed.

Ltac case_step :=
  match goal with
  | |- context [if ?b then _ else _] => destruct b eqn:?
  | |- context [match ?x with Ok _ => _ | Raise _ => _ end] => destruct x eqn:?
  end.

(** When [move_to_db] raises, it is one of three exceptions, and the
    tables are as they were: rows reach a table at the commit only. *)
Lemma move_to_db_raises (data : transformed) (c c' : Db.connection) (e : exn) :
  move_to_db data c = (Raise e, c') ->
  (e = InterfaceError \/ e = ValueError \/ e = IntegrityError)
  /\ Db.Vote c' = Db.Vote c /\ Db.Assistance c' = Db.Assistance c
  /\ Db.Emergency c' = Db.Emergency c.
Proof.
  cbv [move_to_db Db.cursor Db.execute Db.commit lift
       mbind mret prog_bind prog_ret].
  repeat (case_step; cbn [Db.closed Db.set_executed Db.set_pending]);
    intros [= <- <-]; cbn; auto;
    try discriminate.
  all: try match goal with
           | H : tuple_switch_one _ _ _ = Raise _ |- _ =>
               apply tuple_switch_one_raises in H; subst; auto
           end.
Qed.

Lemma rating_queries_app (c : Db.connection) (qs : list Db.statement) :
  Db.rating_queries (Db.set_executed (Db.executed c ++ qs) c)
  = (Db.rating_queries c + List.length (List.filter Db.is_select qs))%nat.
Proof.
  unfold Db.rating_queries. cbn [Db.executed Db.set_executed].
  rewrite List.filter_app, List.length_app. reflexivity.
Qed.

Lemma commit_rows_keep (ps : list Db.statement) (c : Db.connection) :
  Db.executed (fold_left (fun c' q => Db.store q c') ps c) = Db.executed c
  /\ Db.closed (fold_left (fun c' q => Db.store q c') ps c) = Db.closed c.
Proof.
  revert c. induction ps as [|q ps IH]; intros c; cbn [fold_left]; [auto|].
  destruct (IH (Db.store q c)) as [-> ->]. destruct q; auto.
Qed.

(** One query against the Rating table for a vote, none for a request;
    the connection stays open. *)
Lemma move_to_db_queries (data : transformed) (c : Db.connection) :
  Db.closed c = false ->
  Db.rating_queries (snd (move_to_db data c))
  = (Db.rating_queries c + if is_vote data then 1 else 0)%nat
  /\ Db.closed (snd (move_to_db data c)) = false.
Proof.
  intros Hc. unfold is_vote, Db.rating_queries.
  cbv [move_to_db Db.cursor Db.execute Db.commit lift
       mbind mret prog_bind prog_ret].
  unfold Db.accepts.
  repeat (rewrite ?Hc;
          cbn [negb snd Db.closed Db.executed Db.set_executed Db.set_pending
               Db.pending Db.Rating];
          case_step).
  all: rewrite ?Hc;
    cbn [negb snd Db.closed Db.executed Db.set_executed Db.set_pending
         Db.pending Db.Rating];
    try congruence.
  all: try match goal with |- context [fold_left ?f ?ps ?c0] =>
             destruct (commit_rows_keep ps c0) as [-> ->] end;
    cbn [negb snd Db.closed Db.executed Db.set_executed Db.set_pending
         Db.pending Db.Rating];
    rewrite ?List.filter_app, ?List.length_app; cbn; split; solve [lia | congruence].
Qed.

(** ** The loop *)

(** The statements after the inner [try], when they complete: one
    record written with [move_to_db] and echoed. *)
Lemma after_try_completes (s s1 : state) :
  after_try s = (Ok tt, s1) ->
  exists data,
    move_to_db data (connection s) = (Ok tt, connection s1)
    /\ console s1 = (console s ++ [data])%list.
Proof.
  cbv [after_try on_connection print modify gets lift raise
       mbind mret prog_bind prog_ret].
  destruct (msg_dict s) as [v|]; [|discriminate].
  destruct (transform_kafka_data v) as [data|]; [|discriminate].
  destruct (move_to_db data (connection s)) as [[[]|] c] eqn:E; [|discriminate].
  intros [= <-]. exists data. auto.
Qed.

(** An iteration that completes either left the connection and the
    console alone, or wrote one record with [move_to_db] and echoed
    it. *)
Lemma iteration_completes (p : poll) (s s1 : state) :
  iteration p s = (Ok tt, s1) ->
  (connection s1 = connection s /\ console s1 = console s)
  \/ exists data,
       move_to_db data (connection s) = (Ok tt, connection s1)
       /\ console s1 = (console s ++ [data])%list.
Proof.
  destruct p as [|m|e]; [intros [= <-]; left; auto | | discriminate].
  cbv [iteration mbind prog_bind].
  destruct (try_block m s) as [[[]|e] s0] eqn:Et; [| |discriminate].
  - intros [= <-]. left.
    revert Et. cbv [try_block try_body logging assign_msg_dict modify lift raise
                    mbind mret prog_bind prog_ret].
    destruct m as [e|v]; [destruct e; discriminate|].
    destruct (validate v) as [[reason|]|e]; try discriminate;
      [|destruct e; discriminate].
    intros [= <-]. auto.
  - intros H. right.
    assert (Hs0 : connection s0 = connection s /\ console s0 = console s).
    { revert Et. cbv [try_block try_body logging assign_msg_dict modify lift raise
                      mbind mret prog_bind prog_ret].
      destruct m as [e|v].
      - destruct e; try discriminate; intros [= <-]; auto.
      - destruct (validate v) as [[reason|]|e]; try discriminate;
          [|destruct e; try discriminate]; intros [= <-]; auto. }
    destruct Hs0 as [Hc Hk].
    destruct (after_try_completes s0 s1 H) as (data & Hm & Hcon).
    exists data. rewrite <- Hc, <- Hk. auto.
Qed.

Lemma loop_cons (p : poll) (rest : list poll) (s : state) :
  loop (p :: rest) s =
    match iteration p s with
    | (Ok _, s1) => loop rest s1
    | (Raise e, s1) => (Raise e, s1)
    end.
Proof.
  cbn [loop]. cbv [mbind prog_bind].
  destruct (iteration p s) as [[[]|e] s1]; reflexivity.
Qed.

(** C8, as the code has it.  There is no cached lookup: [move_to_db]
    queries the Rating table once for every vote it is given and never
    for a request, so over a run that is still polling the number of
    Rating queries has grown by the number of votes echoed on the
    console. *)
Theorem one_rating_query_per_vote (polls : list poll) (s s' : state) :
  loop polls s = (Ok tt, s') ->
  Db.closed (connection s) = false ->
  (forall (data : transformed) (c : Db.connection),
     Db.closed c = false ->
     Db.rating_queries (snd (move_to_db data c))
     = (Db.rating_queries c + if is_vote data then 1 else 0)%nat)
  /\ exists new : list transformed,
       console s' = (console s ++ new)%list
       /\ Db.rating_queries (connection s')
          = (Db.rating_queries (connection s)
             + List.length (List.filter is_vote new))%nat.
Proof.
  intros Hloop Hc. split.
  { intros data c H. apply (proj1 (move_to_db_queries data c H)). }
  revert s Hloop Hc. induction polls as [|p rest IH]; intros s Hloop Hc.
  - injection Hloop as <-. exists []. rewrite app_nil_r. cbn. split; [auto|lia].
  - rewrite loop_cons in Hloop.
    destruct (iteration p s) as [[[]|e] s1] eqn:Ei; [|discriminate].
    destruct (iteration_completes p s s1 Ei) as [[Hcon Hk] | (data & Hm & Hk)].
    + destruct (IH s1 Hloop) as (new & Hn & Hq); [congruence|].
      exists new. rewrite Hn, Hq, Hcon, Hk. auto.
    + pose proof (move_to_db_queries data (connection s) Hc) as [Hq1 Hc1].
      rewrite Hm in Hq1, Hc1. cbn [snd] in Hq1, Hc1.
      destruct (IH s1 Hloop Hc1) as (new & Hn & Hq).
      exists (data :: new). rewrite Hn, Hq, Hk, Hq1, <- app_assoc.
      split; [reflexivity|]. cbn [List.filter].
      destruct (is_vote data); cbn [List.length]; lia.
Qed.

Lemma one_rating_query_per_vote_witness :
  exists new : list transformed,
    console (snd (loop sample_polls (fresh seeded)))
    = (console (fresh seeded) ++ new)%list
    /\ Db.rating_queries (connection (snd (loop sample_polls (fresh seeded))))
       = (Db.rating_queries (connection (fresh seeded))
          + List.length (List.filter is_vote new))%nat.
Proof.
  refine (proj2 (one_rating_query_per_vote sample_polls (fresh seeded)
                   (snd (loop sample_polls (fresh seeded))) _ _)).
  - vm_compute. reflexivity.
  - reflexivity.
Defined.

(** C8 as the spec states it fails: two votes, two queries against the
    Rating table. *)
Lemma rating_queried_for_every_vote :
  exists s',
    process_kafka_data "lmnh"
      [PollMsg (MsgJson vote_message); PollMsg (MsgJson vote_message)]
      (fresh seeded) = Polling s'
    /\ Db.executed (connection s')
       = [Db.SelectRating; Db.InsertVote "EXH_02" "01/01/24 10:00:00" 5;
          Db.SelectRating; Db.InsertVote "EXH_02" "01/01/24 10:00:00" 5]
    /\ Db.rating_queries (connection s') = 2%nat.
Proof.
  eexists. split; [vm_compute; reflexivity|]. split; reflexivity.
Qed.

(** An exception out of [move_to_db] on a message that passed the
    checks ends the loop there. *)
Lemma move_to_db_error_ends_loop (topic : string) (v : pyval) (data : transformed)
    (rest : list poll) (s : state) (e : exn) (c' : Db.connection) :
  validate v = Ok None ->
  transform_kafka_data v = Ok data ->
  move_to_db data (connection s) = (Raise e, c') ->
  ends_loop topic v rest s e.
Proof.
  intros Hv Ht Hm.
  destruct (move_to_db_raises data (connection s) c' e Hm) as (He & HV & HA & HE).
  unfold ends_loop, process_kafka_data. rewrite loop_cons.
  rewrite (iteration_accepted v (subscribe topic s) Hv), Ht.
  cbn [connection subscribe]. rewrite Hm.
  eexists. split.
  - destruct He as [-> | [-> | ->]]; reflexivity.
  - cbn. auto 10.
Qed.

(** C2, as the code has it.  For a message that passed the checks: a
    rating that the Rating table does not have makes [move_to_db] raise
    [ValueError], an insert that the database refuses makes it raise
    [IntegrityError], and any exception out of [move_to_db] ends the
    loop at that message: it propagates, the consumer and the
    connection are closed, nothing is logged or echoed, no table has
    changed, and the messages after it are never read. *)
Theorem lookup_miss_and_write_failure_end_loop
    (topic : string) (v : pyval) (data : transformed) (rest : list poll) (s : state) :
  validate v = Ok None ->
  transform_kafka_data v = Ok data ->
  (Db.closed (connection s) = false ->
   py_eq_int (val data) (-1) = false ->
   tuple_switch_one py_eq_int (val data) (Db.Rating (connection s)) = Raise ValueError ->
   ends_loop topic v rest s ValueError)
  /\ (forall rid : Z,
        Db.closed (connection s) = false ->
        py_eq_int (val data) (-1) = false ->
        tuple_switch_one py_eq_int (val data) (Db.Rating (connection s)) = Ok rid ->
        Db.has_exhibition (connection s) (site data) = false ->
        ends_loop topic v rest s IntegrityError)
  /\ (forall (e : exn) (c' : Db.connection),
        move_to_db data (connection s) = (Raise e, c') ->
        ends_loop topic v rest s e).
Proof.
  intros Hv Ht. repeat split.
  - intros Hc Hval Hr.
    exact (move_to_db_error_ends_loop topic v data rest s _ _ Hv Ht
             (move_to_db_lookup_miss data (connection s) Hc Hval Hr)).
  - intros rid Hc Hval Hr He.
    exact (move_to_db_error_ends_loop topic v data rest s _ _ Hv Ht
             (move_to_db_vote_refused data (connection s) rid Hc Hval Hr He)).
  - intros e c' Hm.
    exact (move_to_db_error_ends_loop topic v data rest s e c' Hv Ht Hm).
Qed.

Lemma lookup_miss_and_write_failure_end_loop_witness :
  ends_loop "lmnh" vote_message [PollMsg (MsgJson vote_message)]
    (fresh without_ratings) ValueError.
Proof.
  refine (proj1 (lookup_miss_and_write_failure_end_loop "lmnh" vote_message
                   vote_record
                   [PollMsg (MsgJson vote_message)] (fresh without_ratings) _ _)
            _ _ _);
    vm_compute; reflexivity.
Defined.

(** C2 as the spec states it fails: with an empty Rating table the
    first vote raises [ValueError] out of the loop, with an empty
    Exhibition table [IntegrityError]; nothing is logged and the vote
    that follows is never processed. *)
Lemma lookup_miss_ends_loop :
  (exists s',
     process_kafka_data "lmnh"
       [PollMsg (MsgJson vote_message); PollMsg (MsgJson vote_message)]
       (fresh without_ratings) = Raised ValueError s'
     /\ log s' = [] /\ console s' = [] /\ Db.Vote (connection s') = []
     /\ consumer_closed s' = true /\ Db.closed (connection s') = true)
  /\ (exists s',
        process_kafka_data "lmnh"
          [PollMsg (MsgJson vote_message); PollMsg (MsgJson vote_message)]
          (fresh without_exhibitions) = Raised IntegrityError s'
        /\ log s' = [] /\ console s' = [] /\ Db.Vote (connection s') = []
        /\ consumer_closed s' = true /\ Db.closed (connection s') = true).
Proof.
  split; (eexists; split; [vm_compute; reflexivity|]; repeat split).
Qed.

(** A value does not equal both 0 and 1. *)
Lemma py_eq_int_one_not_zero (v : pyval) :
  py_eq_int v 1 = true -> py_eq_int v 0 = false.
Proof.
  intros H1. destruct (py_eq_int v 0) eqn:H0; [exfalso|reflexivity].
  destruct v as [| b | z | f | | |]; try discriminate; unfold py_eq_int in *.
  - destruct b; cbv in H0; cbv in H1; congruence.
  - apply Z.eqb_eq in H0, H1. lia.
  - destruct f as [b| | |b m e]; try discriminate; unfold float_eq_int in *.
    destruct (0 <=? e) eqn:E; apply Z.eqb_eq in H0, H1.
    + rewrite H0 in H1. discriminate.
    + assert (0 < 2 ^ (- e)) by (apply Z.pow_pos_nonneg; lia). lia.
Qed.

(** A request for an exhibition the Exhibition table does not have. *)
Lemma move_to_db_request_refused (data : transformed) (c : Db.connection) :
  Db.closed c = false ->
  py_eq_int (val data) (-1) = true ->
  py_eq_int (type_ data) 0 = true \/ py_eq_int (type_ data) 1 = true ->
  Db.has_exhibition c (site data) = false ->
  exists c',
    move_to_db data c = (Raise IntegrityError, c')
    /\ Db.Vote c' = Db.Vote c /\ Db.Assistance c' = Db.Assistance c
    /\ Db.Emergency c' = Db.Emergency c.
Proof.
  intros Hc Hv Ht He.
  destruct (py_eq_int (type_ data) 0) eqn:E0.
  - eexists. split; [run_db; reflexivity|]. cbn. auto.
  - destruct Ht as [Ht|Ht]; [discriminate|].
    eexists. split; [run_db; reflexivity|]. cbn. auto.
Qed.

(** C1, as the code has it.  On an open connection with nothing
    pending, and for a record whose exhibition the Exhibition table
    has, [move_to_db] follows the table on (val, type): a vote whose
    rating the Rating table has adds exactly one row to Vote, with the
    RatingID of that rating, and none elsewhere; a request of type 0
    adds exactly one row to Assistance only; a request of type 1 adds
    exactly one row to Emergency only.  A request with no type does
    nothing at all: no table changes, and the state of the process,
    its log included, is as before.  For a record whose exhibition the
    table does not have, the insert of each of the three cases is
    refused: [IntegrityError], and no table changes. *)
Theorem routing_table (data : transformed) (s : state) :
  Db.closed (connection s) = false ->
  Db.pending (connection s) = [] ->
  (forall rid : Z,
     py_eq_int (val data) (-1) = false ->
     tuple_switch_one py_eq_int (val data) (Db.Rating (connection s)) = Ok rid ->
     Db.has_exhibition (connection s) (site data) = true ->
     exists c',
       move_to_db data (connection s) = (Ok tt, c')
       /\ Db.Vote c' = (Db.Vote (connection s) ++ [(site data, at_ data, rid)])%list
       /\ Db.Assistance c' = Db.Assistance (connection s)
       /\ Db.Emergency c' = Db.Emergency (connection s))
  /\ (py_eq_int (val data) (-1) = true -> py_eq_int (type_ data) 0 = true ->
      Db.has_exhibition (connection s) (site data) = true ->
      exists c',
        move_to_db data (connection s) = (Ok tt, c')
        /\ Db.Assistance c'
           = (Db.Assistance (connection s) ++ [(site data, at_ data)])%list
        /\ Db.Vote c' = Db.Vote (connection s)
        /\ Db.Emergency c' = Db.Emergency (connection s))
  /\ (py_eq_int (val data) (-1) = true -> py_eq_int (type_ data) 1 = true ->
      Db.has_exhibition (connection s) (site data) = true ->
      exists c',
        move_to_db data (connection s) = (Ok tt, c')
        /\ Db.Emergency c'
           = (Db.Emergency (connection s) ++ [(site data, at_ data)])%list
        /\ Db.Vote c' = Db.Vote (connection s)
        /\ Db.Assistance c' = Db.Assistance (connection s))
  /\ (py_eq_int (val data) (-1) = true -> type_ data = PNone ->
      on_connection (move_to_db data) s = (Ok tt, s))
  /\ (Db.has_exhibition (connection s) (site data) = false ->
      (exists rid,
         py_eq_int (val data) (-1) = false
         /\ tuple_switch_one py_eq_int (val data) (Db.Rating (connection s)) = Ok rid)
      \/ (py_eq_int (val data) (-1) = true
          /\ (py_eq_int (type_ data) 0 = true \/ py_eq_int (type_ data) 1 = true)) ->
      exists c',
        move_to_db data (connection s) = (Raise IntegrityError, c')
        /\ Db.Vote c' = Db.Vote (connection s)
        /\ Db.Assistance c' = Db.Assistance (connection s)
        /\ Db.Emergency c' = Db.Emergency (connection s)).
Proof.
  intros Hc Hp. repeat split.
  - intros rid Hv Hr He. eexists.
    split; [exact (move_to_db_vote data _ rid Hc Hp Hv Hr He)|]. cbn. auto.
  - intros Hv Ht He. eexists.
    split; [exact (move_to_db_assistance data _ Hc Hp Hv Ht He)|]. cbn. auto.
  - intros Hv Ht He.
    pose proof (py_eq_int_one_not_zero _ Ht) as Ht0.
    eexists.
    split; [exact (move_to_db_emergency data _ Hc Hp Hv Ht0 Ht He)|]. cbn. auto.
  - intros Hv Ht. unfold on_connection.
    rewrite (move_to_db_no_kind data (connection s) Hc Hv); rewrite ?Ht; try reflexivity.
    destruct s; reflexivity.
  - intros He [(rid & Hv & Hr) | (Hv & Ht)].
    + eexists.
      split; [exact (move_to_db_vote_refused data _ rid Hc Hv Hr He)|]. cbn. auto.
    + exact (move_to_db_request_refused data _ Hc Hv Ht He).
Qed.

Lemma routing_table_witness :
  exists c',
    move_to_db vote_record (connection (fresh seeded)) = (Ok tt, c')
    /\ Db.Vote c'
       = (Db.Vote (connection (fresh seeded))
          ++ [(site vote_record, at_ vote_record, 5)])%list
    /\ Db.Assistance c' = Db.Assistance (connection (fresh seeded))
    /\ Db.Emergency c' = Db.Emergency (connection (fresh seeded)).
Proof.
  refine (proj1 (routing_table vote_record (fresh seeded) _ _) 5 _ _ _);
    vm_compute; reflexivity.
Defined.

(** C1 as the spec states it fails twice: a request without a type is
    not logged (it is echoed on the console like an accepted message),
    and a vote whose rating the Rating table lacks inserts no row. *)
Lemma no_kind_not_logged_and_miss_not_inserted :
  (exists s',
     iteration (PollMsg (MsgJson no_kind_message)) (fresh seeded) = (Ok tt, s')
     /\ log s' = []
     /\ console s' = [{| at_ := "01/01/24 10:00:00"; site := "EXH_02";
                         val := PInt (-1); type_ := PNone |}]
     /\ Db.executed (connection s') = [])
  /\ (exists c',
        move_to_db vote_record without_ratings = (Raise ValueError, c')
        /\ Db.Vote c' = [] /\ Db.executed c' = [Db.SelectRating]).
Proof.
  split; (eexists; split; [vm_compute; reflexivity|]; repeat split).
Qed.

(** ** The end-to-end scenario *)

(** C9.  The message of the scenario passes the checks and is
    transformed to exhibition EXH_02 at 01/01/24 10:00:00; on an open
    connection whose Rating table maps rating 4 to [rid] and whose
    Exhibition table has EXH_02, its iteration adds the one Vote row
    (EXH_02, 01/01/24 10:00:00, [rid]) and no other row.  In general a
    message that passes the checks has a one-character site [d], and
    its record carries the exhibition "EXH_0" followed by [d]. *)
Theorem end_to_end_vote (s : state) (rid : Z) :
  Db.closed (connection s) = false ->
  Db.pending (connection s) = [] ->
  Db.has_exhibition (connection s) "EXH_02" = true ->
  tuple_switch_one py_eq_int (PInt 4) (Db.Rating (connection s)) = Ok rid ->
  validate vote_message = Ok None
  /\ transform_kafka_data vote_message = Ok vote_record
  /\ (exists s',
        iteration (PollMsg (MsgJson vote_message)) s = (Ok tt, s')
        /\ Db.Vote (connection s')
           = (Db.Vote (connection s) ++ [("EXH_02", "01/01/24 10:00:00", rid)])%list
        /\ Db.Assistance (connection s') = Db.Assistance (connection s)
        /\ Db.Emergency (connection s') = Db.Emergency (connection s)
        /\ console s' = (console s ++ [vote_record])%list)
  /\ (forall (d : gmap string pyval) (r : transformed),
        validate (PDict d) = Ok None ->
        transform_kafka_data (PDict d) = Ok r ->
        exists c : ascii,
          d !! "site" = Some (PStr (String c EmptyString))
          /\ site r = "EXH_0" +:+ String c EmptyString).
Proof.
  intros Hc Hp He Hr.
  assert (Hv : validate vote_message = Ok None) by (vm_compute; reflexivity).
  assert (Ht : transform_kafka_data vote_message = Ok vote_record)
    by (vm_compute; reflexivity).
  split; [exact Hv|]. split; [exact Ht|]. split.
  - eexists. split.
    + rewrite (iteration_accepted vote_message s Hv), Ht.
      rewrite (move_to_db_vote vote_record (connection s) rid Hc Hp eq_refl Hr He).
      reflexivity.
    + cbn. auto.
  - intros d r Hvd Htd.
    destruct (transform_returns _ _ Htd) as (d' & a & sv & v & t & Hd & _ & _ & Hs & _ & ->).
    injection Hd as <-.
    rewrite validate_first_failure in Hvd. injection Hvd as Hff.
    unfold first_failure, rules in Hff. cbn [List.find fst snd] in Hff.
    destruct (negb (presence_rule d)); [discriminate|].
    destruct (negb (site_rule d)) eqn:Es; [discriminate|].
    apply negb_false_iff in Es. unfold site_rule in Es. rewrite Hs in Es.
    apply andb_prop in Es. destruct Es as [_ Elen].
    apply Nat.eqb_eq in Elen.
    destruct sv as [|c [|c' sv']]; cbn [String.length] in Elen; try lia.
    exists c. split; [exact Hs | reflexivity].
Qed.

Lemma end_to_end_vote_witness :
  validate vote_message = Ok None
  /\ transform_kafka_data vote_message = Ok vote_record
  /\ (exists s',
        iteration (PollMsg (MsgJson vote_message)) (fresh seeded) = (Ok tt, s')
        /\ Db.Vote (connection s')
           = (Db.Vote (connection (fresh seeded))
              ++ [("EXH_02", "01/01/24 10:00:00", 5)])%list
        /\ Db.Assistance (connection s') = Db.Assistance (connection (fresh seeded))
        /\ Db.Emergency (connection s') = Db.Emergency (connection (fresh seeded))
        /\ console s' = (console (fresh seeded) ++ [vote_record])%list)
  /\ (forall (d : gmap string pyval) (r : transformed),
        validate (PDict d) = Ok None ->
        transform_kafka_data (PDict d) = Ok r ->
        exists c : ascii,
          d !! "site" = Some (PStr (String c EmptyString))
          /\ site r = "EXH_0" +:+ String c EmptyString).
Proof.
  refine (end_to_end_vote (fresh seeded) 5 _ _ _ _); vm_compute; reflexivity.
Defined.

(** ** The timestamp of the record *)

Section more_timestamp_facts.
Import Datetime.

(** An offset that keeps the clock within the same second leaves the
    text as it is. *)
Lemma utc_timestamp_same_second (t : datetime) :
  0 <= hour t <= 23 -> 0 <= minute t <= 59 -> 0 <= second t <= 59 ->
  0 <= microsecond t - utcoffset t < 1000000 ->
  Spec.utc_timestamp t = Some (strftime t).
Proof.
  intros HH HM HS Hf. destruct t as [Y m d H M S f off].
  cbn [hour minute second microsecond utcoffset] in *.
  unfold Spec.utc_timestamp, Spec.utc_normalize, Spec.day_us.
  cbn [hour minute second microsecond utcoffset year month day].
  set (us := ((H * 60 + M) * 60 + S) * 1000000 + f - off).
  assert (Hus : 0 <= us < 86400000000) by (unfold us; lia).
  rewrite (Z.div_small us 86400000000 Hus), (Z.mod_small us 86400000000 Hus).
  cbn [Z.eqb mbind option_bind fst snd fmap option_fmap option_map].
  unfold strftime. cbn [hour minute second year month day].
  assert (E1 : us / 3600000000 = H)
    by (unfold us; Z.to_euclidean_division_equations; lia).
  assert (E2 : us / 60000000 mod 60 = M)
    by (unfold us; Z.to_euclidean_division_equations; lia).
  assert (E3 : us / 1000000 mod 60 = S)
    by (unfold us; Z.to_euclidean_division_equations; lia).
  rewrite E1, E2, E3. reflexivity.
Qed.

End more_timestamp_facts.

(** C5, as the code has it.  When the transformation returns, [at] was
    a text that [strptime] accepted with the format
    ['%Y-%m-%dT%H:%M:%S.%f%z'], and the record carries the date and the
    time of day of that text as MM/DD/YY HH:MM:SS.  The offset is
    parsed and range-checked but not applied: the same wall-clock
    fields under any other offset give the same text, so the text is
    the UTC time when the offset is zero, and more generally when
    taking the offset away stays within the same second of the clock;
    and for every zero-padded text YYYY-mm-ddTHH:MM:SS followed by any
    fraction and offset that [strptime] accepts, the text is
    mm/dd/YY HH:MM:SS with the same digits. *)
Theorem timestamp_is_wall_clock (data : pyval) (r : transformed) :
  transform_kafka_data data = Ok r ->
  (exists (s : string) (t : Datetime.datetime),
     getitem data "at" = Ok (PStr s)
     /\ Datetime.strptime s = Ok t
     /\ at_ r = Datetime.two_digits (Datetime.month t) +:+ "/"
                +:+ Datetime.two_digits (Datetime.day t) +:+ "/"
                +:+ Datetime.two_digits (Datetime.year t mod 100) +:+ " "
                +:+ Datetime.two_digits (Datetime.hour t) +:+ ":"
                +:+ Datetime.two_digits (Datetime.minute t) +:+ ":"
                +:+ Datetime.two_digits (Datetime.second t)
     /\ (forall off : Z,
           Datetime.strftime (Datetime.replace_offset off t) = at_ r)
     /\ (Datetime.utcoffset t = 0 -> Spec.utc_timestamp t = Some (at_ r))
     /\ (0 <= Datetime.microsecond t - Datetime.utcoffset t < 1000000 ->
         Spec.utc_timestamp t = Some (at_ r)))
  /\ (forall (Y m d H M S : nat) (rest : string) (t : Datetime.datetime),
        (Y < 100 * 100)%nat -> (m < 100)%nat -> (d < 100)%nat ->
        (H < 100)%nat -> (M < 100)%nat -> (S < 100)%nat ->
        Datetime.strptime (iso_wall_clock Y m d H M S +:+ rest) = Ok t ->
        Datetime.strftime t
        = pad2 m +:+ "/" +:+ pad2 d +:+ "/" +:+ pad2 (Y mod 100) +:+ " "
          +:+ pad2 H +:+ ":" +:+ pad2 M +:+ ":" +:+ pad2 S).
Proof.
  intros H. split; [|exact strftime_wall_clock].
  destruct (transform_returns _ _ H) as (d & s & sv & v & t & -> & Ha & Ht & _ & _ & ->).
  exists s, t. cbn [at_]. repeat split.
  - unfold getitem. rewrite Ha. reflexivity.
  - exact Ht.
  - intros Hoff. unfold Spec.utc_timestamp.
    destruct (strptime_checked s t Ht) as (HH & HM & HS & Hf).
    rewrite (utc_normalize_zero_offset t HH HM HS Hf Hoff). reflexivity.
  - intros Hsub.
    destruct (strptime_checked s t Ht) as (HH & HM & HS & _).
    exact (utc_timestamp_same_second t HH HM HS Hsub).
Qed.

Lemma timestamp_is_wall_clock_witness :
  exists (s : string) (t : Datetime.datetime),
    getitem offset_message "at" = Ok (PStr s)
    /\ Datetime.strptime s = Ok t
    /\ at_ vote_record
       = Datetime.two_digits (Datetime.month t) +:+ "/"
         +:+ Datetime.two_digits (Datetime.day t) +:+ "/"
         +:+ Datetime.two_digits (Datetime.year t mod 100) +:+ " "
         +:+ Datetime.two_digits (Datetime.hour t) +:+ ":"
         +:+ Datetime.two_digits (Datetime.minute t) +:+ ":"
         +:+ Datetime.two_digits (Datetime.second t)
    /\ (forall off : Z,
          Datetime.strftime (Datetime.replace_offset off t) = at_ vote_record)
    /\ (Datetime.utcoffset t = 0 -> Spec.utc_timestamp t = Some (at_ vote_record))
    /\ (0 <= Datetime.microsecond t - Datetime.utcoffset t < 1000000 ->
        Spec.utc_timestamp t = Some (at_ vote_record)).
Proof.
  refine (proj1 (timestamp_is_wall_clock offset_message vote_record _)).
  vm_compute. reflexivity.
Defined.

(** An offset of a quarter of a second on a time half a second past
    10:00:00: the offset is not zero, and the text is the UTC time all
    the same. *)
Example subsecond_offset_same_text :
  exists t : Datetime.datetime,
    Datetime.strptime "2024-01-01T10:00:00.500000+00:00:00.250000" = Ok t
    /\ Datetime.utcoffset t = 250000
    /\ Datetime.strftime t = "01/01/24 10:00:00"
    /\ Spec.utc_timestamp t = Some "01/01/24 10:00:00".
Proof.
  eexists. split; [vm_compute; reflexivity|].
  repeat split; vm_compute; reflexivity.
Qed.

(** C5 as the spec states it fails: for a message stamped 10:00 at
    five hours ahead of UTC the record says 10:00, while the same
    instant in UTC is 05:00. *)
Lemma offset_not_normalized :
  exists (t : Datetime.datetime) (r : transformed),
    py_strptime (PStr "2024-01-01T10:00:00.000000+05:00") = Ok t
    /\ Datetime.utcoffset t = 18000000000
    /\ transform_kafka_data offset_message = Ok r
    /\ at_ r = "01/01/24 10:00:00"
    /\ Spec.utc_timestamp t = Some "01/01/24 05:00:00"
    /\ Spec.utc_timestamp t <> Some (at_ r).
Proof.
  eexists. eexists.
  split; [vm_compute; reflexivity|].
  split; [vm_compute; reflexivity|].
  split; [vm_compute; reflexivity|].
  split; [reflexivity|].
  split; [vm_compute; reflexivity|].
  vm_compute. discriminate.
Qed.

(** * Further properties of the code *)

(** ** The loop as a whole *)

Lemma loop_app (p1 p2 : list poll) (s : state) :
  loop (p1 ++ p2) s =
    match loop p1 s with
    | (Ok _, s1) => loop p2 s1
    | (Raise e, s1) => (Raise e, s1)
    end.
Proof.
  revert s. induction p1 as [|p p1 IH]; intros s.
  - reflexivity.
  - change ((p :: p1) ++ p2)%list with (p :: (p1 ++ p2))%list.
    rewrite !loop_cons. destruct (iteration p s) as [[[]|e] s1]; [apply IH | reflexivity].
Qed.

(** X1.  An interrupt raised by [poll] stops the loop without an error:
    the function returns, the consumer and the connection are closed,
    and the tables are as the polls before the interrupt left them;
    the polls after it are never made. *)
Theorem interrupt_stops_cleanly (topic : string) (before after : list poll) (s s1 : state) :
  loop before (subscribe topic s) = (Ok tt, s1) ->
  process_kafka_data topic (before ++ PollRaises KeyboardInterrupt :: after) s
  = Returned (close_all s1)
  /\ Db.Vote (connection (close_all s1)) = Db.Vote (connection s1)
  /\ Db.Assistance (connection (close_all s1)) = Db.Assistance (connection s1)
  /\ Db.Emergency (connection (close_all s1)) = Db.Emergency (connection s1)
  /\ Db.closed (connection (close_all s1)) = true
  /\ consumer_closed (close_all s1) = true.
Proof.
  intros H. unfold process_kafka_data. rewrite loop_app, H, loop_cons.
  repeat split.
Qed.

Lemma interrupt_stops_cleanly_witness :
  process_kafka_data "lmnh"
    ([PollMsg (MsgJson vote_message)]
       ++ PollRaises KeyboardInterrupt :: [PollMsg (MsgJson vote_message)])
    (fresh seeded)
  = Returned
      (close_all (snd (loop [PollMsg (MsgJson vote_message)]
                         (subscribe "lmnh" (fresh seeded)))))
  /\ Db.Vote (connection
                (close_all (snd (loop [PollMsg (MsgJson vote_message)]
                                   (subscribe "lmnh" (fresh seeded))))))
     = [("EXH_02", "01/01/24 10:00:00", 5)].
Proof.
  split.
  - refine (proj1 (interrupt_stops_cleanly "lmnh" [PollMsg (MsgJson vote_message)]
                     [PollMsg (MsgJson vote_message)] (fresh seeded)
                     (snd (loop [PollMsg (MsgJson vote_message)]
                             (subscribe "lmnh" (fresh seeded)))) _)).
    vm_compute. reflexivity.
  - vm_compute. reflexivity.
Defined.

(** X2.  Polls that time out change nothing: the run over a sequence
    of polls is the run over the same sequence without them. *)
Theorem empty_polls_skipped (topic : string) (polls : list poll) (s : state) :
  process_kafka_data topic (List.filter (fun p => negb (is_none p)) polls) s
  = process_kafka_data topic polls s.
Proof.
  unfold process_kafka_data. generalize (subscribe topic s). clear s.
  assert (H : forall s, loop (List.filter (fun p => negb (is_none p)) polls) s = loop polls s).
  { induction polls as [|p polls IH]; intros s; [reflexivity|].
    destruct p as [|m|e]; cbn [List.filter is_none negb].
    - rewrite IH, (loop_cons PollNone). reflexivity.
    - rewrite !loop_cons. destruct (iteration _ s) as [[[]|] s1]; [apply IH|reflexivity].
    - rewrite !loop_cons. destruct (iteration _ s) as [[[]|] s1]; [apply IH|reflexivity]. }
  intros s. rewrite H. reflexivity.
Qed.









(** ** The two Kafka handlers *)

Lemma iteration_kafka_error (e : exn) (s : state) :
  is_kafka_error e = true ->
  iteration (PollMsg (MsgRaises e)) s =
    after_try {| connection := connection s; subscription := subscription s;
                 consumer_closed := consumer_closed s;
                 log := log s ++ [kafka_log e];
                 console := console s; msg_dict := msg_dict s |}.
Proof.
  intros H. destruct e; try discriminate H; reflexivity.
Qed.

(** X4.  The two Kafka handlers log and fall through to the
    transformation, which reads the [msg_dict] of an earlier turn: a
    message that the checks rejected is transformed and handed to
    [move_to_db] all the same when the decoding of the next message
    raises one of the two Kafka classes. *)
Theorem rejected_message_written_after_kafka_error
    (v : pyval) (reason : validation_error) (data : transformed) (e : exn)
    (s : state) (c' : Db.connection) :
  validate v = Ok (Some reason) ->
  transform_kafka_data v = Ok data ->
  move_to_db data (connection s) = (Ok tt, c') ->
  is_kafka_error e = true ->
  exists s',
    loop [PollMsg (MsgJson v); PollMsg (MsgRaises e)] s = (Ok tt, s')
    /\ connection s' = c'
    /\ console s' = (console s ++ [data])%list
    /\ log s' = (log s ++ [LogInfo "Message: %s" (Some v);
                           LogInfo (error_text reason) None; kafka_log e])%list.
Proof.
  intros Hv Ht Hm He.
  rewrite loop_cons, (iteration_rejected v reason s Hv), loop_cons,
    (iteration_kafka_error e _ He).
  cbv [after_try on_connection print modify gets lift raise
       mbind mret prog_bind prog_ret loop].
  cbn [msg_dict connection]. rewrite Ht, Hm.
  eexists. split; [reflexivity|]. cbn. rewrite <- !app_assoc. auto.
Qed.

Lemma rejected_message_written_after_kafka_error_witness :
  exists s',
    loop [PollMsg (MsgJson typed_vote_message); PollMsg (MsgRaises KafkaException)]
      (fresh seeded) = (Ok tt, s')
    /\ connection s' = snd (move_to_db typed_vote_record seeded)
    /\ console s' = (console (fresh seeded) ++ [typed_vote_record])%list
    /\ log s' = (log (fresh seeded)
                 ++ [LogInfo "Message: %s" (Some typed_vote_message);
                     LogInfo (error_text InvalidType) None;
                     kafka_log KafkaException])%list.
Proof.
  refine (rejected_message_written_after_kafka_error typed_vote_message InvalidType
            typed_vote_record KafkaException (fresh seeded)
            (snd (move_to_db typed_vote_record seeded)) _ _ _ _).
  - vm_compute. reflexivity.
  - vm_compute. reflexivity.
  - vm_compute. reflexivity.
  - reflexivity.
Defined.

(** X5.  In the same way a message that passed the checks is written
    twice: once in its own turn, once more in the turn whose decoding
    raised a Kafka class. *)
Theorem accepted_message_written_twice
    (v : pyval) (data : transformed) (e : exn) (s : state) (c1 c2 : Db.connection) :
  validate v = Ok None ->
  transform_kafka_data v = Ok data ->
  move_to_db data (connection s) = (Ok tt, c1) ->
  move_to_db data c1 = (Ok tt, c2) ->
  is_kafka_error e = true ->
  exists s',
    loop [PollMsg (MsgJson v); PollMsg (MsgRaises e)] s = (Ok tt, s')
    /\ connection s' = c2
    /\ console s' = (console s ++ [data; data])%list.
Proof.
  intros Hv Ht Hm1 Hm2 He.
  rewrite loop_cons, (iteration_accepted v s Hv), Ht, Hm1, loop_cons,
    (iteration_kafka_error e _ He).
  cbv [after_try on_connection print modify gets lift raise
       mbind mret prog_bind prog_ret loop].
  cbn [msg_dict connection]. rewrite Ht, Hm2.
  eexists. split; [reflexivity|]. cbn. rewrite <- !app_assoc. auto.
Qed.

Lemma accepted_message_written_twice_witness :
  exists s',
    loop [PollMsg (MsgJson vote_message); PollMsg (MsgRaises KafkaError)]
      (fresh seeded) = (Ok tt, s')
    /\ connection s'
       = snd (move_to_db vote_record (snd (move_to_db vote_record seeded)))
    /\ console s' = (console (fresh seeded) ++ [vote_record; vote_record])%list.
Proof.
  refine (accepted_message_written_twice vote_message vote_record KafkaError
            (fresh seeded) (snd (move_to_db vote_record seeded))
            (snd (move_to_db vote_record (snd (move_to_db vote_record seeded))))
            _ _ _ _ _).
  - vm_compute. reflexivity.
  - vm_compute. reflexivity.
  - vm_compute. reflexivity.
  - vm_compute. reflexivity.
  - reflexivity.
Defined.

(** X6.  When the first message of a run raises a Kafka class,
    [msg_dict] was never bound: the handler logs, the transformation
    raises [UnboundLocalError], and the run ends with the consumer and
    the connection closed, nothing echoed, and no row written to any
    of the three tables. *)
Theorem kafka_error_on_first_message (topic : string) (e : exn) (rest : list poll)
    (s : state) :
  is_kafka_error e = true ->
  msg_dict s = None ->
  exists s',
    process_kafka_data topic (PollMsg (MsgRaises e) :: rest) s
    = Raised UnboundLocalError s'
    /\ log s' = (log s ++ [kafka_log e])%list
    /\ console s' = console s
    /\ Db.Vote (connection s') = Db.Vote (connection s)
    /\ Db.Assistance (connection s') = Db.Assistance (connection s)
    /\ Db.Emergency (connection s') = Db.Emergency (connection s)
    /\ Db.closed (connection s') = true /\ consumer_closed s' = true.
Proof.
  intros He Hm. unfold process_kafka_data.
  rewrite loop_cons, (iteration_kafka_error e _ He).
  cbv [after_try on_connection print modify gets lift raise
       mbind mret prog_bind prog_ret].
  cbn [msg_dict subscribe]. rewrite Hm.
  eexists. split; [reflexivity|]. cbn. auto 10.
Qed.

Lemma kafka_error_on_first_message_witness :
  exists s',
    process_kafka_data "lmnh" (PollMsg (MsgRaises KafkaException) :: sample_polls)
      (fresh seeded)
    = Raised UnboundLocalError s'
    /\ log s' = (log (fresh seeded) ++ [kafka_log KafkaException])%list
    /\ console s' = console (fresh seeded)
    /\ Db.Vote (connection s') = Db.Vote (connection (fresh seeded))
    /\ Db.Assistance (connection s') = Db.Assistance (connection (fresh seeded))
    /\ Db.Emergency (connection s') = Db.Emergency (connection (fresh seeded))
    /\ Db.closed (connection s') = true /\ consumer_closed s' = true.
Proof.
  refine (kafka_error_on_first_message "lmnh" KafkaException sample_polls
            (fresh seeded) _ _).
  - reflexivity.
  - reflexivity.
Defined.

(** X7.  A payload that is valid JSON but not an object (a number, a
    text, a list, null) has no [keys]: the first check raises
    [AttributeError], which no handler of the loop catches, so the run
    ends there with nothing logged and nothing written. *)
Theorem non_object_payload_ends_loop (topic : string) (v : pyval) (rest : list poll)
    (s : state) :
  (forall d, v <> PDict d) ->
  exists s',
    process_kafka_data topic (PollMsg (MsgJson v) :: rest) s
    = Raised AttributeError s'
    /\ log s' = log s /\ console s' = console s
    /\ Db.Vote (connection s') = Db.Vote (connection s)
    /\ Db.Assistance (connection s') = Db.Assistance (connection s)
    /\ Db.Emergency (connection s') = Db.Emergency (connection s)
    /\ Db.closed (connection s') = true /\ consumer_closed s' = true.
Proof.
  intros Hv. unfold process_kafka_data. rewrite loop_cons.
  assert (Hval : validate v = Raise AttributeError).
  { destruct v; try reflexivity. exfalso. eapply Hv. reflexivity. }
  cbv [iteration try_block try_body logging assign_msg_dict modify lift raise
       mbind mret prog_bind prog_ret].
  rewrite Hval. eexists. split; [reflexivity|]. cbn. auto 10.
Qed.

Lemma non_object_payload_ends_loop_witness :
  exists s',
    process_kafka_data "lmnh" (PollMsg (MsgJson (PInt 3)) :: sample_polls)
      (fresh seeded)
    = Raised AttributeError s'
    /\ log s' = log (fresh seeded) /\ console s' = console (fresh seeded)
    /\ Db.Vote (connection s') = Db.Vote (connection (fresh seeded))
    /\ Db.Assistance (connection s') = Db.Assistance (connection (fresh seeded))
    /\ Db.Emergency (connection s') = Db.Emergency (connection (fresh seeded))
    /\ Db.closed (connection s') = true /\ consumer_closed s' = true.
Proof.
  refine (non_object_payload_ends_loop "lmnh" (PInt 3) sample_polls (fresh seeded) _).
  intros d. discriminate.
Defined.

(** ** The transformation of a checked message *)

Lemma validate_accepts (d : gmap string pyval) :
  validate (PDict d) = Ok None ->
  presence_rule d = true /\ site_rule d = true /\ val_rule d = true
  /\ type_rule d = true.
Proof.
  rewrite validate_first_failure. unfold first_failure, rules.
  cbn [List.find fst snd].
  destruct (presence_rule d), (site_rule d), (val_rule d), (type_rule d);
    cbn; intros H; try discriminate H; auto.
Qed.

(** X8.  For a message that passed the checks the transformation can
    fail in one place only, the parsing of [at]: it returns exactly
    when the timestamp parses, with the formatted time of the parsed
    object, and otherwise raises the parser's exception. *)
Theorem transform_fails_on_timestamp_only (d : gmap string pyval) :
  validate (PDict d) = Ok None ->
  exists a : pyval,
    d !! "at" = Some a
    /\ match py_strptime a with
       | Ok t =>
           exists r, transform_kafka_data (PDict d) = Ok r
                     /\ at_ r = Datetime.strftime t
       | Raise e => transform_kafka_data (PDict d) = Raise e
       end.
Proof.
  intros Hv. destruct (validate_accepts d Hv) as (Hp & Hs & Hval & _).
  unfold presence_rule in Hp. rewrite !has_key_lookup in Hp.
  unfold site_rule in Hs. unfold val_rule in Hval.
  destruct (d !! "at") as [a|] eqn:Ea; [|discriminate].
  destruct (d !! "site") as [sv|] eqn:Es; [|discriminate].
  destruct sv as [| | | |sv| |]; try discriminate.
  destruct (d !! "val") as [v|] eqn:Ev; [|discriminate].
  exists a. split; [reflexivity|].
  destruct (py_strptime a) as [t|e] eqn:Ep.
  - destruct a as [| | | |s| |]; try discriminate.
    rewrite (transform_succeeds d s sv v t Ea Ep Es Ev). eauto.
  - unfold transform_kafka_data, getitem. rewrite Ea.
    cbn [mbind result_bind]. rewrite Ep. reflexivity.
Qed.

Lemma transform_fails_on_timestamp_only_witness :
  exists a : pyval,
    (list_to_map [("at", PStr "yesterday"); ("site", PStr "2"); ("val", PInt 4)]
       : gmap string pyval) !! "at" = Some a
    /\ match py_strptime a with
       | Ok t =>
           exists r,
             transform_kafka_data
               (PDict (list_to_map [("at", PStr "yesterday"); ("site", PStr "2");
                                    ("val", PInt 4)])) = Ok r
             /\ at_ r = Datetime.strftime t
       | Raise e =>
           transform_kafka_data
             (PDict (list_to_map [("at", PStr "yesterday"); ("site", PStr "2");
                                  ("val", PInt 4)])) = Raise e
       end.
Proof.
  refine (transform_fails_on_timestamp_only
            (list_to_map [("at", PStr "yesterday"); ("site", PStr "2");
                          ("val", PInt 4)]) _).
  vm_compute. reflexivity.
Defined.

Section datetime_ranges.
Import Datetime.

Lemma days_in_month_bound (y m : Z) : 28 <= days_in_month y m <= 31.
Proof.
  unfold days_in_month.
  destruct (m =? 2); [destruct (is_leap y); lia|].
  destruct ((m =? 4) || (m =? 6) || (m =? 9) || (m =? 11)); lia.
Qed.

(** What [strptime] returns is a date of the calendar and a time of the
    clock, under an offset of less than a day. *)
Lemma strptime_valid (s : string) (t : datetime) :
  strptime s = Ok t ->
  1 <= year t <= 9999 /\ 1 <= month t <= 12
  /\ 1 <= day t <= days_in_month (year t) (month t)
  /\ 0 <= hour t <= 23 /\ 0 <= minute t <= 59 /\ 0 <= second t <= 59
  /\ 0 <= microsecond t <= 999999
  /\ - 86400000000 < utcoffset t < 86400000000.
Proof.
  unfold strptime. destruct (re_match format_regex s) as [|m ms]; [discriminate|].
  destruct (negb _); [discriminate|]. intros H.
  repeat (apply result_bind_ok in H; destruct H as (? & _ & H)).
  revert H. unfold make_datetime, between.
  match goal with |- context [if negb ?b then _ else _] =>
    destruct b eqn:E1; cbn [negb]; [|discriminate] end.
  match goal with |- context [if negb ?b then _ else _] =>
    destruct b eqn:E2; cbn [negb]; [|discriminate] end.
  match goal with |- context [if negb ?b then _ else _] =>
    destruct b eqn:E3; cbn [negb]; [|discriminate] end.
  intros [= <-]. cbn [year month day hour minute second microsecond utcoffset].
  repeat (apply andb_prop in E1; destruct E1 as [E1 ?]).
  repeat (apply andb_prop in E2; destruct E2 as [E2 ?]).
  repeat (apply andb_prop in E3; destruct E3 as [E3 ?]).
  lia.
Qed.

Lemma two_digits_nat (x : Z) :
  0 <= x < 100 -> two_digits x = pad2 (Z.to_nat x).
Proof.
  intros H. rewrite <- (two_digits_pad2 (Z.to_nat x)) by lia.
  rewrite Z2Nat.id by lia. reflexivity.
Qed.

End datetime_ranges.

(** X9.  Every timestamp the transformation emits has the seventeen
    characters MM/DD/YY HH:MM:SS, with a month 01..12, a day 01..31, an
    hour below 24, minutes and seconds below 60. *)
Theorem timestamp_shape (data : pyval) (r : transformed) :
  transform_kafka_data data = Ok r ->
  exists m d y H M S : nat,
    (1 <= m <= 12 /\ 1 <= d <= 31 /\ y < 100 /\ H < 24 /\ M < 60 /\ S < 60)%nat
    /\ at_ r = pad2 m +:+ "/" +:+ pad2 d +:+ "/" +:+ pad2 y +:+ " "
               +:+ pad2 H +:+ ":" +:+ pad2 M +:+ ":" +:+ pad2 S
    /\ String.length (at_ r) = 17%nat.
Proof.
  intros H.
  destruct (transform_returns _ _ H) as (d & s & sv & v & t & _ & _ & Ht & _ & _ & ->).
  destruct (strptime_valid s t Ht) as (HY & Hm & Hd & HH & HM & HS & _).
  pose proof (days_in_month_bound (Datetime.year t) (Datetime.month t)).
  pose proof (Z.mod_pos_bound (Datetime.year t) 100 ltac:(lia)).
  exists (Z.to_nat (Datetime.month t)), (Z.to_nat (Datetime.day t)),
    (Z.to_nat (Datetime.year t mod 100)), (Z.to_nat (Datetime.hour t)),
    (Z.to_nat (Datetime.minute t)), (Z.to_nat (Datetime.second t)).
  split; [lia|]. cbn [at_]. unfold Datetime.strftime.
  rewrite !two_digits_nat by lia. split; reflexivity.
Qed.

Lemma timestamp_shape_witness :
  exists m d y H M S : nat,
    (1 <= m <= 12 /\ 1 <= d <= 31 /\ y < 100 /\ H < 24 /\ M < 60 /\ S < 60)%nat
    /\ at_ vote_record = pad2 m +:+ "/" +:+ pad2 d +:+ "/" +:+ pad2 y +:+ " "
                         +:+ pad2 H +:+ ":" +:+ pad2 M +:+ ":" +:+ pad2 S
    /\ String.length (at_ vote_record) = 17%nat.
Proof.
  refine (timestamp_shape vote_message vote_record _).
  vm_compute. reflexivity.
Defined.

(** ** What a payload can raise *)

Lemma result_bind_raise {A B} (m : result A) (f : A -> result B) (e : exn) :
  m ≫= f = Raise e -> m = Raise e \/ exists a, m = Ok a /\ f a = Raise e.
Proof. destruct m as [a|e']; cbn; [eauto | intros [= ->]; auto]. Qed.

Ltac split_bind H :=
  apply result_bind_raise in H;
  destruct H as [H | (? & _ & H)].

Section raise_facts.
Import Datetime.

Lemma group_raises (d : gmap string string) (k : string) (e : exn) :
  group d k = Raise e -> e = KeyError.
Proof. unfold group. destruct (d !! k); [discriminate | intros [= <-]; reflexivity]. Qed.

Lemma py_int_raises (s : string) (e : exn) : py_int s = Raise e -> e = ValueError.
Proof.
  unfold py_int. destruct (lstrip s); [intros [= <-]; reflexivity|].
  destruct (digits_value _ _); [discriminate | intros [= <-]; reflexivity].
Qed.

Lemma parse_offset_raises (z : string) (e : exn) :
  parse_offset z = Raise e -> e = IndexError \/ e = ValueError.
Proof.
  unfold parse_offset. destruct (String.eqb z "Z"); [discriminate|].
  intros H. split_bind H.
  - destruct (get 3 z) as [c3|]; [|injection H as <-; auto].
    destruct (Ascii.eqb c3 ":"); [|discriminate].
    destruct (_ <? _)%nat; [|discriminate].
    destruct (get 5 _) as [c5|]; [|injection H as <-; auto].
    destruct (negb _); [injection H as <-; auto | discriminate].
  - split_bind H; [right; exact (py_int_raises _ _ H)|].
    split_bind H; [right; exact (py_int_raises _ _ H)|].
    split_bind H.
    { destruct (String.eqb _ _); [discriminate | right; exact (py_int_raises _ _ H)]. }
    split_bind H; [right; exact (py_int_raises _ _ H)|].
    destruct (String.prefix _ _); discriminate.
Qed.

Lemma make_datetime_raises (Y m d H M S f g gf : Z) (e : exn) :
  make_datetime Y m d H M S f g gf = Raise e -> e = ValueError.
Proof.
  unfold make_datetime.
  repeat (destruct (negb _); [intros [= <-]; reflexivity|]). discriminate.
Qed.

Lemma strptime_raises (s : string) (e : exn) :
  strptime s = Raise e -> In e [ValueError; KeyError; IndexError].
Proof.
  unfold strptime. destruct (re_match format_regex s) as [|m ms].
  { intros [= <-]. cbn. auto. }
  destruct (negb _); [intros [= <-]; cbn; auto|].
  cbv zeta. intros H.
  do 6 (split_bind H;
        [split_bind H;
         [rewrite (group_raises _ _ _ H) | rewrite (py_int_raises _ _ H)];
         cbn; auto|]).
  split_bind H.
  { split_bind H; [rewrite (group_raises _ _ _ H) | rewrite (py_int_raises _ _ H)];
      cbn; auto. }
  split_bind H.
  { split_bind H; [rewrite (group_raises _ _ _ H); cbn; auto|].
    destruct (parse_offset_raises _ _ H) as [-> | ->]; cbn; auto. }
  rewrite (make_datetime_raises _ _ _ _ _ _ _ _ _ _ H). cbn. auto.
Qed.

End raise_facts.

Lemma getitem_raises (data : pyval) (k : string) (e : exn) :
  getitem data k = Raise e -> e = KeyError \/ e = TypeError.
Proof.
  unfold getitem. destruct data; try (intros [= <-]; auto).
  destruct (_ !! k); [discriminate | intros [= <-]; auto].
Qed.

Lemma transform_raises (data : pyval) (e : exn) :
  transform_kafka_data data = Raise e -> In e transform_errors.
Proof.
  unfold transform_kafka_data, transform_errors. intros H.
  split_bind H; [destruct (getitem_raises _ _ _ H) as [-> | ->]; cbn; auto 10|].
  split_bind H.
  { unfold py_strptime in H.
    match type of H with (match ?v with _ => _ end) = _ => destruct v end;
      try (injection H as <-; cbn; auto 10).
    apply strptime_raises in H. cbn in H. cbn.
    destruct H as [<- | [<- | [<- | []]]]; auto 10. }
  split_bind H; [destruct (getitem_raises _ _ _ H) as [-> | ->]; cbn; auto 10|].
  split_bind H.
  { unfold py_rjust in H.
    match type of H with (match ?v with _ => _ end) = _ => destruct v end;
      try discriminate; injection H as <-; cbn; auto 10. }
  split_bind H; [destruct (getitem_raises _ _ _ H) as [-> | ->]; cbn; auto 10|].
  split_bind H; [|discriminate].
  destruct data; try (injection H as <-; cbn; auto 10).
  destruct (has_key _ _); [|discriminate].
  destruct (getitem_raises _ _ _ H) as [-> | ->]; cbn; auto 10.
Qed.

(** X21.  What a payload can make the checks and the transformation
    raise.  The checks raise for a payload that is not an object, and
    then [AttributeError]; on an object they always reach a verdict.
    The transformation returns on objects only, and raises nothing but
    [KeyError], [TypeError], [ValueError], [IndexError] and
    [AttributeError]. *)
Theorem payload_errors (v : pyval) :
  match validate v with
  | Ok _ => is_object v = true
  | Raise e => e = AttributeError /\ is_object v = false
  end
  /\ match transform_kafka_data v with
     | Ok _ => is_object v = true
     | Raise e => In e transform_errors
     end.
Proof.
  split.
  - destruct v as [| | | | | |d]; try (split; reflexivity).
    rewrite validate_first_failure. reflexivity.
  - destruct (transform_kafka_data v) as [r|e] eqn:E.
    + destruct (transform_returns _ _ E) as (d & _ & _ & _ & _ & -> & _). reflexivity.
    + exact (transform_raises _ _ E).
Qed.

(** ** The migration of the kiosk data file *)

Lemma accepts_store (c : Db.connection) (q q' : Db.statement) :
  Db.accepts (Db.store q c) q' = Db.accepts c q'.
Proof. destruct q, q'; reflexivity. Qed.

Lemma accepts_set_executed (c : Db.connection) (x : list Db.statement) (q : Db.statement) :
  Db.accepts (Db.set_executed x c) q = Db.accepts c q.
Proof. destruct q; reflexivity. Qed.

Lemma accepts_set_pending (c : Db.connection) (x : list Db.statement) (q : Db.statement) :
  Db.accepts (Db.set_pending x c) q = Db.accepts c q.
Proof. destruct q; reflexivity. Qed.

Lemma accepted_prefix_ext (c c' : Db.connection) (qs : list Db.statement) :
  (forall q, Db.accepts c' q = Db.accepts c q) ->
  accepted_prefix c' qs = accepted_prefix c qs.
Proof.
  intros H. induction qs as [|q qs IH]; cbn [accepted_prefix]; [reflexivity|].
  rewrite H, IH. reflexivity.
Qed.

(** The loop of inserts: the rows up to the first refusal are stored,
    each under its own commit; it returns when none was refused and
    raises [IntegrityError] otherwise. *)
Lemma insert_each_stores (qs : list Db.statement) (c : Db.connection) :
  Db.closed c = false -> Db.pending c = [] ->
  exists c',
    insert_each qs c
    = (if (List.length (accepted_prefix c qs) =? List.length qs)%nat
       then Ok tt else Raise IntegrityError, c')
    /\ Db.Vote c' = (Db.Vote c ++ vote_rows (accepted_prefix c qs))%list
    /\ Db.Assistance c'
       = (Db.Assistance c ++ assistance_rows (accepted_prefix c qs))%list
    /\ Db.Emergency c'
       = (Db.Emergency c ++ emergency_rows (accepted_prefix c qs))%list
    /\ Db.Rating c' = Db.Rating c /\ Db.Exhibition c' = Db.Exhibition c
    /\ Db.closed c' = false /\ Db.pending c' = [].
Proof.
  revert c. induction qs as [|q qs IH]; intros c Hc Hp.
  - exists c. cbn. rewrite !app_nil_r. auto 10.
  - cbn [insert_each accepted_prefix].
    cbv [mbind prog_bind Db.execute Db.commit]. rewrite Hc.
    destruct (Db.accepts c q) eqn:Ea; cbn [negb].
    + assert (Hstep : exists c1,
        (let (r, s') :=
           match q with
           | Db.SelectRating =>
               (Ok (Db.Rating c), Db.set_executed (Db.executed c ++ [q]) c)
           | _ =>
               (Ok [],
                Db.set_pending
                  (Db.pending (Db.set_executed (Db.executed c ++ [q]) c) ++ [q])
                  (Db.set_executed (Db.executed c ++ [q]) c))
           end in
         match r with
         | Ok a =>
             (let (r0, s'0) :=
                if Db.closed s' then (Raise InterfaceError, s')
                else (Ok tt,
                      Db.set_pending []
                        (fold_left (fun c' q0 => Db.store q0 c') (Db.pending s') s')) in
              match r0 with
              | Ok a0 => insert_each qs s'0
              | Raise e => (Raise e, s'0)
              end)
         | Raise e => (Raise e, s')
         end) = insert_each qs c1
        /\ Db.closed c1 = false /\ Db.pending c1 = []
        /\ (forall q', Db.accepts c1 q' = Db.accepts c q')
        /\ Db.Vote c1 = (Db.Vote c ++ vote_rows [q])%list
        /\ Db.Assistance c1 = (Db.Assistance c ++ assistance_rows [q])%list
        /\ Db.Emergency c1 = (Db.Emergency c ++ emergency_rows [q])%list
        /\ Db.Rating c1 = Db.Rating c /\ Db.Exhibition c1 = Db.Exhibition c).
      { destruct q; cbn; rewrite ?Hc, ?Hp; cbn;
          (eexists; split; [reflexivity|]); cbn; rewrite ?app_nil_r;
          repeat split; auto; intros q'; destruct q'; reflexivity. }
      destruct Hstep as (c1 & -> & Hc1 & Hp1 & Hacc1 & V1 & A1 & E1 & R1 & Hx1).
      destruct (IH c1 Hc1 Hp1) as (c' & E & HV & HA & HE & HR & HX & HC & HP).
      rewrite (accepted_prefix_ext c c1 qs Hacc1) in *.
      exists c'. cbn [List.length Nat.eqb].
      split; [exact E|].
      rewrite HV, HA, HE, HR, HX, V1, A1, E1, R1, Hx1.
      change (q :: accepted_prefix c qs) with ([q] ++ accepted_prefix c qs)%list.
      unfold vote_rows, assistance_rows, emergency_rows.
      rewrite !flat_map_app, <- !app_assoc. auto 10.
    + eexists. split; [reflexivity|]. cbn. rewrite !app_nil_r. auto 10.
Qed.

Lemma apply_rating_raises (rating_data : list (Z * Z)) (rows : list kiosk_row) (e : exn) :
  apply_rating rating_data rows = Raise e -> e = ValueError.
Proof.
  induction rows as [|r rows IH]; cbn [apply_rating]; [discriminate|].
  destruct (tuple_switch_one py_eq_int (row_val r) rating_data) as [id|e1] eqn:E1;
    cbn [mbind result_bind].
  - destruct (apply_rating rating_data rows) as [ids|e2]; cbn [mbind result_bind];
      [discriminate|]. intros [= <-]. apply IH. reflexivity.
  - intros [= <-]. exact (tuple_switch_one_raises _ _ _ _ E1).
Qed.

Lemma vote_statements_rows (mapped : list (kiosk_row * Z)) (c : Db.connection) :
  assistance_rows (accepted_prefix c (map vote_statement mapped)) = []
  /\ emergency_rows (accepted_prefix c (map vote_statement mapped)) = [].
Proof.
  induction mapped as [|p mapped IH]; cbn; [auto|].
  destruct (_ && _); cbn; auto.
Qed.

Lemma assistance_statements_rows (rows : list kiosk_row) (c : Db.connection) :
  vote_rows (accepted_prefix c (map assistance_statement rows)) = []
  /\ emergency_rows (accepted_prefix c (map assistance_statement rows)) = [].
Proof.
  induction rows as [|p rows IH]; cbn; [auto|].
  destruct (Db.has_exhibition _ _); cbn; auto.
Qed.

Lemma emergency_statements_rows (rows : list kiosk_row) (c : Db.connection) :
  vote_rows (accepted_prefix c (map emergency_statement rows)) = []
  /\ assistance_rows (accepted_prefix c (map emergency_statement rows)) = [].
Proof.
  induction rows as [|p rows IH]; cbn; [auto|].
  destruct (Db.has_exhibition _ _); cbn; auto.
Qed.

Section migration_facts.
Variable environ : gmap string string.
Variable read_csv : string -> result (list kiosk_row).
Variable path : string.
Hypothesis path_set : environ !! "MUSEUM_HIST_DATA_FOLDER_PATH" = Some path.

Lemma migrate_vote_run (rows : list kiosk_row) (s : state) :
  read_csv path = Ok rows ->
  Db.closed (connection s) = false ->
  Db.pending (connection s) = [] ->
  exists s',
    migrate_data_to_vote_table environ read_csv s = (Ok tt, s')
    /\ Db.Assistance (connection s') = Db.Assistance (connection s)
    /\ Db.Emergency (connection s') = Db.Emergency (connection s)
    /\ match apply_rating (Db.Rating (connection s)) (List.filter vote_row rows) with
       | Raise e =>
           Db.Vote (connection s') = Db.Vote (connection s)
           /\ log s' = (log s ++ [LogError "Failed to migrate data to vote table: %s"
                                    ValueError])%list
       | Ok mapped =>
           let qs := map vote_statement mapped in
           let done := accepted_prefix (connection s) qs in
           Db.Vote (connection s') = (Db.Vote (connection s) ++ vote_rows done)%list
           /\ log s' = (log s ++
                        [closing_record "Failed to migrate data to vote table: %s"
                           "Successfully migrated data to vote table"
                           (if (List.length done =? List.length qs)%nat
                            then Ok tt else Raise IntegrityError)])%list
       end.
Proof.
  intros Hread Hc Hp.
  unfold migrate_data_to_vote_table, getenv. rewrite path_set.
  cbv [lift mbind prog_bind guarded_with on_connection Db.cursor Db.execute].
  rewrite Hread, Hc. cbn [negb Db.accepts]. rewrite ?Hc.
  destruct (apply_rating (Db.Rating (connection s)) (List.filter vote_row rows))
    as [mapped|e] eqn:Ea.
  - set (c1 := Db.set_executed (Db.executed (connection s) ++ [Db.SelectRating])
                 (connection s)).
    destruct (insert_each_stores (map vote_statement mapped) c1 Hc Hp)
      as (c' & E & HV & HA & HE & _).
    fold c1. rewrite E.
    assert (Hacc : accepted_prefix c1 (map vote_statement mapped)
                   = accepted_prefix (connection s) (map vote_statement mapped)).
    { apply accepted_prefix_ext. intros q. apply accepts_set_executed. }
    rewrite Hacc in *.
    destruct (vote_statements_rows mapped (connection s)) as [Ha He].
    rewrite Ha, He, app_nil_r in *.
    destruct (_ =? _)%nat; cbn; eexists; (split; [reflexivity|]); cbn; auto.
  - pose proof (apply_rating_raises _ _ _ Ea) as ->.
    cbn. eexists. split; [reflexivity|]. cbn. auto.
Qed.

Lemma migrate_requests_run (rows : list kiosk_row) (s : state) :
  read_csv path = Ok rows ->
  Db.closed (connection s) = false ->
  Db.pending (connection s) = [] ->
  (exists s',
     let qs := map assistance_statement (List.filter assistance_row rows) in
     let done := accepted_prefix (connection s) qs in
     migrate_data_to_assistance_table environ read_csv s = (Ok tt, s')
     /\ Db.Assistance (connection s')
        = (Db.Assistance (connection s) ++ assistance_rows done)%list
     /\ Db.Vote (connection s') = Db.Vote (connection s)
     /\ Db.Emergency (connection s') = Db.Emergency (connection s)
     /\ log s' = (log s ++
                  [closing_record "Failed to migrate data to assistance table: %s"
                     "Successfully migrated data to assistance table"
                     (if (List.length done =? List.length qs)%nat
                      then Ok tt else Raise IntegrityError)])%list)
  /\ (exists s',
        let qs := map emergency_statement (List.filter emergency_row rows) in
        let done := accepted_prefix (connection s) qs in
        migrate_data_to_emergency_table environ read_csv s = (Ok tt, s')
        /\ Db.Emergency (connection s')
           = (Db.Emergency (connection s) ++ emergency_rows done)%list
        /\ Db.Vote (connection s') = Db.Vote (connection s)
        /\ Db.Assistance (connection s') = Db.Assistance (connection s)
        /\ log s' = (log s ++
                     [closing_record "Failed to migrate data to emergency table: %s"
                        "Successfully migrated data to emergency table"
                        (if (List.length done =? List.length qs)%nat
                         then Ok tt else Raise IntegrityError)])%list).
Proof.
  intros Hread Hc Hp. split.
  - unfold migrate_data_to_assistance_table, getenv. rewrite path_set.
    cbv [lift mbind prog_bind guarded_with on_connection Db.cursor].
    rewrite Hread, Hc.
    destruct (insert_each_stores
                (map assistance_statement (List.filter assistance_row rows))
                (connection s) Hc Hp) as (c' & E & HV & HA & HE & _).
    rewrite E.
    destruct (assistance_statements_rows (List.filter assistance_row rows)
                (connection s)) as [Hv He].
    rewrite Hv, He, app_nil_r in *.
    destruct (_ =? _)%nat; cbn; eexists; (split; [reflexivity|]); cbn; auto.
  - unfold migrate_data_to_emergency_table, getenv. rewrite path_set.
    cbv [lift mbind prog_bind guarded_with on_connection Db.cursor].
    rewrite Hread, Hc.
    destruct (insert_each_stores
                (map emergency_statement (List.filter emergency_row rows))
                (connection s) Hc Hp) as (c' & E & HV & HA & HE & _).
    rewrite E.
    destruct (emergency_statements_rows (List.filter emergency_row rows)
                (connection s)) as [Hv Ha].
    rewrite Hv, Ha, app_nil_r in *.
    destruct (_ =? _)%nat; cbn; eexists; (split; [reflexivity|]); cbn; auto.
Qed.

(** X10.  The vote migration of a file that could be read, on an open
    connection, never raises and logs one record.  When some vote of
    the file has no rating in the Rating table nothing at all is
    inserted, the votes before it included; otherwise the votes are
    inserted in file order up to the first one the database refuses,
    those stay committed, and success is logged only when none was
    refused.  The other two tables are not touched. *)
Theorem migrate_vote_outcome (rows : list kiosk_row) (s : state) :
  read_csv path = Ok rows ->
  Db.closed (connection s) = false ->
  Db.pending (connection s) = [] ->
  exists s',
    migrate_data_to_vote_table environ read_csv s = (Ok tt, s')
    /\ Db.Assistance (connection s') = Db.Assistance (connection s)
    /\ Db.Emergency (connection s') = Db.Emergency (connection s)
    /\ match apply_rating (Db.Rating (connection s)) (List.filter vote_row rows) with
       | Raise e =>
           Db.Vote (connection s') = Db.Vote (connection s)
           /\ log s' = (log s ++ [LogError "Failed to migrate data to vote table: %s"
                                    ValueError])%list
       | Ok mapped =>
           let qs := map vote_statement mapped in
           let done := accepted_prefix (connection s) qs in
           Db.Vote (connection s') = (Db.Vote (connection s) ++ vote_rows done)%list
           /\ log s' = (log s ++
                        [closing_record "Failed to migrate data to vote table: %s"
                           "Successfully migrated data to vote table"
                           (if (List.length done =? List.length qs)%nat
                            then Ok tt else Raise IntegrityError)])%list
       end.
Proof. exact (migrate_vote_run rows s). Qed.

(** X11.  The assistance and the emergency migrations of a file that
    could be read, on an open connection: the rows with [val] -1 and
    [type] 0 (respectively 1) are inserted in file order up to the
    first one the database refuses, those stay committed, the other
    tables are not touched; the function never raises and logs
    success only when no row was refused. *)
Theorem migrate_requests_outcome (rows : list kiosk_row) (s : state) :
  read_csv path = Ok rows ->
  Db.closed (connection s) = false ->
  Db.pending (connection s) = [] ->
  (exists s',
     let qs := map assistance_statement (List.filter assistance_row rows) in
     let done := accepted_prefix (connection s) qs in
     migrate_data_to_assistance_table environ read_csv s = (Ok tt, s')
     /\ Db.Assistance (connection s')
        = (Db.Assistance (connection s) ++ assistance_rows done)%list
     /\ Db.Vote (connection s') = Db.Vote (connection s)
     /\ Db.Emergency (connection s') = Db.Emergency (connection s)
     /\ log s' = (log s ++
                  [closing_record "Failed to migrate data to assistance table: %s"
                     "Successfully migrated data to assistance table"
                     (if (List.length done =? List.length qs)%nat
                      then Ok tt else Raise IntegrityError)])%list)
  /\ (exists s',
        let qs := map emergency_statement (List.filter emergency_row rows) in
        let done := accepted_prefix (connection s) qs in
        migrate_data_to_emergency_table environ read_csv s = (Ok tt, s')
        /\ Db.Emergency (connection s')
           = (Db.Emergency (connection s) ++ emergency_rows done)%list
        /\ Db.Vote (connection s') = Db.Vote (connection s)
        /\ Db.Assistance (connection s') = Db.Assistance (connection s)
        /\ log s' = (log s ++
                     [closing_record "Failed to migrate data to emergency table: %s"
                        "Successfully migrated data to emergency table"
                        (if (List.length done =? List.length qs)%nat
                         then Ok tt else Raise IntegrityError)])%list).
Proof. exact (migrate_requests_run rows s). Qed.

(** The rows [move_to_db] leaves in the three tables. *)
Lemma move_to_db_tables (data : transformed) (c : Db.connection) :
  Db.closed c = false -> Db.pending c = [] ->
  Db.Vote (snd (move_to_db data c))
  = (Db.Vote c ++
     (if negb (py_eq_int (val data) (-1))
      then match tuple_switch_one py_eq_int (val data) (Db.Rating c) with
           | Ok rid =>
               vote_rows (accepted_prefix c [Db.InsertVote (site data) (at_ data) rid])
           | Raise _ => []
           end
      else []))%list
  /\ Db.Assistance (snd (move_to_db data c))
     = (Db.Assistance c ++
        (if py_eq_int (val data) (-1) && py_eq_int (type_ data) 0
         then assistance_rows
                (accepted_prefix c [Db.InsertAssistance (site data) (at_ data)])
         else []))%list
  /\ Db.Emergency (snd (move_to_db data c))
     = (Db.Emergency c ++
        (if py_eq_int (val data) (-1) && py_eq_int (type_ data) 1
         then emergency_rows
                (accepted_prefix c [Db.InsertEmergency (site data) (at_ data)])
         else []))%list.
Proof.
  intros Hc Hp.
  cbv [move_to_db Db.cursor Db.execute Db.commit lift
       mbind mret prog_bind prog_ret].
  rewrite Hc. cbn [negb Db.accepts accepted_prefix].
  destruct (py_eq_int (val data) (-1)) eqn:Ev; cbn [negb andb].
  - destruct (py_eq_int (type_ data) 0) eqn:E0.
    + assert (E1 : py_eq_int (type_ data) 1 = false).
      { destruct (py_eq_int (type_ data) 1) eqn:E1; [|reflexivity].
        rewrite (py_eq_int_one_not_zero _ E1) in E0. discriminate. }
      rewrite E1.
      destruct (Db.has_exhibition c (site data)); repeat (progress (rewrite ?Hc, ?Hp; cbn));
        rewrite ?app_nil_r; auto.
    + destruct (py_eq_int (type_ data) 1) eqn:E1.
      * destruct (Db.has_exhibition c (site data)); repeat (progress (rewrite ?Hc, ?Hp; cbn));
          rewrite ?app_nil_r; auto.
      * cbn. rewrite ?app_nil_r. auto.
  - rewrite ?Hc. cbn [negb Db.closed Db.set_executed Db.Rating].
    destruct (tuple_switch_one py_eq_int (val data) (Db.Rating c)) as [rid|e].
    + rewrite ?Hc. cbn [negb Db.closed Db.set_executed Db.Rating Db.Exhibition
                        Db.has_exhibition Db.has_rating_id].
      unfold Db.has_exhibition, Db.has_rating_id.
      cbn [Db.Exhibition Db.Rating Db.set_executed].
      destruct (existsb _ _ && existsb _ _);
        repeat (progress (rewrite ?Hc, ?Hp; cbn)); rewrite ?app_nil_r; auto.
    + cbn. rewrite ?app_nil_r. auto.
Qed.

(** X12.  The batch path and the streaming path route a record in the
    same way: on a file of one row each migration leaves its table as
    [move_to_db] leaves it for the record with the same four fields,
    from the same connection. *)
Theorem one_row_file_as_one_message (r : kiosk_row) (s : state) :
  read_csv path = Ok [r] ->
  Db.closed (connection s) = false ->
  Db.pending (connection s) = [] ->
  let streamed := snd (move_to_db (record_of_row r) (connection s)) in
  Db.Vote (connection (snd (migrate_data_to_vote_table environ read_csv s)))
  = Db.Vote streamed
  /\ Db.Assistance
       (connection (snd (migrate_data_to_assistance_table environ read_csv s)))
     = Db.Assistance streamed
  /\ Db.Emergency
       (connection (snd (migrate_data_to_emergency_table environ read_csv s)))
     = Db.Emergency streamed.
Proof.
  intros Hread Hc Hp streamed.
  destruct (move_to_db_tables (record_of_row r) (connection s) Hc Hp)
    as (SV & SA & SE).
  fold streamed in SV, SA, SE. rewrite SV, SA, SE.
  cbn [record_of_row val type_ site at_].
  destruct (migrate_vote_run [r] s Hread Hc Hp)
    as (s1 & E1 & _ & _ & HV).
  destruct (migrate_requests_run [r] s Hread Hc Hp)
    as [(s2 & E2 & HA & _) (s3 & E3 & HE & _)].
  rewrite E1, E2, E3. cbn [snd].
  rewrite HA, HE. clear HA HE E1 E2 E3.
  cbn [List.filter] in *. unfold vote_row, assistance_row, emergency_row in *.
  repeat split.
  - destruct (negb (py_eq_int (row_val r) (-1))).
    + cbn [apply_rating] in HV.
      destruct (tuple_switch_one py_eq_int (row_val r) (Db.Rating (connection s)))
        as [rid|e]; cbn [mbind result_bind] in HV.
      * destruct HV as [-> _]. reflexivity.
      * destruct HV as [-> _]. rewrite app_nil_r. reflexivity.
    + cbn in HV. destruct HV as [-> _]. reflexivity.
  - destruct (py_eq_int (row_val r) (-1) && py_eq_int (row_type r) 0); reflexivity.
  - destruct (py_eq_int (row_val r) (-1) && py_eq_int (row_type r) 1); reflexivity.
Qed.

End migration_facts.

Lemma migrate_vote_outcome_witness :
  exists s',
    migrate_data_to_vote_table sample_environ sample_read_csv (fresh seeded)
    = (Ok tt, s')
    /\ Db.Assistance (connection s') = Db.Assistance (connection (fresh seeded))
    /\ Db.Emergency (connection s') = Db.Emergency (connection (fresh seeded))
    /\ match apply_rating (Db.Rating (connection (fresh seeded)))
               (List.filter vote_row sample_rows) with
       | Raise e =>
           Db.Vote (connection s') = Db.Vote (connection (fresh seeded))
           /\ log s' = (log (fresh seeded)
                        ++ [LogError "Failed to migrate data to vote table: %s"
                              ValueError])%list
       | Ok mapped =>
           let qs := map vote_statement mapped in
           let done := accepted_prefix (connection (fresh seeded)) qs in
           Db.Vote (connection s')
           = (Db.Vote (connection (fresh seeded)) ++ vote_rows done)%list
           /\ log s' = (log (fresh seeded) ++
                        [closing_record "Failed to migrate data to vote table: %s"
                           "Successfully migrated data to vote table"
                           (if (List.length done =? List.length qs)%nat
                            then Ok tt else Raise IntegrityError)])%list
       end.
Proof.
  refine (migrate_vote_outcome sample_environ sample_read_csv "kiosk.csv" _
            sample_rows (fresh seeded) _ _ _).
  - vm_compute. reflexivity.
  - reflexivity.
  - reflexivity.
  - reflexivity.
Defined.

Lemma migrate_requests_outcome_witness :
  (exists s',
     let qs := map assistance_statement (List.filter assistance_row sample_rows) in
     let done := accepted_prefix (connection (fresh seeded)) qs in
     migrate_data_to_assistance_table sample_environ sample_read_csv (fresh seeded)
     = (Ok tt, s')
     /\ Db.Assistance (connection s')
        = (Db.Assistance (connection (fresh seeded)) ++ assistance_rows done)%list
     /\ Db.Vote (connection s') = Db.Vote (connection (fresh seeded))
     /\ Db.Emergency (connection s') = Db.Emergency (connection (fresh seeded))
     /\ log s' = (log (fresh seeded) ++
                  [closing_record "Failed to migrate data to assistance table: %s"
                     "Successfully migrated data to assistance table"
                     (if (List.length done =? List.length qs)%nat
                      then Ok tt else Raise IntegrityError)])%list)
  /\ (exists s',
        let qs := map emergency_statement (List.filter emergency_row sample_rows) in
        let done := accepted_prefix (connection (fresh seeded)) qs in
        migrate_data_to_emergency_table sample_environ sample_read_csv (fresh seeded)
        = (Ok tt, s')
        /\ Db.Emergency (connection s')
           = (Db.Emergency (connection (fresh seeded)) ++ emergency_rows done)%list
        /\ Db.Vote (connection s') = Db.Vote (connection (fresh seeded))
        /\ Db.Assistance (connection s') = Db.Assistance (connection (fresh seeded))
        /\ log s' = (log (fresh seeded) ++
                     [closing_record "Failed to migrate data to emergency table: %s"
                        "Successfully migrated data to emergency table"
                        (if (List.length done =? List.length qs)%nat
                         then Ok tt else Raise IntegrityError)])%list).
Proof.
  refine (migrate_requests_outcome sample_environ sample_read_csv "kiosk.csv" _
            sample_rows (fresh seeded) _ _ _).
  - vm_compute. reflexivity.
  - reflexivity.
  - reflexivity.
  - reflexivity.
Defined.

Lemma one_row_file_as_one_message_witness :
  Db.Vote (connection
             (snd (migrate_data_to_vote_table sample_environ one_row_read_csv
                     (fresh seeded))))
  = Db.Vote (snd (move_to_db vote_record (connection (fresh seeded))))
  /\ Db.Assistance
       (connection
          (snd (migrate_data_to_assistance_table sample_environ one_row_read_csv
                  (fresh seeded))))
     = Db.Assistance (snd (move_to_db vote_record (connection (fresh seeded))))
  /\ Db.Emergency
       (connection
          (snd (migrate_data_to_emergency_table sample_environ one_row_read_csv
                  (fresh seeded))))
     = Db.Emergency (snd (move_to_db vote_record (connection (fresh seeded)))).
Proof.
  refine (one_row_file_as_one_message sample_environ one_row_read_csv "kiosk.csv" _
            {| row_at := "01/01/24 10:00:00"; row_site := "EXH_02";
               row_val := PInt 4; row_type := PFloat S754_nan |}
            (fresh seeded) _ _ _).
  - vm_compute. reflexivity.
  - reflexivity.
  - reflexivity.
  - reflexivity.
Defined.

(** The loop of inserts raises nothing but what [except Exception]
    catches, whatever the state of the connection. *)
Lemma insert_each_raises (qs : list Db.statement) (c c' : Db.connection) (e : exn) :
  insert_each qs c = (Raise e, c') -> is_Exception e = true.
Proof.
  revert c. induction qs as [|q qs IH]; intros c; cbn [insert_each].
  - discriminate.
  - cbv [mbind prog_bind Db.execute Db.commit].
    destruct (Db.closed c) eqn:Hc; [intros [= <- <-]; reflexivity|].
    destruct (negb (Db.accepts c q)); [intros [= <- <-]; reflexivity|].
    destruct q; cbn [Db.closed Db.set_executed Db.set_pending]; rewrite ?Hc;
      apply IH.
Qed.

Section containment.
Variable environ : gmap string string.
Variable read_csv : string -> result (list kiosk_row).
Variable path : string.
Hypothesis path_set : environ !! "MUSEUM_HIST_DATA_FOLDER_PATH" = Some path.
Hypothesis read_csv_raises : forall e, read_csv path = Raise e -> is_Exception e = true.

Lemma guarded_returns (failed done : string) (body : prog state unit) (s : state) :
  (forall e s', body s = (Raise e, s') -> is_Exception e = true) ->
  log (snd (body s)) = log s ->
  exists s',
    guarded_with logging failed done body s = (Ok tt, s')
    /\ List.length (log s') = S (List.length (log s)).
Proof.
  intros He Hl. unfold guarded_with.
  destruct (body s) as [[[]|e] s1] eqn:E; cbn [snd] in Hl.
  - eexists. split; [reflexivity|]. cbn. rewrite Hl, List.length_app. cbn. lia.
  - rewrite (He e s1 eq_refl).
    eexists. split; [reflexivity|]. cbn. rewrite Hl, List.length_app. cbn. lia.
Qed.

(** X20.  Once the path variable is set, no exception that [except Exception]
    catches leaves a migration, whatever the file holds and whatever
    state the connection is in: each of the three functions returns,
    having logged one record. *)
Theorem migrations_never_raise (s : state) :
  (exists s1,
     migrate_data_to_vote_table environ read_csv s = (Ok tt, s1)
     /\ List.length (log s1) = S (List.length (log s)))
  /\ (exists s2,
        migrate_data_to_assistance_table environ read_csv s = (Ok tt, s2)
        /\ List.length (log s2) = S (List.length (log s)))
  /\ (exists s3,
        migrate_data_to_emergency_table environ read_csv s = (Ok tt, s3)
        /\ List.length (log s3) = S (List.length (log s))).
Proof.
  unfold migrate_data_to_vote_table, migrate_data_to_assistance_table,
    migrate_data_to_emergency_table, getenv.
  rewrite path_set. cbv [lift mbind prog_bind].
  repeat split; apply guarded_returns.
  all: cbv [on_connection mbind prog_bind Db.cursor Db.execute lift].
  all: destruct (read_csv path) as [rows|e0] eqn:Er;
    [|first [ intros e s' [= <- <-]; exact (read_csv_raises e0 eq_refl)
            | reflexivity ]].
  all: destruct (Db.closed (connection s)) eqn:Hc;
    [first [ intros e s' [= <- <-]; reflexivity | reflexivity ]|].
  all: cbn [negb Db.accepts Db.closed Db.set_executed].
  all: rewrite ?Hc.
  all: try (destruct (apply_rating _ _) as [mapped|e1] eqn:Ea;
            [|first [ intros e s' [= <- <-];
                      rewrite (apply_rating_raises _ _ _ Ea); reflexivity
                    | reflexivity ]]).
  all: match goal with
       | |- context [insert_each ?qs ?c] =>
           destruct (insert_each qs c) as [[[]|e2] c2] eqn:Ei
       end.
  all: first [ intros e s' [= <- <-]; exact (insert_each_raises _ _ _ _ Ei)
             | intros e s' [=]
             | reflexivity ].
Qed.

End containment.

Lemma migrations_never_raise_witness :
  (exists s1,
     migrate_data_to_vote_table sample_environ unreadable_csv
       (fresh (Db.close seeded)) = (Ok tt, s1)
     /\ List.length (log s1) = S (List.length (log (fresh (Db.close seeded)))))
  /\ (exists s2,
        migrate_data_to_assistance_table sample_environ sample_read_csv
          (fresh (Db.close seeded)) = (Ok tt, s2)
        /\ List.length (log s2) = S (List.length (log (fresh (Db.close seeded)))))
  /\ (exists s3,
        migrate_data_to_emergency_table sample_environ sample_read_csv
          (fresh (Db.close seeded)) = (Ok tt, s3)
        /\ List.length (log s3) = S (List.length (log (fresh (Db.close seeded))))).
Proof.
  split; [|split].
  - refine (proj1 (migrations_never_raise sample_environ unreadable_csv "kiosk.csv"
                     _ _ (fresh (Db.close seeded)))).
    + vm_compute. reflexivity.
    + intros e [= <-]. reflexivity.
  - refine (proj1 (proj2 (migrations_never_raise sample_environ sample_read_csv
                            "kiosk.csv" _ _ (fresh (Db.close seeded))))).
    + vm_compute. reflexivity.
    + intros e. discriminate.
  - refine (proj2 (proj2 (migrations_never_raise sample_environ sample_read_csv
                            "kiosk.csv" _ _ (fresh (Db.close seeded))))).
    + vm_compute. reflexivity.
    + intros e. discriminate.
Defined.

(** ** The helpers of [src/populate_db_tables.py] *)

(** X13.  [tuple_switch_two] returns the identifier of the first tuple
    whose title and floor both equal the two values, whatever comes
    after it; when no tuple matches both it raises [ValueError]. *)
Theorem tuple_switch_two_first_match (val_1 val_2 : pyval)
    (l : list (Z * string * string)) :
  match tuple_switch_two val_1 val_2 l with
  | Ok a =>
      exists l1 t f l2,
        l = (l1 ++ (a, t, f) :: l2)%list
        /\ py_eq_str val_1 t = true /\ py_eq_str val_2 f = true
        /\ Forall (fun tpl => py_eq_str val_1 (snd (fst tpl))
                              && py_eq_str val_2 (snd tpl) = false) l1
  | Raise e =>
      e = ValueError
      /\ Forall (fun tpl => py_eq_str val_1 (snd (fst tpl))
                            && py_eq_str val_2 (snd tpl) = false) l
  end.
Proof.
  induction l as [|[[a t] f] l IH]; cbn [tuple_switch_two fst snd].
  - auto.
  - destruct (py_eq_str val_1 t && py_eq_str val_2 f) eqn:E.
    + apply andb_prop in E. destruct E as [E1 E2].
      exists [], t, f, l. auto.
    + destruct (tuple_switch_two val_1 val_2 l) as [b|e].
      * destruct IH as (l1 & t' & f' & l2 & -> & H1 & H2 & H3).
        exists ((a, t, f) :: l1), t', f', l2. repeat split; auto.
      * destruct IH as [-> H]. split; [reflexivity|]. constructor; auto.
Qed.

Section head_facts.
Import Datetime.

(** The first match of a concatenation is made of the first matches of
    its parts, when the second part matches after the first. *)
Lemma cat_head (r1 r2 : re) (s : string) (m1 m2 : found) (tl1 tl2 : list found) :
  re_match r1 s = m1 :: tl1 ->
  re_match r2 (remaining m1) = m2 :: tl2 ->
  exists tl,
    re_match (r1 · r2) s
    = {| groupdict := groupdict m1 ∪ groupdict m2;
         matched := matched m1 +:+ matched m2;
         remaining := remaining m2 |} :: tl.
Proof.
  intros H1 H2. cbn [re_match]. rewrite H1. cbn [flat_map]. rewrite H2.
  cbn [map app]. eexists. reflexivity.
Qed.

Lemma grp_head (name : string) (r : re) (s : string) (m : found) (tl : list found) :
  re_match r s = m :: tl ->
  no_groups r = true ->
  exists tl',
    re_match (Grp name r) s
    = {| groupdict := {[ name := matched m ]};
         matched := matched m; remaining := remaining m |} :: tl'.
Proof.
  intros H Hn. cbn [re_match]. rewrite H. cbn [map].
  rewrite (re_match_no_groups r s m Hn) by (rewrite H; left; reflexivity).
  eexists. reflexivity.
Qed.

Lemma chr_head (c : ascii) (s : string) :
  re_match (chr c) (String c s)
  = [{| groupdict := ∅; matched := String c EmptyString; remaining := s |}].
Proof. cbn [re_match chr]. rewrite Ascii.eqb_refl. reflexivity. Qed.

Lemma digit_head (n : nat) (s : string) :
  (n < 10)%nat ->
  re_match digit (String (dg n) s)
  = [{| groupdict := ∅; matched := String (dg n) EmptyString; remaining := s |}].
Proof. intros H. cbn [re_match digit]. rewrite (dg_digit n H). reflexivity. Qed.

End head_facts.

Section date_facts.
Import Datetime.

Lemma re_d_head (d : nat) (rest : string) :
  (1 <= d <= 31)%nat ->
  exists tl,
    re_match re_d (pad2 d +:+ rest)
    = {| groupdict := {[ "d" := pad2 d ]}; matched := pad2 d; remaining := rest |}
      :: tl.
Proof.
  intros H. unfold re_d.
  match goal with |- context [re_match (Grp _ ?r) ?s] =>
    assert (Hin : exists m tl, re_match r s = m :: tl
                               /\ matched m = pad2 d /\ remaining m = rest) end.
  { destruct d as [|d]; [lia|].
    do 31 (destruct d as [|d];
           [vm_compute; eexists _, _; repeat split|]).
    lia. }
  destruct Hin as (m & tl & E & Hm & Hr).
  destruct (grp_head "d" _ _ _ _ E eq_refl) as [tl' E'].
  rewrite E', Hm, Hr. eexists. reflexivity.
Qed.

Lemma re_m_head (m : nat) (rest : string) :
  (1 <= m <= 12)%nat ->
  exists tl,
    re_match re_m (pad2 m +:+ rest)
    = {| groupdict := {[ "m" := pad2 m ]}; matched := pad2 m; remaining := rest |}
      :: tl.
Proof.
  intros H. unfold re_m.
  match goal with |- context [re_match (Grp _ ?r) ?s] =>
    assert (Hin : exists f tl, re_match r s = f :: tl
                               /\ matched f = pad2 m /\ remaining f = rest) end.
  { destruct m as [|m]; [lia|].
    do 12 (destruct m as [|m];
           [vm_compute; eexists _, _; repeat split|]).
    lia. }
  destruct Hin as (f & tl & E & Hm & Hr).
  destruct (grp_head "m" _ _ _ _ E eq_refl) as [tl' E'].
  rewrite E', Hm, Hr. eexists. reflexivity.
Qed.

Lemma re_y_head (y : nat) (rest : string) :
  (y < 100)%nat ->
  exists tl,
    re_match Dates.re_y (pad2 y +:+ rest)
    = {| groupdict := {[ "y" := pad2 y ]}; matched := pad2 y; remaining := rest |}
      :: tl.
Proof.
  intros H. unfold Dates.re_y.
  assert (Ha : (y / 10 < 10)%nat) by (apply Nat.Div0.div_lt_upper_bound; lia).
  assert (Hb : (y mod 10 < 10)%nat) by (apply Nat.mod_upper_bound; lia).
  destruct (cat_head digit digit (pad2 y +:+ rest) _ _ _ _
              (digit_head (y / 10) _ Ha) (digit_head (y mod 10) rest Hb))
    as [tl E].
  destruct (grp_head "y" _ _ _ _ E eq_refl) as [tl' E'].
  rewrite E'. eexists. reflexivity.
Qed.

(** What the pattern captures on a zero-padded DD/MM/YY. *)
Lemma date_regex_head (d m y : nat) :
  (1 <= d <= 31)%nat -> (1 <= m <= 12)%nat -> (y < 100)%nat ->
  exists f tl,
    re_match Dates.date_regex (day_first d m y) = f :: tl
    /\ remaining f = EmptyString
    /\ groupdict f !! "d" = Some (pad2 d)
    /\ groupdict f !! "m" = Some (pad2 m)
    /\ groupdict f !! "y" = Some (pad2 y).
Proof.
  intros Hd Hm Hy. unfold Dates.date_regex, day_first.
  destruct (re_d_head d ("/" +:+ pad2 m +:+ "/" +:+ pad2 y) Hd) as [t1 E1].
  destruct (cat_head _ (chr "/") _ _ _ _ _ E1 (chr_head "/" _)) as [t2 E2].
  destruct (re_m_head m ("/" +:+ pad2 y) Hm) as [t3 E3].
  destruct (cat_head _ re_m _ _ _ _ _ E2 E3) as [t4 E4].
  destruct (cat_head _ (chr "/") _ _ _ _ _ E4 (chr_head "/" _)) as [t5 E5].
  destruct (re_y_head y EmptyString Hy) as [t6 E6].
  assert (E6' : re_match Dates.re_y (pad2 y) = 
                {| groupdict := {[ "y" := pad2 y ]}; matched := pad2 y;
                   remaining := EmptyString |} :: t6) by exact E6.
  destruct (cat_head _ Dates.re_y _ _ _ _ _ E5 E6') as [t7 E7].
  eexists _, _. split; [exact E7|]. cbn [remaining groupdict].
  split; [reflexivity|].
  repeat split; vm_compute; reflexivity.
Qed.

End date_facts.

Section converter_facts.
Import Datetime.

Lemma century_mod (y : nat) : (y < 100)%nat -> Dates.century (Z.of_nat y) mod 100 = Z.of_nat y.
Proof.
  intros H. unfold Dates.century. destruct (_ <=? _).
  - replace (Z.of_nat y + 2000) with (Z.of_nat y + 20 * 100) by lia.
    rewrite Z.mod_add by lia. apply Z.mod_small. lia.
  - replace (Z.of_nat y + 1900) with (Z.of_nat y + 19 * 100) by lia.
    rewrite Z.mod_add by lia. apply Z.mod_small. lia.
Qed.

(** X14.  [date_converter] on a zero-padded DD/MM/YY: when the day
    exists in that month of the year 2000+YY (YY up to 68) or 1900+YY
    (YY from 69), the result is MM/DD/YY with the same digits;
    otherwise (the 30th of February, the 29th outside a leap year,
    the 31st of a short month) it raises [ValueError]. *)
Theorem date_converter_swaps (d m y : nat) :
  (1 <= d <= 31)%nat -> (1 <= m <= 12)%nat -> (y < 100)%nat ->
  Dates.date_converter (day_first d m y)
  = if Z.of_nat d <=? days_in_month (Dates.century (Z.of_nat y)) (Z.of_nat m)
    then Ok (day_first m d y)
    else Raise ValueError.
Proof.
  intros Hd Hm Hy.
  destruct (date_regex_head d m y Hd Hm Hy) as (f & tl & E & Hr & Gd & Gm & Gy).
  unfold Dates.date_converter, Dates.strptime. rewrite E, Hr.
  cbn [String.eqb negb]. cbv zeta. unfold group. rewrite Gd, Gm, Gy.
  cbn [mbind result_bind].
  rewrite (py_int_pad2 d), (py_int_pad2 m), (py_int_pad2 y) by lia.
  cbn [mbind result_bind].
  unfold make_datetime. unfold between at 1 2 3.
  assert (HY : (1 <=? Dates.century (Z.of_nat y)) && (Dates.century (Z.of_nat y) <=? 9999)
               = true).
  { unfold Dates.century. destruct (_ <=? 68); apply andb_true_intro; split;
      apply Z.leb_le; lia. }
  assert (HM : (1 <=? Z.of_nat m) && (Z.of_nat m <=? 12) = true)
    by (apply andb_true_intro; split; apply Z.leb_le; lia).
  assert (HD : (1 <=? Z.of_nat d) = true) by (apply Z.leb_le; lia).
  rewrite HY, HM, HD. cbn [andb].
  destruct (Z.of_nat d <=? _); cbn [negb]; [|reflexivity].
  change (negb ((-86400000000 <? 0 * 1000000 + 0) && (0 * 1000000 + 0 <? 86400000000)))
    with false.
  cbv iota. change (between 0 0 23 && between 0 0 59 && between 0 0 59
                    && between 0 0 999999) with true.
  cbn [negb mbind result_bind].
  unfold Dates.strftime. cbn [month day year].
  rewrite (century_mod y Hy), !two_digits_pad2 by lia. reflexivity.
Qed.

End converter_facts.

Lemma date_converter_swaps_witness :
  Dates.date_converter (day_first 29 2 24)
  = if Z.of_nat 29 <=? Datetime.days_in_month (Dates.century (Z.of_nat 24)) (Z.of_nat 2)
    then Ok (day_first 2 29 24)
    else Raise ValueError.
Proof.
  refine (date_converter_swaps 29 2 24 _ _ _); lia.
Defined.

Section short_dates.
Import Datetime.

(** A one-digit field followed by the separator. *)
Lemma re_d_head_short (d : nat) (rest : string) :
  (1 <= d <= 9)%nat ->
  exists tl,
    re_match re_d (String (dg d) ("/" +:+ rest))
    = {| groupdict := {[ "d" := String (dg d) EmptyString ]};
         matched := String (dg d) EmptyString; remaining := "/" +:+ rest |} :: tl.
Proof.
  intros H. unfold re_d.
  match goal with |- context [re_match (Grp _ ?r) ?s] =>
    assert (Hin : exists m tl, re_match r s = m :: tl
                               /\ matched m = String (dg d) EmptyString
                               /\ remaining m = "/" +:+ rest) end.
  { destruct d as [|d]; [lia|].
    do 9 (destruct d as [|d];
          [vm_compute; eexists _, _; repeat split|]).
    lia. }
  destruct Hin as (m & tl & E & Hm & Hr).
  destruct (grp_head "d" _ _ _ _ E eq_refl) as [tl' E'].
  rewrite E', Hm, Hr. eexists. reflexivity.
Qed.

Lemma re_m_head_short (m : nat) (rest : string) :
  (1 <= m <= 9)%nat ->
  exists tl,
    re_match re_m (String (dg m) ("/" +:+ rest))
    = {| groupdict := {[ "m" := String (dg m) EmptyString ]};
         matched := String (dg m) EmptyString; remaining := "/" +:+ rest |} :: tl.
Proof.
  intros H. unfold re_m.
  match goal with |- context [re_match (Grp _ ?r) ?s] =>
    assert (Hin : exists f tl, re_match r s = f :: tl
                               /\ matched f = String (dg m) EmptyString
                               /\ remaining f = "/" +:+ rest) end.
  { destruct m as [|m]; [lia|].
    do 9 (destruct m as [|m];
          [vm_compute; eexists _, _; repeat split|]).
    lia. }
  destruct Hin as (f & tl & E & Hm & Hr).
  destruct (grp_head "m" _ _ _ _ E eq_refl) as [tl' E'].
  rewrite E', Hm, Hr. eexists. reflexivity.
Qed.

Lemma py_int_dg (n : nat) :
  (n < 10)%nat -> py_int (String (dg n) EmptyString) = Ok (Z.of_nat n).
Proof.
  intros H. unfold py_int. rewrite (lstrip_dg _ _ H), digits_value_dg by assumption.
  cbn [digits_value]. reflexivity.
Qed.

(** X15.  [date_converter] accepts a day and a month written without
    their leading zero, and converts them as it converts the padded
    text: the result carries the zero. *)
Theorem date_converter_pads (d m y : nat) :
  (1 <= d <= 9)%nat -> (1 <= m <= 9)%nat -> (y < 100)%nat ->
  Dates.date_converter
    (String (dg d) EmptyString +:+ "/" +:+ String (dg m) EmptyString +:+ "/" +:+ pad2 y)
  = Dates.date_converter (day_first d m y).
Proof.
  intros Hd Hm Hy.
  destruct (date_regex_head d m y) as (f & tl & E & Hr & Gd & Gm & Gy); try lia.
  assert (Hs : exists f' tl',
             re_match Dates.date_regex
               (String (dg d) EmptyString +:+ "/" +:+ String (dg m) EmptyString
                  +:+ "/" +:+ pad2 y) = f' :: tl'
             /\ remaining f' = EmptyString
             /\ groupdict f' !! "d" = Some (String (dg d) EmptyString)
             /\ groupdict f' !! "m" = Some (String (dg m) EmptyString)
             /\ groupdict f' !! "y" = Some (pad2 y)).
  { unfold Dates.date_regex.
    destruct (re_d_head_short d (String (dg m) EmptyString +:+ "/" +:+ pad2 y) Hd)
      as [t1 E1].
    destruct (cat_head _ (chr "/") _ _ _ _ _ E1 (chr_head "/" _)) as [t2 E2].
    destruct (re_m_head_short m (pad2 y) Hm) as [t3 E3].
    destruct (cat_head _ re_m _ _ _ _ _ E2 E3) as [t4 E4].
    destruct (cat_head _ (chr "/") _ _ _ _ _ E4 (chr_head "/" _)) as [t5 E5].
    destruct (re_y_head y EmptyString Hy) as [t6 E6].
    assert (E6' : re_match Dates.re_y (pad2 y) =
                  {| groupdict := {[ "y" := pad2 y ]}; matched := pad2 y;
                     remaining := EmptyString |} :: t6) by exact E6.
    destruct (cat_head _ Dates.re_y _ _ _ _ _ E5 E6') as [t7 E7].
    eexists _, _. split; [exact E7|]. cbn [remaining groupdict].
    split; [reflexivity|].
    repeat split; vm_compute; reflexivity. }
  destruct Hs as (f' & tl' & E' & Hr' & Gd' & Gm' & Gy').
  unfold Dates.date_converter, Dates.strptime. rewrite E, E', Hr, Hr'.
  cbv zeta. unfold group. rewrite Gd, Gm, Gy, Gd', Gm', Gy'.
  cbn [mbind result_bind].
  rewrite (py_int_pad2 d), (py_int_pad2 m), (py_int_dg d), (py_int_dg m) by lia.
  reflexivity.
Qed.

End short_dates.

Lemma date_converter_pads_witness :
  Dates.date_converter
    (String (dg 3) EmptyString +:+ "/" +:+ String (dg 1) EmptyString +:+ "/" +:+ pad2 21)
  = Dates.date_converter (day_first 3 1 21).
Proof.
  refine (date_converter_pads 3 1 21 _ _ _); lia.
Defined.

(** ** [src/extract.py] *)

Lemma pretty_N_go_cons (x : N) (c : ascii) (s : string) :
  exists c' s', pretty_N_go x (String c s) = String c' s'.
Proof.
  revert c s. induction x as [x IH] using (well_founded_induction N.lt_wf_0).
  intros c s. destruct (decide (0 < x)%N) as [H|H].
  - rewrite pretty_N_go_step by assumption. apply IH.
    apply N.div_lt; lia.
  - assert (x = 0%N) as -> by lia. rewrite pretty_N_go_0. eauto.
Qed.

Lemma str_not_empty (x : Z) : exists c s, str x = String c s.
Proof.
  unfold str, pretty, pretty_Z. destruct x as [|p|p].
  - eauto.
  - unfold pretty, pretty_positive, pretty, pretty_N.
    destruct (decide _) as [|_]; [discriminate|].
    rewrite pretty_N_go_step by lia. apply pretty_N_go_cons.
  - eauto.
Qed.

(** The flag never adds a zero: the identifier is [EXH_0] followed by
    the decimal text of the site. *)
Lemma format_01_str (x : Z) : format_01 x = str x.
Proof.
  unfold format_01. destruct x as [|p|p].
  - reflexivity.
  - change (Z.pos p <? 0) with false. cbv iota.
    change (Z.abs (Z.pos p)) with (Z.pos p).
    destruct (str_not_empty (Z.pos p)) as (c & s & ->). reflexivity.
  - change (Z.neg p <? 0) with true. cbv iota.
    change (Z.abs (Z.neg p)) with (Z.pos p). reflexivity.
Qed.

(** X16.  The two paths name an exhibition alike: the streaming
    transformation of a message whose site is the decimal text of [x]
    gives the identifier the batch conversion gives the site [x] of
    the file, namely [EXH_0] followed by that decimal text (so a site
    of two digits gets seven characters). *)
Theorem exhibition_id_same_in_both_paths (x : Z) (data : pyval) (r : transformed) :
  getitem data "site" = Ok (PStr (str x)) ->
  transform_kafka_data data = Ok r ->
  site r = site_to_exhibition_id x
  /\ site_to_exhibition_id x = "EXH_0" +:+ str x.
Proof.
  intros Hs Ht.
  destruct (transform_returns _ _ Ht) as (d & s & sv & v & t & -> & _ & _ & Hsv & _ & ->).
  unfold getitem in Hs. rewrite Hsv in Hs. injection Hs as ->.
  cbn [site]. unfold site_to_exhibition_id. rewrite format_01_str.
  split; [|reflexivity].
  unfold rjust. destruct (str_not_empty x) as (c & s' & ->). reflexivity.
Qed.

Lemma exhibition_id_same_in_both_paths_witness :
  site vote_record = site_to_exhibition_id 2
  /\ site_to_exhibition_id 2 = "EXH_0" +:+ str 2.
Proof.
  refine (exhibition_id_same_in_both_paths 2 vote_message vote_record _ _).
  - vm_compute. reflexivity.
  - vm_compute. reflexivity.
Defined.

Section combine_facts.
Context {C R : Type}.
Variable read_csv : C -> result (list R).
Variable json_load : C -> result R.
Variable to_csv : list R -> C.
Variable environ : gmap string string.









End combine_facts.



